(** * LED visual-feedback engine of xiaozhi-esp32

    A shallow embedding of [main/led/circular_strip.cc], [main/led/single_led.cc]
    and [main/led/gpio_led.cc], followed by the properties of the animation
    effects and of the device-state bindings.

    Conventions.
    - C++ integers are [Z]. The result of an arithmetic expression is wrapped
      to the type it is stored in: [wrap8] for [uint8_t], [wrap32] for [int],
      [wrapu32] for [uint32_t]. An argument is a value of its parameter's
      type.
    - A member function is a state transformer on the record of the object's
      fields; [c1 ;; c2] runs [c1] and then [c2].
    - A [static] local of an effect lambda is a field of the object record: it
      has static storage duration, so it lives as long as the object does.
    - The ESP-IDF drivers ([led_strip], [ledc], [esp_timer]) are not part of
      the repository; each is modelled by the registers the code can observe. *)

From Stdlib Require Import ZArith List Bool Lia.
From stdpp Require Import base list.
Import ListNotations.
Local Open Scope Z_scope.

(** ** Machine integers *)

Definition wrap8 (z : Z) : Z := z mod 256.
Definition wrap32 (z : Z) : Z := (z + 2147483648) mod 4294967296 - 2147483648.
Definition wrapu32 (z : Z) : Z := z mod 4294967296.
Definition wrapu64 (z : Z) : Z := z mod 18446744073709551616.
Definition INT_MAX : Z := 2147483647.

(** [for (int i = first; i < first + count; i++) body] over a loop state. *)
Fixpoint for_loop {St : Type} (i : Z) (count : nat) (body : Z -> St -> St) (st : St) : St :=
  match count with
  | O => st
  | S k => for_loop (i + 1) k body (body i st)
  end.

(** ** The device state and the application singleton *)

(** Modelled from the spec: [device_state.h] is not among the sources; the
    enumeration is the one of the spec's data model (starting,
    wifi-configuring, idle, connecting, listening, audio-testing, speaking,
    upgrading, activating, unknown). *)
Inductive DeviceState :=
  | kDeviceStateUnknown
  | kDeviceStateStarting
  | kDeviceStateWifiConfiguring
  | kDeviceStateIdle
  | kDeviceStateConnecting
  | kDeviceStateListening
  | kDeviceStateSpeaking
  | kDeviceStateUpgrading
  | kDeviceStateActivating
  | kDeviceStateAudioTesting.

(** Modelled from the spec: [application.h] is not among the sources; the
    bindings pull the current device state and the voice-detection flag from
    the application singleton at call time. *)
Record Application := {
  GetDeviceState : DeviceState;
  IsVoiceDetected : bool
}.

(** ** The addressable-LED driver ([led_strip] component of ESP-IDF)

    [led_strip_set_pixel] writes one pixel of the driver's frame buffer and
    rejects an index outside the strip; [led_strip_refresh] transmits the
    frame buffer to the LEDs; [led_strip_clear] zeroes the frame buffer and
    transmits it. *)
Module led_strip.

Abbreviation rgb := (Z * Z * Z)%type.
Definition dark : rgb := (0, 0, 0).

Record t := mk {
  pixel_buf : list rgb;   (* the frame being prepared *)
  leds : list rgb         (* the frame the LEDs show *)
}.

Definition new_rmt_device (max_leds : Z) : t :=
  {| pixel_buf := replicate (Z.to_nat max_leds) dark;
     leds := replicate (Z.to_nat max_leds) dark |}.

Definition set_pixel (index r g b : Z) (d : t) : t :=
  if (0 <=? index) && (index <? Z.of_nat (length (pixel_buf d)))
  then {| pixel_buf := <[Z.to_nat index := (r, g, b)]> (pixel_buf d); leds := leds d |}
  else d.

Definition refresh (d : t) : t :=
  {| pixel_buf := pixel_buf d; leds := pixel_buf d |}.

Definition clear (d : t) : t :=
  {| pixel_buf := replicate (length (pixel_buf d)) dark;
     leds := replicate (length (pixel_buf d)) dark |}.

End led_strip.

(** ** circular_strip.h / circular_strip.cc

    The fields [blink_task_], [blink_counter_] and [blink_interval_ms_] of the
    class are never used and are left out. *)

Record StripColor := mkColor { red : Z; green : Z; blue : Z }.

Definition to_rgb (c : StripColor) : led_strip.rgb := (red c, green c, blue c).

Module CircularStrip.

Definition DEFAULT_BRIGHTNESS : Z := 32.
Definition LOW_BRIGHTNESS : Z := 4.

(** What a member function does to the world outside its own fields, in
    program order. *)
Inductive Event :=
  | EvLock                       (* std::lock_guard constructed on mutex_ *)
  | EvUnlock                     (* ... and destroyed *)
  | EvTimerStop                  (* esp_timer_stop(strip_timer_) *)
  | EvTimerStart (period_us : Z) (* esp_timer_start_periodic *)
  | EvStore (i : Z)              (* a write to colors_[i] *)
  | EvSetPixel (i : Z)           (* led_strip_set_pixel *)
  | EvRefresh                    (* led_strip_refresh *)
  | EvClear                      (* led_strip_clear *)
  | EvLogW.                      (* ESP_LOGW *)

(** The four lambdas handed to [StartStripTask], with their captures. *)
Inductive Callback :=
  | BlinkStep
  | FadeOutStep
  | BreatheStep (low high : StripColor)
  | ScrollStep (low high : StripColor) (length : Z).

Record Strip := mkStrip {
  led_strip_ : option led_strip.t;        (* None: nullptr *)
  max_leds_ : Z;
  colors_ : list StripColor;
  strip_timer_ : option Z;                (* Some p: running with period p us *)
  strip_callback_ : option Callback;      (* None: nullptr *)
  default_brightness_ : Z;
  low_brightness_ : Z;
  Blink_on : bool;                        (* static bool on, in Blink's lambda *)
  Breathe_increase : bool;                (* static bool increase *)
  Breathe_color : option StripColor;      (* static StripColor color; None before
                                             its initialiser has run *)
  Scroll_offset : Z;                      (* static int offset *)
  oob_ : bool;                            (* a subscript outside colors_ was written *)
  trace_ : list Event
}.

Definition Cmd : Type := Strip -> Strip.

Definition seq_cmd (c1 c2 : Cmd) : Cmd := fun s => c2 (c1 s).
Declare Scope cmd_scope.
Notation "c1 ;; c2" := (seq_cmd c1 c2) : cmd_scope.
Local Open Scope cmd_scope.

Definition set_led_strip v s := mkStrip v (max_leds_ s) (colors_ s) (strip_timer_ s)
  (strip_callback_ s) (default_brightness_ s) (low_brightness_ s) (Blink_on s)
  (Breathe_increase s) (Breathe_color s) (Scroll_offset s) (oob_ s) (trace_ s).
Definition set_colors v s := mkStrip (led_strip_ s) (max_leds_ s) v (strip_timer_ s)
  (strip_callback_ s) (default_brightness_ s) (low_brightness_ s) (Blink_on s)
  (Breathe_increase s) (Breathe_color s) (Scroll_offset s) (oob_ s) (trace_ s).
Definition set_strip_timer v s := mkStrip (led_strip_ s) (max_leds_ s) (colors_ s) v
  (strip_callback_ s) (default_brightness_ s) (low_brightness_ s) (Blink_on s)
  (Breathe_increase s) (Breathe_color s) (Scroll_offset s) (oob_ s) (trace_ s).
Definition set_strip_callback v s := mkStrip (led_strip_ s) (max_leds_ s) (colors_ s)
  (strip_timer_ s) v (default_brightness_ s) (low_brightness_ s) (Blink_on s)
  (Breathe_increase s) (Breathe_color s) (Scroll_offset s) (oob_ s) (trace_ s).
Definition set_brightness d l s := mkStrip (led_strip_ s) (max_leds_ s) (colors_ s)
  (strip_timer_ s) (strip_callback_ s) d l (Blink_on s)
  (Breathe_increase s) (Breathe_color s) (Scroll_offset s) (oob_ s) (trace_ s).
Definition set_Blink_on v s := mkStrip (led_strip_ s) (max_leds_ s) (colors_ s)
  (strip_timer_ s) (strip_callback_ s) (default_brightness_ s) (low_brightness_ s) v
  (Breathe_increase s) (Breathe_color s) (Scroll_offset s) (oob_ s) (trace_ s).
Definition set_Breathe inc col s := mkStrip (led_strip_ s) (max_leds_ s) (colors_ s)
  (strip_timer_ s) (strip_callback_ s) (default_brightness_ s) (low_brightness_ s)
  (Blink_on s) inc col (Scroll_offset s) (oob_ s) (trace_ s).
Definition set_Scroll_offset v s := mkStrip (led_strip_ s) (max_leds_ s) (colors_ s)
  (strip_timer_ s) (strip_callback_ s) (default_brightness_ s) (low_brightness_ s)
  (Blink_on s) (Breathe_increase s) (Breathe_color s) v (oob_ s) (trace_ s).
Definition set_oob v s := mkStrip (led_strip_ s) (max_leds_ s) (colors_ s)
  (strip_timer_ s) (strip_callback_ s) (default_brightness_ s) (low_brightness_ s)
  (Blink_on s) (Breathe_increase s) (Breathe_color s) (Scroll_offset s) v (trace_ s).
Definition emit (e : Event) : Cmd := fun s => mkStrip (led_strip_ s) (max_leds_ s)
  (colors_ s) (strip_timer_ s) (strip_callback_ s) (default_brightness_ s)
  (low_brightness_ s) (Blink_on s) (Breathe_increase s) (Breathe_color s)
  (Scroll_offset s) (oob_ s) (trace_ s ++ [e]).

(** *** Primitive statements *)

(** [std::lock_guard<std::mutex> lock(mutex_);] followed by [body] up to the
    end of the enclosing function. *)
Definition lock_guard (body : Cmd) : Cmd := emit EvLock ;; body ;; emit EvUnlock.

Definition esp_timer_stop : Cmd := set_strip_timer None ;; emit EvTimerStop.

Definition esp_timer_start_periodic (period_us : Z) : Cmd :=
  set_strip_timer (Some (wrapu64 period_us)) ;; emit (EvTimerStart (wrapu64 period_us)).

Definition in_bounds (i : Z) (s : Strip) : bool :=
  (0 <=? i) && (i <? Z.of_nat (length (colors_ s))).

(** [colors_[i]] read. [std::vector::operator[]] does not check its
    argument; every read of the source is at an index below [max_leds_]. *)
Definition load (i : Z) (s : Strip) : StripColor :=
  default (mkColor 0 0 0) (colors_ s !! Z.to_nat i).

(** [colors_[i] = f(colors_[i])]. Outside the vector the store is undefined
    behaviour: the model leaves the vector alone and raises [oob_]. *)
Definition modify (i : Z) (f : StripColor -> StripColor) : Cmd := fun s =>
  emit (EvStore i)
    (if in_bounds i s
     then set_colors (<[Z.to_nat i := f (load i s)]> (colors_ s)) s
     else set_oob true s).

Definition store (i : Z) (c : StripColor) : Cmd := modify i (fun _ => c).

Definition with_driver (f : led_strip.t -> led_strip.t) : Cmd := fun s =>
  match led_strip_ s with
  | Some d => set_led_strip (Some (f d)) s
  | None => s
  end.

Definition led_strip_set_pixel (i r g b : Z) : Cmd :=
  with_driver (led_strip.set_pixel i r g b) ;; emit (EvSetPixel i).
Definition led_strip_refresh : Cmd := with_driver led_strip.refresh ;; emit EvRefresh.
Definition led_strip_clear : Cmd := with_driver led_strip.clear ;; emit EvClear.

(** [for (int i = 0; i < max_leds_; i++) body(i)] *)
Definition for_leds (body : Z -> Cmd) : Cmd := fun s =>
  for_loop 0 (Z.to_nat (max_leds_ s)) body s.

(** *** Construction *)

Definition new (max_leds : Z) : Strip :=
  {| led_strip_ := Some (led_strip.clear (led_strip.new_rmt_device max_leds));
     max_leds_ := max_leds;
     colors_ := replicate (Z.to_nat max_leds) (mkColor 0 0 0);
     strip_timer_ := None;
     strip_callback_ := None;
     default_brightness_ := DEFAULT_BRIGHTNESS;
     low_brightness_ := LOW_BRIGHTNESS;
     Blink_on := true;
     Breathe_increase := true;
     Breathe_color := None;
     Scroll_offset := 0;
     oob_ := false;
     trace_ := [] |}.

(** *** The effect steps (the bodies of the lambdas) *)

Definition Blink_step : Cmd := fun s =>
  set_Blink_on (negb (Blink_on s))
    ((if Blink_on s
      then for_leds (fun i s' =>
               led_strip_set_pixel i (red (load i s')) (green (load i s')) (blue (load i s')) s')
           ;; led_strip_refresh
      else led_strip_clear) s).

Definition FadeOut_body (i : Z) (st : bool * Strip) : bool * Strip :=
  let s := modify i (fun c => mkColor (wrap8 (Z.quot (red c) 2)) (green c) (blue c)) (snd st) in
  let s := modify i (fun c => mkColor (red c) (wrap8 (Z.quot (green c) 2)) (blue c)) s in
  let s := modify i (fun c => mkColor (red c) (green c) (wrap8 (Z.quot (blue c) 2))) s in
  let c := load i s in
  let all_off :=
    if negb (red c =? 0) || negb (green c =? 0) || negb (blue c =? 0)
    then false else fst st in
  (all_off, led_strip_set_pixel i (red c) (green c) (blue c) s).

Definition FadeOut_step : Cmd := fun s =>
  let st := for_loop 0 (Z.to_nat (max_leds_ s)) FadeOut_body (true, s) in
  if fst st
  then (led_strip_clear ;; esp_timer_stop) (snd st)
  else led_strip_refresh (snd st).

(** One evaluation of the [if (increase) ... else ...] statement on the two
    statics. *)
Definition Breathe_update (low high : StripColor) (increase : bool) (color : StripColor)
  : bool * StripColor :=
  if increase then
    let color := if red color <? red high
                 then mkColor (wrap8 (red color + 1)) (green color) (blue color) else color in
    let color := if green color <? green high
                 then mkColor (red color) (wrap8 (green color + 1)) (blue color) else color in
    let color := if blue color <? blue high
                 then mkColor (red color) (green color) (wrap8 (blue color + 1)) else color in
    (if (red color =? red high) && (green color =? green high) && (blue color =? blue high)
     then false else increase, color)
  else
    let color := if red low <? red color
                 then mkColor (wrap8 (red color - 1)) (green color) (blue color) else color in
    let color := if green low <? green color
                 then mkColor (red color) (wrap8 (green color - 1)) (blue color) else color in
    let color := if blue low <? blue color
                 then mkColor (red color) (green color) (wrap8 (blue color - 1)) else color in
    (if (red color =? red low) && (green color =? green low) && (blue color =? blue low)
     then true else increase, color).

Definition Breathe_step (low high : StripColor) : Cmd := fun s =>
  let color := default low (Breathe_color s) in
  let st := Breathe_update low high (Breathe_increase s) color in
  (for_leds (fun i => led_strip_set_pixel i (red (snd st)) (green (snd st)) (blue (snd st)))
   ;; led_strip_refresh)
    (set_Breathe (fst st) (Some (snd st)) s).

Definition Scroll_step (low high : StripColor) (length : Z) : Cmd :=
  for_leds (fun i => store i low) ;;
  for_loop 0 (Z.to_nat length) (fun j s =>
    store (Z.rem (wrap32 (Scroll_offset s + j)) (max_leds_ s)) high s) ;;
  for_leds (fun i s =>
    led_strip_set_pixel i (red (load i s)) (green (load i s)) (blue (load i s)) s) ;;
  led_strip_refresh ;;
  (fun s => set_Scroll_offset (Z.rem (wrap32 (Scroll_offset s + 1)) (max_leds_ s)) s).

Definition run (cb : Callback) : Cmd :=
  match cb with
  | BlinkStep => Blink_step
  | FadeOutStep => FadeOut_step
  | BreatheStep low high => Breathe_step low high
  | ScrollStep low high length => Scroll_step low high length
  end.

(** The [esp_timer] callback installed by the constructor: one tick. *)
Definition timer_callback : Cmd :=
  lock_guard (fun s =>
    match strip_callback_ s with
    | Some cb => run cb s
    | None => s
    end).

(** *** The public operations *)

Definition SetAllColor (color : StripColor) : Cmd :=
  lock_guard (
    esp_timer_stop ;;
    for_leds (fun i =>
      store i color ;;
      led_strip_set_pixel i (red color) (green color) (blue color)) ;;
    led_strip_refresh).

Definition SetSingleColor (index : Z) (color : StripColor) : Cmd :=
  lock_guard (
    esp_timer_stop ;;
    store index color ;;
    led_strip_set_pixel index (red color) (green color) (blue color) ;;
    led_strip_refresh).

Definition StartStripTask (interval_ms : Z) (cb : Callback) : Cmd := fun s =>
  match led_strip_ s with
  | None => s
  | Some _ =>
      lock_guard (
        esp_timer_stop ;;
        set_strip_callback (Some cb) ;;
        esp_timer_start_periodic (wrap32 (interval_ms * 1000))) s
  end.

Definition Blink (color : StripColor) (interval_ms : Z) : Cmd :=
  for_leds (fun i => store i color) ;;
  StartStripTask interval_ms BlinkStep.

Definition FadeOut (interval_ms : Z) : Cmd :=
  StartStripTask interval_ms FadeOutStep.

Definition Breathe (low high : StripColor) (interval_ms : Z) : Cmd :=
  StartStripTask interval_ms (BreatheStep low high).

Definition Scroll (low high : StripColor) (length interval_ms : Z) : Cmd :=
  for_leds (fun i => store i low) ;;
  StartStripTask interval_ms (ScrollStep low high length).

Definition OnStateChanged (app : Application) : Cmd := fun s =>
  match GetDeviceState app with
  | kDeviceStateStarting =>
      Scroll (mkColor 0 0 0)
             (mkColor (low_brightness_ s) (low_brightness_ s) (default_brightness_ s))
             3 100 s
  | kDeviceStateWifiConfiguring =>
      Blink (mkColor (low_brightness_ s) (low_brightness_ s) (default_brightness_ s)) 500 s
  | kDeviceStateIdle =>
      FadeOut 50 s
  | kDeviceStateConnecting =>
      SetAllColor (mkColor (low_brightness_ s) (low_brightness_ s) (default_brightness_ s)) s
  | kDeviceStateListening
  | kDeviceStateAudioTesting =>
      SetAllColor (mkColor (default_brightness_ s) (low_brightness_ s) (low_brightness_ s)) s
  | kDeviceStateSpeaking =>
      SetAllColor (mkColor (low_brightness_ s) (default_brightness_ s) (low_brightness_ s)) s
  | kDeviceStateUpgrading =>
      Blink (mkColor (low_brightness_ s) (default_brightness_ s) (low_brightness_ s)) 100 s
  | kDeviceStateActivating =>
      Blink (mkColor (low_brightness_ s) (default_brightness_ s) (low_brightness_ s)) 500 s
  | kDeviceStateUnknown =>
      emit EvLogW s
  end.

Definition SetBrightness (default_brightness low_brightness : Z) (app : Application) : Cmd :=
  set_brightness default_brightness low_brightness ;;
  OnStateChanged app.

(** [n] ticks of the timer callback, one after another. *)
Definition ticks (n : nat) (s : Strip) : Strip := Nat.iter n timer_callback s.

End CircularStrip.

(** ** single_led.h / single_led.cc

    [mutex_] is taken at the top of every function that touches the driver or
    the timer and has no effect on the state a single thread sees; it is left
    out here and in [GpioLed]. [blink_task_] is never used. *)

Module SingleLed.

Definition DEFAULT_BRIGHTNESS : Z := 4.
Definition HIGH_BRIGHTNESS : Z := 16.
Definition LOW_BRIGHTNESS : Z := 2.
Definition BLINK_INFINITE : Z := -1.

Record Led := mkLed {
  led_strip_ : option led_strip.t;     (* None: nullptr *)
  r_ : Z;
  g_ : Z;
  b_ : Z;
  blink_counter_ : Z;
  blink_interval_ms_ : Z;
  blink_timer_ : option Z;             (* Some p: running with period p us *)
  warnings_ : nat                      (* lines written by ESP_LOGW *)
}.

Definition Cmd : Type := Led -> Led.
Definition seq_cmd (c1 c2 : Cmd) : Cmd := fun s => c2 (c1 s).
Declare Scope single_scope.
Notation "c1 ;; c2" := (seq_cmd c1 c2) : single_scope.
Local Open Scope single_scope.

Definition with_driver (f : led_strip.t -> led_strip.t) : Cmd := fun s =>
  mkLed (option_map f (led_strip_ s)) (r_ s) (g_ s) (b_ s) (blink_counter_ s)
    (blink_interval_ms_ s) (blink_timer_ s) (warnings_ s).
Definition set_blink_timer v : Cmd := fun s =>
  mkLed (led_strip_ s) (r_ s) (g_ s) (b_ s) (blink_counter_ s)
    (blink_interval_ms_ s) v (warnings_ s).
Definition set_blink_counter v : Cmd := fun s =>
  mkLed (led_strip_ s) (r_ s) (g_ s) (b_ s) v
    (blink_interval_ms_ s) (blink_timer_ s) (warnings_ s).
Definition set_blink_interval_ms v : Cmd := fun s =>
  mkLed (led_strip_ s) (r_ s) (g_ s) (b_ s) (blink_counter_ s)
    v (blink_timer_ s) (warnings_ s).
Definition ESP_LOGW : Cmd := fun s =>
  mkLed (led_strip_ s) (r_ s) (g_ s) (b_ s) (blink_counter_ s)
    (blink_interval_ms_ s) (blink_timer_ s) (S (warnings_ s)).

Definition esp_timer_stop : Cmd := set_blink_timer None.
Definition esp_timer_start_periodic (period_us : Z) : Cmd :=
  set_blink_timer (Some (wrapu64 period_us)).
Definition led_strip_set_pixel (i r g b : Z) : Cmd := with_driver (led_strip.set_pixel i r g b).
Definition led_strip_refresh : Cmd := with_driver led_strip.refresh.
Definition led_strip_clear : Cmd := with_driver led_strip.clear.

Definition new : Led :=
  {| led_strip_ := Some (led_strip.clear (led_strip.new_rmt_device 1));
     r_ := 0; g_ := 0; b_ := 0;
     blink_counter_ := 0;
     blink_interval_ms_ := 0;
     blink_timer_ := None;
     warnings_ := 0 |}.

Definition SetColor (r g b : Z) : Cmd := fun s =>
  mkLed (led_strip_ s) r g b (blink_counter_ s)
    (blink_interval_ms_ s) (blink_timer_ s) (warnings_ s).

Definition TurnOn : Cmd := fun s =>
  match led_strip_ s with
  | None => s
  | Some _ =>
      (esp_timer_stop ;;
       (fun s => led_strip_set_pixel 0 (r_ s) (g_ s) (b_ s) s) ;;
       led_strip_refresh) s
  end.

Definition TurnOff : Cmd := fun s =>
  match led_strip_ s with
  | None => s
  | Some _ => (esp_timer_stop ;; led_strip_clear) s
  end.

Definition StartBlinkTask (times interval_ms : Z) : Cmd := fun s =>
  match led_strip_ s with
  | None => s
  | Some _ =>
      (esp_timer_stop ;;
       set_blink_counter (wrap32 (times * 2)) ;;
       set_blink_interval_ms interval_ms ;;
       esp_timer_start_periodic (wrap32 (interval_ms * 1000))) s
  end.

Definition Blink (times interval_ms : Z) : Cmd := StartBlinkTask times interval_ms.
Definition BlinkOnce : Cmd := Blink 1 100.
Definition StartContinuousBlink (interval_ms : Z) : Cmd :=
  StartBlinkTask BLINK_INFINITE interval_ms.

Definition OnBlinkTimer : Cmd :=
  (fun s => set_blink_counter (wrap32 (blink_counter_ s - 1)) s) ;;
  (fun s =>
     if negb (Z.land (blink_counter_ s) 1 =? 0)
     then ((fun s => led_strip_set_pixel 0 (r_ s) (g_ s) (b_ s) s) ;; led_strip_refresh) s
     else (led_strip_clear ;;
           (fun s => if blink_counter_ s =? 0 then esp_timer_stop s else s)) s).

Definition OnStateChanged (app : Application) : Cmd :=
  match GetDeviceState app with
  | kDeviceStateStarting =>
      SetColor 0 0 DEFAULT_BRIGHTNESS ;; StartContinuousBlink 100
  | kDeviceStateWifiConfiguring =>
      SetColor 0 0 DEFAULT_BRIGHTNESS ;; StartContinuousBlink 500
  | kDeviceStateIdle =>
      TurnOff
  | kDeviceStateConnecting =>
      SetColor 0 0 DEFAULT_BRIGHTNESS ;; TurnOn
  | kDeviceStateListening
  | kDeviceStateAudioTesting =>
      (if IsVoiceDetected app
       then SetColor HIGH_BRIGHTNESS 0 0
       else SetColor LOW_BRIGHTNESS 0 0) ;;
      TurnOn
  | kDeviceStateSpeaking =>
      SetColor 0 DEFAULT_BRIGHTNESS 0 ;; TurnOn
  | kDeviceStateUpgrading =>
      SetColor 0 DEFAULT_BRIGHTNESS 0 ;; StartContinuousBlink 100
  | kDeviceStateActivating =>
      SetColor 0 DEFAULT_BRIGHTNESS 0 ;; StartContinuousBlink 500
  | kDeviceStateUnknown =>
      ESP_LOGW
  end.

(** [n] expiries of the blink timer, one after another. *)
Definition ticks (n : nat) (s : Led) : Led := Nat.iter n OnBlinkTimer s.

End SingleLed.

(** ** The PWM controller ([ledc] driver of ESP-IDF)

    [ledc_set_duty] latches a duty value that [ledc_update_duty] puts on the
    output; [ledc_set_fade_with_time] programs a ramp to a target duty that
    [ledc_fade_start] starts and [ledc_fade_stop] cancels. *)
Module ledc.

Record t := mk {
  duty_latch : Z;                 (* written by ledc_set_duty *)
  duty_out : Z;                   (* the duty the pin is driven with *)
  fade_target : option (Z * Z);   (* target duty and ramp time, once programmed *)
  fading : bool                   (* a ramp is in progress *)
}.

Definition channel_config : t :=
  {| duty_latch := 0; duty_out := 0; fade_target := None; fading := false |}.
Definition set_duty (d : Z) (c : t) : t := mk d (duty_out c) (fade_target c) (fading c).
Definition update_duty (c : t) : t := mk (duty_latch c) (duty_latch c) (fade_target c) (fading c).
Definition fade_stop (c : t) : t := mk (duty_latch c) (duty_out c) (fade_target c) false.
Definition set_fade_with_time (target time_ms : Z) (c : t) : t :=
  mk (duty_latch c) (duty_out c) (Some (target, time_ms)) (fading c).
Definition fade_start (c : t) : t := mk (duty_latch c) (duty_out c) (fade_target c) true.

End ledc.

(** ** gpio_led.h / gpio_led.cc *)

Module GpioLed.

Definition DEFAULT_BRIGHTNESS : Z := 50.
Definition HIGH_BRIGHTNESS : Z := 100.
Definition LOW_BRIGHTNESS : Z := 10.
Definition IDLE_BRIGHTNESS : Z := 5.
Definition SPEAKING_BRIGHTNESS : Z := 75.
Definition UPGRADING_BRIGHTNESS : Z := 25.
Definition ACTIVATING_BRIGHTNESS : Z := 35.
Definition BLINK_INFINITE : Z := -1.
Definition LEDC_DUTY : Z := 8191.
Definition LEDC_FADE_TIME : Z := 1000.

Record Led := mkLed {
  ledc_channel_ : ledc.t;
  ledc_initialized_ : bool;
  duty_ : Z;
  blink_counter_ : Z;
  blink_interval_ms_ : Z;
  blink_timer_ : option Z;             (* Some p: running with period p us *)
  fade_up_ : bool;
  errors_ : nat                        (* lines written by ESP_LOGE *)
}.

Definition Cmd : Type := Led -> Led.
Definition seq_cmd (c1 c2 : Cmd) : Cmd := fun s => c2 (c1 s).
Declare Scope gpio_scope.
Notation "c1 ;; c2" := (seq_cmd c1 c2) : gpio_scope.
Local Open Scope gpio_scope.

Definition with_ledc (f : ledc.t -> ledc.t) : Cmd := fun s =>
  mkLed (f (ledc_channel_ s)) (ledc_initialized_ s) (duty_ s) (blink_counter_ s)
    (blink_interval_ms_ s) (blink_timer_ s) (fade_up_ s) (errors_ s).
Definition set_duty_ v : Cmd := fun s =>
  mkLed (ledc_channel_ s) (ledc_initialized_ s) v (blink_counter_ s)
    (blink_interval_ms_ s) (blink_timer_ s) (fade_up_ s) (errors_ s).
Definition set_blink_counter v : Cmd := fun s =>
  mkLed (ledc_channel_ s) (ledc_initialized_ s) (duty_ s) v
    (blink_interval_ms_ s) (blink_timer_ s) (fade_up_ s) (errors_ s).
Definition set_blink_interval_ms v : Cmd := fun s =>
  mkLed (ledc_channel_ s) (ledc_initialized_ s) (duty_ s) (blink_counter_ s)
    v (blink_timer_ s) (fade_up_ s) (errors_ s).
Definition set_blink_timer v : Cmd := fun s =>
  mkLed (ledc_channel_ s) (ledc_initialized_ s) (duty_ s) (blink_counter_ s)
    (blink_interval_ms_ s) v (fade_up_ s) (errors_ s).
Definition set_fade_up v : Cmd := fun s =>
  mkLed (ledc_channel_ s) (ledc_initialized_ s) (duty_ s) (blink_counter_ s)
    (blink_interval_ms_ s) (blink_timer_ s) v (errors_ s).
Definition ESP_LOGE : Cmd := fun s =>
  mkLed (ledc_channel_ s) (ledc_initialized_ s) (duty_ s) (blink_counter_ s)
    (blink_interval_ms_ s) (blink_timer_ s) (fade_up_ s) (S (errors_ s)).

Definition esp_timer_stop : Cmd := set_blink_timer None.
Definition esp_timer_start_periodic (period_us : Z) : Cmd :=
  set_blink_timer (Some (wrapu64 period_us)).
Definition ledc_set_duty (d : Z) : Cmd := with_ledc (ledc.set_duty d).
Definition ledc_update_duty : Cmd := with_ledc ledc.update_duty.
Definition ledc_fade_stop : Cmd := with_ledc ledc.fade_stop.
Definition ledc_set_fade_with_time (target time_ms : Z) : Cmd :=
  with_ledc (ledc.set_fade_with_time target time_ms).
Definition ledc_fade_start : Cmd := with_ledc ledc.fade_start.

Definition new : Led :=
  {| ledc_channel_ := ledc.channel_config;
     ledc_initialized_ := true;
     duty_ := 0;
     blink_counter_ := 0;
     blink_interval_ms_ := 0;
     blink_timer_ := None;
     fade_up_ := true;
     errors_ := 0 |}.

Definition SetBrightness (brightness : Z) : Cmd :=
  if brightness =? 100
  then set_duty_ LEDC_DUTY
  else set_duty_ (wrapu32 (Z.quot (wrap32 (brightness * LEDC_DUTY)) 100)).

Definition TurnOn : Cmd := fun s =>
  if negb (ledc_initialized_ s) then s
  else (esp_timer_stop ;;
        ledc_fade_stop ;;
        (fun s => ledc_set_duty (duty_ s) s) ;;
        ledc_update_duty) s.

Definition TurnOff : Cmd := fun s =>
  if negb (ledc_initialized_ s) then s
  else (esp_timer_stop ;;
        ledc_fade_stop ;;
        ledc_set_duty 0 ;;
        ledc_update_duty) s.

Definition StartBlinkTask (times interval_ms : Z) : Cmd := fun s =>
  if negb (ledc_initialized_ s) then s
  else (esp_timer_stop ;;
        ledc_fade_stop ;;
        set_blink_counter (wrap32 (times * 2)) ;;
        set_blink_interval_ms interval_ms ;;
        esp_timer_start_periodic (wrap32 (interval_ms * 1000))) s.

Definition Blink (times interval_ms : Z) : Cmd := StartBlinkTask times interval_ms.
Definition BlinkOnce : Cmd := Blink 1 100.
Definition StartContinuousBlink (interval_ms : Z) : Cmd :=
  StartBlinkTask BLINK_INFINITE interval_ms.

Definition OnBlinkTimer : Cmd :=
  (fun s => set_blink_counter (wrap32 (blink_counter_ s - 1)) s) ;;
  (fun s =>
     if negb (Z.land (blink_counter_ s) 1 =? 0)
     then ledc_set_duty (duty_ s) s
     else (ledc_set_duty 0 ;;
           (fun s => if blink_counter_ s =? 0 then esp_timer_stop s else s)) s) ;;
  ledc_update_duty.

Definition StartFadeTask : Cmd := fun s =>
  if negb (ledc_initialized_ s) then s
  else (esp_timer_stop ;;
        ledc_fade_stop ;;
        set_fade_up true ;;
        ledc_set_fade_with_time LEDC_DUTY LEDC_FADE_TIME ;;
        ledc_fade_start) s.

Definition OnFadeEnd : Cmd :=
  (fun s => set_fade_up (negb (fade_up_ s)) s) ;;
  (fun s => ledc_set_fade_with_time (if fade_up_ s then LEDC_DUTY else 0) LEDC_FADE_TIME s) ;;
  ledc_fade_start.

Definition OnStateChanged (app : Application) : Cmd :=
  match GetDeviceState app with
  | kDeviceStateStarting =>
      SetBrightness DEFAULT_BRIGHTNESS ;; StartContinuousBlink 100
  | kDeviceStateWifiConfiguring =>
      SetBrightness DEFAULT_BRIGHTNESS ;; StartContinuousBlink 500
  | kDeviceStateIdle =>
      SetBrightness IDLE_BRIGHTNESS ;; TurnOn
  | kDeviceStateConnecting =>
      SetBrightness DEFAULT_BRIGHTNESS ;; TurnOn
  | kDeviceStateListening
  | kDeviceStateAudioTesting =>
      (if IsVoiceDetected app
       then SetBrightness HIGH_BRIGHTNESS
       else SetBrightness LOW_BRIGHTNESS) ;;
      StartFadeTask
  | kDeviceStateSpeaking =>
      SetBrightness SPEAKING_BRIGHTNESS ;; TurnOn
  | kDeviceStateUpgrading =>
      SetBrightness UPGRADING_BRIGHTNESS ;; StartContinuousBlink 100
  | kDeviceStateActivating =>
      SetBrightness ACTIVATING_BRIGHTNESS ;; StartContinuousBlink 500
  | kDeviceStateUnknown =>
      ESP_LOGE
  end.

End GpioLed.

(** * Properties *)

(** ** Vocabulary of the statements *)

Definition channel_ok (z : Z) : Prop := 0 <= z < 256.

Definition color_ok (c : StripColor) : Prop :=
  channel_ok (red c) /\ channel_ok (green c) /\ channel_ok (blue c).

(** The state a constructed [CircularStrip] is in: the vector has [max_leds_]
    entries of three [uint8_t] each, and the driver handle is valid for a
    strip of [max_leds_] pixels. *)
Definition strip_wf (s : CircularStrip.Strip) : Prop :=
  0 <= CircularStrip.max_leds_ s /\
  length (CircularStrip.colors_ s) = Z.to_nat (CircularStrip.max_leds_ s) /\
  Forall color_ok (CircularStrip.colors_ s) /\
  exists d, CircularStrip.led_strip_ s = Some d /\
            length (led_strip.pixel_buf d) = Z.to_nat (CircularStrip.max_leds_ s).

Definition halve (c : StripColor) : StripColor :=
  mkColor (red c / 2) (green c / 2) (blue c / 2).

Definition is_dark (c : StripColor) : bool :=
  (red c =? 0) && (green c =? 0) && (blue c =? 0).

Definition color_max (c : StripColor) : Z := Z.max (red c) (Z.max (green c) (blue c)).

(** The largest channel value of a buffer (0 for the empty buffer). *)
Definition max_channel (cs : list StripColor) : Z :=
  foldr (fun c m => Z.max (color_max c) m) 0 cs.

(** The display shows what the driver last transmitted. *)
Definition shown (s : CircularStrip.Strip) : list led_strip.rgb :=
  match CircularStrip.led_strip_ s with
  | Some d => led_strip.leds d
  | None => []
  end.

(** The fields of a strip that no pixel loop writes. *)
Definition ctl (s : CircularStrip.Strip) :=
  (CircularStrip.max_leds_ s, CircularStrip.strip_timer_ s, CircularStrip.strip_callback_ s,
   CircularStrip.default_brightness_ s, CircularStrip.low_brightness_ s,
   CircularStrip.Blink_on s, CircularStrip.Breathe_increase s,
   CircularStrip.Breathe_color s, CircularStrip.Scroll_offset s).

(** [i] lies in the window of [len] pixels that starts at pixel [start] of a
    ring of [n] pixels. *)
Definition in_window (n len start i : Z) : bool :=
  existsb (fun j => (start + j) mod n =? i) (seqZ 0 len).

(** The ring with that window set to [high] and the rest to [low]. *)
Definition paint (n len start : Z) (low high : StripColor) : list StripColor :=
  map (fun i => if in_window n len start i then high else low) (seqZ 0 n).

(** [strip_wf] without the range of the channels. *)
Definition strip_shape (s : CircularStrip.Strip) : Prop :=
  0 <= CircularStrip.max_leds_ s /\
  length (CircularStrip.colors_ s) = Z.to_nat (CircularStrip.max_leds_ s) /\
  exists d, CircularStrip.led_strip_ s = Some d /\
            length (led_strip.pixel_buf d) = Z.to_nat (CircularStrip.max_leds_ s).

(** Every write to [colors_] in a trace happens between an [EvLock] and the
    [EvUnlock] that follows it; [held] says whether the lock is held where the
    trace starts. *)
Fixpoint stores_locked (held : bool) (tr : list CircularStrip.Event) : bool :=
  match tr with
  | [] => true
  | CircularStrip.EvLock :: tr' => stores_locked true tr'
  | CircularStrip.EvUnlock :: tr' => stores_locked false tr'
  | CircularStrip.EvStore _ :: tr' => held && stores_locked held tr'
  | _ :: tr' => stores_locked held tr'
  end.

(** The state a constructed [SingleLed] is in: a valid handle to a strip of
    one pixel. *)
Definition single_wf (s : SingleLed.Led) : Prop :=
  exists d, SingleLed.led_strip_ s = Some d /\ length (led_strip.pixel_buf d) = 1%nat.

(** What the single LED shows. *)
Definition single_shown (s : SingleLed.Led) : list led_strip.rgb :=
  match SingleLed.led_strip_ s with
  | Some d => led_strip.leds d
  | None => []
  end.

(** The application in a given device state. *)
Definition app_in (state : DeviceState) (voice_detected : bool) : Application :=
  {| GetDeviceState := state; IsVoiceDetected := voice_detected |}.

(** The operations of a [GpioLed] that follow a [SetBrightness]: the member
    functions and the two callbacks. *)
Inductive GpioOp :=
  | OpTurnOn
  | OpTurnOff
  | OpBlink (times interval_ms : Z)
  | OpStartContinuousBlink (interval_ms : Z)
  | OpBlinkTimer
  | OpStartFadeTask
  | OpFadeEnd.

Definition gpio_exec (op : GpioOp) : GpioLed.Cmd :=
  match op with
  | OpTurnOn => GpioLed.TurnOn
  | OpTurnOff => GpioLed.TurnOff
  | OpBlink times interval_ms => GpioLed.Blink times interval_ms
  | OpStartContinuousBlink interval_ms => GpioLed.StartContinuousBlink interval_ms
  | OpBlinkTimer => GpioLed.OnBlinkTimer
  | OpStartFadeTask => GpioLed.StartFadeTask
  | OpFadeEnd => GpioLed.OnFadeEnd
  end.

Definition gpio_run (ops : list GpioOp) (s : GpioLed.Led) : GpioLed.Led :=
  fold_left (fun s op => gpio_exec op s) ops s.

(** Channel-wise order of two colours. *)
Definition color_le (a b : StripColor) : Prop :=
  red a <= red b /\ green a <= green b /\ blue a <= blue b.

(** The largest channel distance between two bounds. *)
Definition span (low high : StripColor) : Z :=
  Z.max (red high - red low) (Z.max (green high - green low) (blue high - blue low)).

(** [k] steps up from [low], each channel stopping at [high]; [j] steps down
    from [high], each channel stopping at [low]. *)
Definition ramp_up (low high : StripColor) (k : Z) : StripColor :=
  mkColor (Z.min (red low + k) (red high)) (Z.min (green low + k) (green high))
          (Z.min (blue low + k) (blue high)).

Definition ramp_down (low high : StripColor) (j : Z) : StripColor :=
  mkColor (Z.max (red high - j) (red low)) (Z.max (green high - j) (green low))
          (Z.max (blue high - j) (blue low)).

(** An event other than taking or releasing the lock. *)
Definition plain_event (e : CircularStrip.Event) : bool :=
  match e with
  | CircularStrip.EvLock | CircularStrip.EvUnlock => false
  | _ => true
  end.

(** A statement that only appends to the trace, and neither takes nor
    releases the lock. *)
Definition plain_cmd {St : Type} (tr_of : St -> list CircularStrip.Event) (c : St -> St) : Prop :=
  forall s, exists tr, tr_of (c s) = tr_of s ++ tr /\ forallb plain_event tr = true.

(** From [s] to [s'] the trace grew by one critical section: the lock is
    taken first, released last, and not touched in between. *)
Definition critical_section (s s' : CircularStrip.Strip) : Prop :=
  exists body,
    CircularStrip.trace_ s' =
      CircularStrip.trace_ s ++ CircularStrip.EvLock :: body ++ [CircularStrip.EvUnlock] /\
    forallb plain_event body = true /\
    stores_locked false (CircularStrip.EvLock :: body ++ [CircularStrip.EvUnlock]) = true.

(** ** Loops *)

Lemma for_loop_ind {St : Type} (P : nat -> St -> Prop) (body : Z -> St -> St) :
  forall count st,
    P O st ->
    (forall k st', (k < count)%nat -> P k st' -> P (S k) (body (Z.of_nat k) st')) ->
    P count (for_loop 0 count body st).
Proof.
  intros count st H0 Hstep.
  assert (G : forall c i st', (i + c = count)%nat -> P i st' ->
              P count (for_loop (Z.of_nat i) c body st')).
  { induction c as [|c IH]; intros i st' Hic Hi; simpl.
    - replace count with i by lia. exact Hi.
    - replace (Z.of_nat i + 1) with (Z.of_nat (S i)) by lia.
      apply IH; [lia|]. apply Hstep; [lia|exact Hi]. }
  apply (G count O st); [lia|exact H0].
Qed.

(** ** Facts about the machine integers *)

Lemma wrap32_small z : 0 <= z <= INT_MAX -> wrap32 z = z.
Proof.
  unfold wrap32, INT_MAX. intros H.
  rewrite Z.mod_small by lia. lia.
Qed.

Lemma land_1_odd c : negb (Z.land c 1 =? 0) = Z.odd c.
Proof.
  change 1 with (Z.ones 1) at 1. rewrite Z.land_ones by lia.
  change (2 ^ 1) with 2. rewrite Zmod_odd. destruct (Z.odd c); reflexivity.
Qed.

Lemma wrap32_pred x : wrap32 (wrap32 x - 1) = wrap32 (x - 1).
Proof.
  unfold wrap32.
  replace ((x + 2147483648) mod 4294967296 - 2147483648 - 1 + 2147483648)
    with ((x + 2147483648) mod 4294967296 - 1) by lia.
  rewrite Zminus_mod_idemp_l. f_equal. f_equal. lia.
Qed.

Lemma wrap32_nonzero v : 0 < v < 4294967296 -> wrap32 v <> 0.
Proof.
  unfold wrap32. intros Hv H.
  assert (E : (v + 2147483648) mod 4294967296 = 2147483648) by lia.
  destruct (Z_lt_le_dec v 2147483648) as [Hlt|Hge].
  - rewrite Z.mod_small in E by lia. lia.
  - replace (v + 2147483648) with (v - 2147483648 + 1 * 4294967296) in E by lia.
    rewrite Z.mod_add, Z.mod_small in E by lia. lia.
Qed.

Lemma wrap32_id z : - 2147483648 <= z <= INT_MAX -> wrap32 z = z.
Proof. unfold wrap32, INT_MAX. intros H. rewrite Z.mod_small by lia. lia. Qed.

Lemma wrap32_parity y : Z.odd (wrap32 y) = Z.odd y.
Proof.
  unfold wrap32.
  rewrite (Z.mod_eq (y + 2147483648) 4294967296) by lia.
  replace (y + 2147483648 - 4294967296 * ((y + 2147483648) / 4294967296) - 2147483648)
    with (y + 2 * (- (2147483648 * ((y + 2147483648) / 4294967296)))) by lia.
  apply Z.odd_add_mul_2.
Qed.

(** The first tick of a blink is an "on" tick. *)
Lemma first_tick_odd times : Z.odd (wrap32 (wrap32 (times * 2) - 1)) = true.
Proof.
  rewrite wrap32_parity, Z.odd_sub, wrap32_parity, Z.mul_comm, Z.odd_mul.
  reflexivity.
Qed.

(** ** The multi-pixel strip *)

Module CircularStripProps.
Import CircularStrip.

Lemma load_at s (pre : list StripColor) x rest i :
  colors_ s = pre ++ x :: rest -> i = Z.of_nat (length pre) -> load i s = x.
Proof.
  intros Hc ->. unfold load. rewrite Nat2Z.id, Hc.
  rewrite lookup_app_r by lia. replace (length pre - length pre)%nat with O by lia.
  reflexivity.
Qed.

Lemma modify_at s (pre : list StripColor) x rest i f :
  colors_ s = pre ++ x :: rest -> i = Z.of_nat (length pre) ->
  modify i f s = emit (EvStore i) (set_colors (pre ++ f x :: rest) s).
Proof.
  intros Hc Hi. unfold modify. rewrite (load_at s pre x rest i Hc Hi).
  assert (Hb : in_bounds i s = true).
  { unfold in_bounds. rewrite Hc, length_app. simpl.
    apply andb_true_intro; split; [apply Z.leb_le|apply Z.ltb_lt]; lia. }
  rewrite Hb. f_equal. f_equal. subst i. rewrite Nat2Z.id, Hc.
  rewrite insert_app_r_alt by lia.
  replace (length pre - length pre)%nat with O by lia. reflexivity.
Qed.

Lemma half_channel z : channel_ok z -> wrap8 (Z.quot z 2) = z / 2.
Proof.
  unfold channel_ok, wrap8. intros H.
  rewrite Z.quot_div_nonneg by lia.
  apply Z.mod_small. split; [apply Z.div_pos; lia|].
  apply Z.div_lt_upper_bound; lia.
Qed.

Lemma set_pixel_at (d : led_strip.t) (pre : list led_strip.rgb) x rest i r g b :
  led_strip.pixel_buf d = pre ++ x :: rest -> i = Z.of_nat (length pre) ->
  led_strip.set_pixel i r g b d = led_strip.mk (pre ++ (r, g, b) :: rest) (led_strip.leds d).
Proof.
  intros Hc ->. unfold led_strip.set_pixel. rewrite Hc, length_app. simpl.
  replace ((0 <=? Z.of_nat (length pre)) &&
           (Z.of_nat (length pre) <? Z.of_nat (length pre + S (length rest)))) with true.
  2:{ symmetry. apply andb_true_intro; split; [apply Z.leb_le|apply Z.ltb_lt]; lia. }
  rewrite Nat2Z.id, insert_app_r_alt by lia.
  replace (length pre - length pre)%nat with O by lia. reflexivity.
Qed.

Lemma split_at {A} (l : list A) (k : nat) :
  (k < length l)%nat -> exists x, l !! k = Some x /\ drop k l = x :: drop (S k) l /\ take (S k) l = take k l ++ [x].
Proof.
  intros Hk. destruct (lookup_lt_is_Some_2 l k Hk) as [x Hx]. exists x.
  split; [exact Hx|]. split.
  - apply drop_S. exact Hx.
  - apply take_S_r. exact Hx.
Qed.

Lemma modify_spec s (pre : list StripColor) x rest i f :
  colors_ s = pre ++ x :: rest -> i = Z.of_nat (length pre) ->
  colors_ (modify i f s) = pre ++ f x :: rest /\
  ctl (modify i f s) = ctl s /\
  led_strip_ (modify i f s) = led_strip_ s.
Proof.
  intros Hc Hi. rewrite (modify_at s pre x rest i f Hc Hi). auto.
Qed.

Lemma set_pixel_spec s d (pre : list led_strip.rgb) x rest i r g b :
  led_strip_ s = Some d ->
  led_strip.pixel_buf d = pre ++ x :: rest -> i = Z.of_nat (length pre) ->
  led_strip_ (led_strip_set_pixel i r g b s) =
    Some (led_strip.mk (pre ++ (r, g, b) :: rest) (led_strip.leds d)) /\
  colors_ (led_strip_set_pixel i r g b s) = colors_ s /\
  ctl (led_strip_set_pixel i r g b s) = ctl s.
Proof.
  intros Hd Hc Hi. unfold led_strip_set_pixel, seq_cmd, with_driver. rewrite Hd. cbn.
  rewrite (set_pixel_at d pre x rest i r g b Hc Hi). auto.
Qed.

Lemma is_dark_halve x :
  is_dark (halve x) = (red x / 2 =? 0) && (green x / 2 =? 0) && (blue x / 2 =? 0).
Proof. reflexivity. Qed.

Lemma FadeOut_loop s0 d0 :
  led_strip_ s0 = Some d0 ->
  Forall color_ok (colors_ s0) ->
  length (led_strip.pixel_buf d0) = length (colors_ s0) ->
  forall count, (count <= length (colors_ s0))%nat ->
  let st := for_loop 0 count FadeOut_body (true, s0) in
  ctl (snd st) = ctl s0 /\
  colors_ (snd st) = map halve (take count (colors_ s0)) ++ drop count (colors_ s0) /\
  fst st = forallb is_dark (map halve (take count (colors_ s0))) /\
  led_strip_ (snd st) =
    Some (led_strip.mk
            (map to_rgb (map halve (take count (colors_ s0))) ++ drop count (led_strip.pixel_buf d0))
            (led_strip.leds d0)).
Proof.
  intros Hd Hok Hlen count Hcount. cbv zeta.
  apply (for_loop_ind (fun k st =>
    ctl (snd st) = ctl s0 /\
    colors_ (snd st) = map halve (take k (colors_ s0)) ++ drop k (colors_ s0) /\
    fst st = forallb is_dark (map halve (take k (colors_ s0))) /\
    led_strip_ (snd st) =
      Some (led_strip.mk
              (map to_rgb (map halve (take k (colors_ s0))) ++ drop k (led_strip.pixel_buf d0))
              (led_strip.leds d0)))).
  - cbn [fst snd]. rewrite !take_0, !drop_0. cbn. rewrite Hd. destruct d0; auto.
  - intros k [b s] Hk (Hctl & Hcol & Hb & Hdrv). cbn [fst snd] in *.
    destruct (split_at (colors_ s0) k) as (x & Hx & Hdrop & Htake); [lia|].
    destruct (split_at (led_strip.pixel_buf d0) k) as (p & Hp & Hpdrop & Hptake); [lia|].
    assert (Hxok : color_ok x).
    { rewrite Forall_forall in Hok. apply Hok. eapply list_elem_of_lookup_2; eauto. }
    destruct Hxok as (Hr & Hg & Hbl).
    rewrite Hdrop in Hcol. rewrite Hpdrop in Hdrv.
    assert (Hlpre : Z.of_nat k = Z.of_nat (length (map halve (take k (colors_ s0))))).
    { rewrite length_map, length_take. lia. }
    assert (Hlbuf : Z.of_nat k = Z.of_nat (length (map to_rgb (map halve (take k (colors_ s0)))))).
    { rewrite !length_map, length_take. lia. }
    unfold FadeOut_body. cbn [snd fst].
    set (i := Z.of_nat k) in *.
    match goal with |- context [modify i ?f3 (modify i ?f2 (modify i ?f1 s))] =>
      destruct (modify_spec s _ _ _ i f1 Hcol Hlpre) as (C1 & T1 & D1);
      destruct (modify_spec (modify i f1 s) _ _ _ i f2 C1 Hlpre) as (C2 & T2 & D2);
      destruct (modify_spec (modify i f2 (modify i f1 s)) _ _ _ i f3 C2 Hlpre) as (C3 & T3 & D3);
      set (s3 := modify i f3 (modify i f2 (modify i f1 s))) in *
    end.
    cbn [red green blue] in C3.
    rewrite !half_channel in C3 by assumption.
    rewrite (load_at s3 _ _ _ i C3 Hlpre). cbn [red green blue].
    edestruct (set_pixel_spec s3) as (P1 & P2 & P3);
      [rewrite D3, D2, D1; exact Hdrv|cbn; reflexivity|exact Hlbuf|].
    rewrite P1, P2, P3. clear P1 P2 P3.
    rewrite Htake, !map_app, forallb_app. cbn [map forallb].
    rewrite <- !app_assoc. cbn [app].
    repeat split.
    + congruence.
    + exact C3.
    + rewrite Hb, is_dark_halve.
      destruct (red x / 2 =? 0), (green x / 2 =? 0), (blue x / 2 =? 0);
        cbn; rewrite ?andb_true_r, ?andb_false_r; reflexivity.
Qed.

Lemma dark_rgb (l : list StripColor) :
  forallb is_dark l = true -> map to_rgb l = replicate (length l) led_strip.dark.
Proof.
  induction l as [|c l IH]; [reflexivity|]. cbn [forallb map length replicate].
  intros H. apply andb_prop in H as [Hc Hl]. rewrite (IH Hl). f_equal.
  unfold is_dark in Hc. destruct c as [r g b]. cbn in *.
  apply andb_prop in Hc as [Hc Hb]. apply andb_prop in Hc as [Hr Hg].
  apply Z.eqb_eq in Hr, Hg, Hb. subst. reflexivity.
Qed.

Lemma halve_ok c : color_ok c -> color_ok (halve c).
Proof.
  unfold color_ok, channel_ok, halve. cbn. intros (Hr & Hg & Hb).
  repeat split; try (apply Z.div_pos; lia); apply Z.div_lt_upper_bound; lia.
Qed.

Lemma FadeOut_tick s :
  strip_wf s -> strip_callback_ s = Some FadeOutStep ->
  colors_ (timer_callback s) = map halve (colors_ s) /\
  strip_timer_ (timer_callback s) =
    (if forallb is_dark (map halve (colors_ s)) then None else strip_timer_ s) /\
  led_strip_ (timer_callback s) =
    Some (led_strip.mk (map to_rgb (map halve (colors_ s))) (map to_rgb (map halve (colors_ s)))) /\
  strip_callback_ (timer_callback s) = Some FadeOutStep /\
  max_leds_ (timer_callback s) = max_leds_ s.
Proof.
  intros (Hn & Hlen & Hok & d & Hd & Hdlen) Hcb.
  unfold timer_callback, lock_guard, seq_cmd.
  replace (strip_callback_ (emit EvLock s)) with (Some FadeOutStep) by (symmetry; exact Hcb).
  cbn [run]. unfold FadeOut_step.
  set (s0 := emit EvLock s).
  destruct (FadeOut_loop s0 d Hd Hok) with (count := length (colors_ s0))
    as (Hctl & Hcol & Hb & Hdrv); [cbn; congruence|lia|].
  replace (Z.to_nat (max_leds_ s0)) with (length (colors_ s0)) by (cbn; congruence).
  set (st := for_loop 0 (length (colors_ s0)) FadeOut_body (true, s0)) in *.
  rewrite firstn_all in Hcol, Hb, Hdrv.
  rewrite drop_all, app_nil_r in Hcol.
  rewrite drop_ge, app_nil_r in Hdrv by (cbn; lia).
  change (colors_ s0) with (colors_ s) in *.
  rewrite Hb. unfold ctl in Hctl. cbn in Hctl.
  injection Hctl as E1 E2 E3 E4 E5 E6 E7 E8 E9.
  destruct (forallb is_dark (map halve (colors_ s))) eqn:Hdark.
  - unfold led_strip_clear, esp_timer_stop, seq_cmd, with_driver. rewrite Hdrv. cbn.
    rewrite (dark_rgb _ Hdark), !length_map.
    unfold led_strip.clear. cbn. rewrite length_replicate.
    repeat split; auto; congruence.
  - unfold led_strip_refresh, seq_cmd, with_driver. rewrite Hdrv. cbn.
    repeat split; auto; congruence.
Qed.

Lemma halve_iter_channels k c :
  color_ok c ->
  Nat.iter k halve c =
    mkColor (red c / 2 ^ Z.of_nat k) (green c / 2 ^ Z.of_nat k) (blue c / 2 ^ Z.of_nat k).
Proof.
  intros (Hr & Hg & Hb). unfold channel_ok in *. induction k as [|k IH].
  - cbn. rewrite !Z.div_1_r. destruct c; reflexivity.
  - change (Nat.iter (S k) halve c) with (halve (Nat.iter k halve c)).
    rewrite IH. unfold halve. cbn [red green blue].
    replace (2 ^ Z.of_nat (S k)) with (2 ^ Z.of_nat k * 2)
      by (rewrite Nat2Z.inj_succ, Z.pow_succ_r by lia; lia).
    rewrite !Z.div_div by lia. reflexivity.
Qed.

Lemma iter_map {A} (f : A -> A) k (l : list A) :
  Nat.iter k (map f) l = map (Nat.iter k f) l.
Proof.
  induction k as [|k IH].
  - symmetry. apply map_id.
  - change (Nat.iter (S k) (map f) l) with (map f (Nat.iter k (map f) l)).
    rewrite IH, map_map. reflexivity.
Qed.

Lemma div_pow_zero z k : 0 <= z -> (z / 2 ^ Z.of_nat k =? 0) = (z <? 2 ^ Z.of_nat k).
Proof.
  intros Hz. assert (Hp : 0 < 2 ^ Z.of_nat k) by (apply Z.pow_pos_nonneg; lia).
  destruct (Z.ltb_spec z (2 ^ Z.of_nat k)) as [Hlt|Hge].
  - apply Z.eqb_eq. apply Z.div_small. lia.
  - apply Z.eqb_neq. intros H0.
    assert (1 <= z / 2 ^ Z.of_nat k) by (apply Z.div_le_lower_bound; lia). lia.
Qed.

Lemma dark_after k c :
  color_ok c -> is_dark (Nat.iter k halve c) = (color_max c <? 2 ^ Z.of_nat k).
Proof.
  intros Hc. rewrite (halve_iter_channels k c Hc).
  destruct Hc as (Hr & Hg & Hb). unfold channel_ok in *.
  unfold is_dark, color_max. cbn [red green blue].
  rewrite !div_pow_zero by lia.
  destruct (Z.ltb_spec (red c) (2 ^ Z.of_nat k)), (Z.ltb_spec (green c) (2 ^ Z.of_nat k)),
    (Z.ltb_spec (blue c) (2 ^ Z.of_nat k)),
    (Z.ltb_spec (Z.max (red c) (Z.max (green c) (blue c))) (2 ^ Z.of_nat k));
    cbn; try reflexivity; lia.
Qed.

Lemma all_dark_after k cs :
  Forall color_ok cs ->
  forallb is_dark (Nat.iter k (map halve) cs) = (max_channel cs <? 2 ^ Z.of_nat k).
Proof.
  intros Hok. rewrite iter_map.
  assert (Hp : 0 < 2 ^ Z.of_nat k) by (apply Z.pow_pos_nonneg; lia).
  induction Hok as [|c cs Hc Hcs IH]; cbn [map forallb max_channel foldr].
  - symmetry. apply Z.ltb_lt. exact Hp.
  - rewrite IH, (dark_after k c Hc). fold (max_channel cs).
    destruct (Z.ltb_spec (color_max c) (2 ^ Z.of_nat k)),
      (Z.ltb_spec (max_channel cs) (2 ^ Z.of_nat k)),
      (Z.ltb_spec (Z.max (color_max c) (max_channel cs)) (2 ^ Z.of_nat k));
      cbn; try reflexivity; lia.
Qed.

Lemma max_channel_nonneg cs : 0 <= max_channel cs.
Proof. induction cs; cbn; [lia|]. fold (max_channel cs). lia. Qed.

Lemma max_channel_bound cs : Forall color_ok cs -> max_channel cs < 256.
Proof.
  induction 1 as [|c cs (Hr & Hg & Hb) _ IH]; cbn; [lia|].
  fold (max_channel cs). unfold color_max, channel_ok in *. lia.
Qed.

Lemma dark_fixed (l : list StripColor) : forallb is_dark l = true -> map halve l = l.
Proof.
  induction l as [|c l IH]; [reflexivity|]. cbn [forallb map].
  intros H. apply andb_prop in H as [Hc Hl]. rewrite (IH Hl). f_equal.
  unfold is_dark in Hc. destruct c as [r g b]. cbn in *.
  apply andb_prop in Hc as [Hc Hb]. apply andb_prop in Hc as [Hr Hg].
  apply Z.eqb_eq in Hr, Hg, Hb. subst. reflexivity.
Qed.

Lemma StartStripTask_spec iv cb s d :
  led_strip_ s = Some d ->
  colors_ (StartStripTask iv cb s) = colors_ s /\
  led_strip_ (StartStripTask iv cb s) = Some d /\
  max_leds_ (StartStripTask iv cb s) = max_leds_ s /\
  strip_callback_ (StartStripTask iv cb s) = Some cb /\
  strip_timer_ (StartStripTask iv cb s) = Some (wrapu64 (wrap32 (iv * 1000))).
Proof. intros Hd. unfold StartStripTask. rewrite Hd. cbn. auto. Qed.

Lemma FadeOut_run s iv :
  strip_wf s ->
  forall k,
    let r := ticks k (FadeOut iv s) in
    strip_wf r /\
    strip_callback_ r = Some FadeOutStep /\
    colors_ r = Nat.iter k (map halve) (colors_ s) /\
    strip_timer_ r =
      (if (1 <=? Z.of_nat k) && (max_channel (colors_ s) <? 2 ^ Z.of_nat k)
       then None else Some (wrapu64 (wrap32 (iv * 1000)))) /\
    ((1 <= k)%nat -> shown r = map to_rgb (colors_ r)).
Proof.
  intros Hwf. pose proof Hwf as (Hn & Hlen & Hok & d & Hd & Hdlen).
  destruct (StartStripTask_spec iv FadeOutStep s d Hd) as (I1 & I2 & I3 & I4 & I5).
  induction k as [|k IH]; cbv zeta.
  - change (ticks 0 (FadeOut iv s)) with (StartStripTask iv FadeOutStep s).
    repeat split; try assumption.
    + rewrite I3; exact Hn.
    + rewrite I1, I3; exact Hlen.
    + rewrite I1; exact Hok.
    + exists d. rewrite I3. auto.
    + lia.
  - cbv zeta in IH. destruct IH as (Hwfk & Hcbk & Hck & Htk & Hsk).
    change (ticks (S k) (FadeOut iv s)) with (timer_callback (ticks k (FadeOut iv s))).
    set (r := ticks k (FadeOut iv s)) in *.
    destruct (FadeOut_tick r Hwfk Hcbk) as (T1 & T2 & T3 & T4 & T5).
    assert (Hokr : Forall color_ok (colors_ r)) by apply Hwfk.
    assert (Hcol : colors_ (timer_callback r) = Nat.iter (S k) (map halve) (colors_ s)).
    { rewrite T1, Hck. reflexivity. }
    repeat split.
    + rewrite T5. apply Hwfk.
    + rewrite T1, T5, length_map. apply Hwfk.
    + rewrite T1. apply Forall_fmap. eapply Forall_impl; [exact Hokr|]. apply halve_ok.
    + eexists. split; [exact T3|]. cbn [led_strip.pixel_buf].
      rewrite T5, !length_map. apply Hwfk.
    + exact T4.
    + exact Hcol.
    + rewrite T2, Htk. rewrite <- T1, Hcol, (all_dark_after (S k) _ Hok).
      assert (2 ^ Z.of_nat (S k) = 2 ^ Z.of_nat k * 2)
        by (rewrite Nat2Z.inj_succ, Z.pow_succ_r by lia; lia).
      assert (0 < 2 ^ Z.of_nat k) by (apply Z.pow_pos_nonneg; lia).
      destruct (Z.ltb_spec (max_channel (colors_ s)) (2 ^ Z.of_nat (S k))),
        (Z.ltb_spec (max_channel (colors_ s)) (2 ^ Z.of_nat k)),
        (Z.leb_spec 1 (Z.of_nat (S k))), (Z.leb_spec 1 (Z.of_nat k));
        cbn; try reflexivity; lia.
    + intros _. unfold shown. rewrite T3, T1. reflexivity.
Qed.

Lemma pow2_pos k : 0 < 2 ^ Z.of_nat k.
Proof. apply Z.pow_pos_nonneg; lia. Qed.

Lemma stopped_from m k :
  0 <= m -> (Z.to_nat (Z.log2 m + 1) <= k)%nat ->
  (1 <=? Z.of_nat k) && (m <? 2 ^ Z.of_nat k) = true.
Proof.
  intros Hm Hk. pose proof (Z.log2_nonneg m) as Hl.
  apply andb_true_intro. split; [apply Z.leb_le; lia|apply Z.ltb_lt].
  destruct (Z.eq_dec m 0) as [->|Hne]; [apply pow2_pos|].
  destruct (Z.log2_spec m) as [_ Hup]; [lia|].
  eapply Z.lt_le_trans; [exact Hup|].
  apply Z.pow_le_mono_r; lia.
Qed.

Lemma running_before m k :
  0 <= m -> (k < Z.to_nat (Z.log2 m + 1))%nat ->
  (1 <=? Z.of_nat k) && (m <? 2 ^ Z.of_nat k) = false.
Proof.
  intros Hm Hk. pose proof (Z.log2_nonneg m) as Hl.
  destruct (Z.leb_spec 1 (Z.of_nat k)) as [H1|H1]; [|reflexivity]. cbn.
  apply Z.ltb_ge.
  destruct (Z.eq_dec m 0) as [->|Hne]; [cbn in Hk; lia|].
  destruct (Z.log2_spec m) as [Hlow _]; [lia|].
  eapply Z.le_trans; [|exact Hlow].
  apply Z.pow_le_mono_r; lia.
Qed.

(** [strip_wf] of a concrete strip, by evaluation. *)
Ltac concrete_wf :=
  unfold strip_wf; split; [vm_compute; discriminate|];
  split; [reflexivity|];
  split; [match goal with |- Forall _ ?l =>
            let l' := eval vm_compute in l in change l with l' end;
          repeat (apply Forall_cons_2; [unfold color_ok, channel_ok; cbn; lia|]);
          apply Forall_nil_2
         |eexists; split; reflexivity].

(** C1, as amended: on a constructed strip, after [FadeOut] every tick halves
    every channel of every pixel (integer division); with [m] the largest
    channel value of the buffer, the buffer is all zero after
    [floor(log2 m) + 1] ticks and not before (one tick when [m = 0], never
    more than 8); the timer runs up to that tick, and on it the step clears
    the display and stops the timer; a tick delivered afterwards leaves the
    buffer as it is. *)
Theorem FadeOut_reaches_zero (s : Strip) (interval_ms : Z) :
  strip_wf s ->
  let n := Z.to_nat (Z.log2 (max_channel (colors_ s)) + 1) in
  let run k := ticks k (FadeOut interval_ms s) in
  (forall k, colors_ (run k) = Nat.iter k (map halve) (colors_ s)) /\
  (forall k, (k < n)%nat ->
     strip_timer_ (run k) = Some (wrapu64 (wrap32 (interval_ms * 1000))) /\
     ((1 <= k)%nat -> forallb is_dark (colors_ (run k)) = false)) /\
  (forall k, (n <= k)%nat ->
     forallb is_dark (colors_ (run k)) = true /\
     strip_timer_ (run k) = None /\
     shown (run k) = replicate (length (colors_ s)) led_strip.dark) /\
  colors_ (timer_callback (run n)) = colors_ (run n) /\
  (n <= 8)%nat.
Proof.
  intros Hwf n run.
  pose proof (FadeOut_run s interval_ms Hwf) as Hrun. cbv zeta in Hrun.
  pose proof Hwf as (_ & _ & Hok & _).
  pose proof (max_channel_nonneg (colors_ s)) as Hm.
  assert (Hdark : forall k, (n <= k)%nat -> forallb is_dark (colors_ (run k)) = true).
  { intros k Hk. destruct (Hrun k) as (_ & _ & Hc & _). unfold run. rewrite Hc.
    rewrite (all_dark_after k _ Hok).
    pose proof (stopped_from _ k Hm Hk) as H. apply andb_prop in H. apply H. }
  repeat split.
  - intros k. apply (Hrun k).
  - destruct (Hrun k) as (_ & _ & _ & Ht & _). unfold run. rewrite Ht.
    rewrite (running_before _ k Hm); [reflexivity|assumption].
  - intros Hk1. destruct (Hrun k) as (_ & _ & Hc & _). unfold run. rewrite Hc.
    rewrite (all_dark_after k _ Hok).
    pose proof (running_before _ k Hm H) as Hb.
    destruct (Z.leb_spec 1 (Z.of_nat k)); [exact Hb|lia].
  - apply Hdark. assumption.
  - destruct (Hrun k) as (_ & _ & _ & Ht & _). unfold run. rewrite Ht.
    rewrite (stopped_from _ k Hm); [reflexivity|assumption].
  - destruct (Hrun k) as (_ & _ & Hc & _ & Hs).
    assert (Hk1 : (1 <= k)%nat).
    { pose proof (Z.log2_nonneg (max_channel (colors_ s))). lia. }
    pose proof (dark_rgb _ (Hdark k H)) as Hd. unfold run in Hd |- *.
    rewrite (Hs Hk1), Hd.
    f_equal. rewrite Hc, iter_map, length_map. reflexivity.
  - change (timer_callback (run n)) with (run (S n)).
    destruct (Hrun (S n)) as (_ & _ & Hc1 & _). destruct (Hrun n) as (_ & _ & Hc0 & _).
    unfold run. rewrite Hc1.
    change (Nat.iter (S n) (map halve) (colors_ s))
      with (map halve (Nat.iter n (map halve) (colors_ s))).
    rewrite <- Hc0. apply dark_fixed. apply Hdark. lia.
  - pose proof (max_channel_bound _ Hok) as Hlt. unfold n.
    destruct (Z.eq_dec (max_channel (colors_ s)) 0) as [->|Hne]; [cbn; lia|].
    assert (Z.log2 (max_channel (colors_ s)) < 8); [|lia].
    apply Z.log2_lt_pow2; lia.
Qed.

Lemma lit_strip_wf : strip_wf (SetAllColor (mkColor 200 17 3) (new 3)).
Proof.
  concrete_wf.
Defined.

Lemma FadeOut_reaches_zero_witness :
  let s := SetAllColor (mkColor 200 17 3) (new 3) in
  let run k := ticks k (FadeOut 50 s) in
  (forall k, colors_ (run k) = Nat.iter k (map halve) (colors_ s)) /\
  (forall k, (k < 8)%nat ->
     strip_timer_ (run k) = Some 50000 /\
     ((1 <= k)%nat -> forallb is_dark (colors_ (run k)) = false)) /\
  (forall k, (8 <= k)%nat ->
     forallb is_dark (colors_ (run k)) = true /\
     strip_timer_ (run k) = None /\
     shown (run k) = replicate 3%nat led_strip.dark) /\
  colors_ (timer_callback (run 8%nat)) = colors_ (run 8%nat) /\
  (8 <= 8)%nat.
Proof.
  exact (FadeOut_reaches_zero (SetAllColor (mkColor 200 17 3) (new 3)) 50 lit_strip_wf).
Defined.

(** C1, as stated, fails: a buffer whose largest channel is 4 is not all zero
    after [ceil(log2 4) = 2] ticks. *)
Lemma FadeOut_log2_up_bound_fails :
  ~ (forall (s : Strip) (interval_ms : Z),
       strip_wf s ->
       forallb is_dark
         (colors_ (ticks (Z.to_nat (Z.log2_up (max_channel (colors_ s))))
                         (FadeOut interval_ms s))) = true).
Proof.
  intros H.
  assert (Hwf : strip_wf (SetAllColor (mkColor 4 0 0) (new 1))).
  { concrete_wf. }
  specialize (H _ 50 Hwf). vm_compute in H. discriminate H.
Qed.

(** *** Frames of the loops *)

Lemma for_loop_ctl (body : Z -> Cmd) :
  (forall i s, ctl (body i s) = ctl s) ->
  forall count i s, ctl (for_loop i count body s) = ctl s.
Proof.
  intros Hb. induction count as [|k IH]; intros i s; cbn [for_loop]; [reflexivity|].
  rewrite IH. apply Hb.
Qed.

Lemma modify_ctl i f s : ctl (modify i f s) = ctl s.
Proof. unfold modify. destruct (in_bounds i s); reflexivity. Qed.

Lemma set_pixel_ctl i r g b s : ctl (led_strip_set_pixel i r g b s) = ctl s.
Proof.
  unfold led_strip_set_pixel, seq_cmd, with_driver. destruct (led_strip_ s); reflexivity.
Qed.

Lemma set_pixel_colors i r g b s : colors_ (led_strip_set_pixel i r g b s) = colors_ s.
Proof.
  unfold led_strip_set_pixel, seq_cmd, with_driver. destruct (led_strip_ s); reflexivity.
Qed.

Lemma refresh_ctl s : ctl (led_strip_refresh s) = ctl s.
Proof. unfold led_strip_refresh, seq_cmd, with_driver. destruct (led_strip_ s); reflexivity. Qed.

Lemma refresh_colors s : colors_ (led_strip_refresh s) = colors_ s.
Proof. unfold led_strip_refresh, seq_cmd, with_driver. destruct (led_strip_ s); reflexivity. Qed.

(** *** The loops of the effects *)

Lemma store_at s i c :
  0 <= i < Z.of_nat (length (colors_ s)) ->
  store i c s = emit (EvStore i) (set_colors (<[Z.to_nat i := c]> (colors_ s)) s).
Proof.
  intros Hi. unfold store, modify, in_bounds.
  replace ((0 <=? i) && (i <? Z.of_nat (length (colors_ s)))) with true; [reflexivity|].
  symmetry. apply andb_true_intro; split; [apply Z.leb_le|apply Z.ltb_lt]; lia.
Qed.

(** [for (i...) colors_[i] = c;] *)
Lemma store_loop s0 c count :
  (count <= length (colors_ s0))%nat ->
  let s := for_loop 0 count (fun i => store i c) s0 in
  ctl s = ctl s0 /\ led_strip_ s = led_strip_ s0 /\
  colors_ s = replicate count c ++ drop count (colors_ s0).
Proof.
  intros Hcount. cbv zeta.
  apply (for_loop_ind (fun k s =>
    ctl s = ctl s0 /\ led_strip_ s = led_strip_ s0 /\
    colors_ s = replicate k c ++ drop k (colors_ s0))).
  - auto.
  - intros k s Hk (Hctl & Hdrv & Hcol).
    destruct (split_at (colors_ s0) k) as (x & Hx & Hdrop & Htake); [lia|].
    rewrite Hdrop in Hcol.
    destruct (modify_spec s _ _ _ (Z.of_nat k) (fun _ => c) Hcol) as (C & T & D).
    { rewrite length_replicate. reflexivity. }
    unfold store. rewrite C, T, D. repeat split; try assumption.
    rewrite replicate_S_end, <- app_assoc. reflexivity.
Qed.

(** [for (i...) led_strip_set_pixel(led_strip_, i, g(i))] for a [g] that
    the loop does not change. *)
Lemma set_pixel_loop (g : nat -> StripColor) (body : Z -> Cmd) s0 d0 count :
  led_strip_ s0 = Some d0 ->
  (forall k s, colors_ s = colors_ s0 -> ctl s = ctl s0 ->
     body (Z.of_nat k) s =
       led_strip_set_pixel (Z.of_nat k) (red (g k)) (green (g k)) (blue (g k)) s) ->
  (count <= length (led_strip.pixel_buf d0))%nat ->
  let s := for_loop 0 count body s0 in
  ctl s = ctl s0 /\ colors_ s = colors_ s0 /\
  led_strip_ s =
    Some (led_strip.mk (map (fun k => to_rgb (g k)) (seq 0 count)
                          ++ drop count (led_strip.pixel_buf d0))
                       (led_strip.leds d0)).
Proof.
  intros Hd Hbody Hcount. cbv zeta.
  apply (for_loop_ind (fun k s =>
    ctl s = ctl s0 /\ colors_ s = colors_ s0 /\
    led_strip_ s =
      Some (led_strip.mk (map (fun k => to_rgb (g k)) (seq 0 k)
                            ++ drop k (led_strip.pixel_buf d0))
                         (led_strip.leds d0)))).
  - repeat split. rewrite Hd. destruct d0; reflexivity.
  - intros k s Hk (Hctl & Hcol & Hdrv).
    destruct (split_at (led_strip.pixel_buf d0) k) as (p & Hp & Hpdrop & Hptake); [lia|].
    rewrite Hpdrop in Hdrv.
    rewrite (Hbody k s Hcol Hctl).
    edestruct (set_pixel_spec s) as (P1 & P2 & P3);
      [exact Hdrv|cbn; reflexivity|rewrite length_map, length_seq; reflexivity|].
    rewrite P1, P2, P3. repeat split; try assumption.
    rewrite seq_S, map_app, <- app_assoc. reflexivity.
Qed.

Lemma map_load_all s :
  map (fun k => to_rgb (load (Z.of_nat k) s)) (seq 0 (length (colors_ s))) = map to_rgb (colors_ s).
Proof.
  apply list_eq. intros i. rewrite !list_lookup_fmap.
  destruct (decide (i < length (colors_ s))%nat) as [Hi|Hi].
  - rewrite lookup_seq_lt by exact Hi.
    destruct (lookup_lt_is_Some_2 _ _ Hi) as [x Hx]. rewrite Hx. cbn.
    unfold load. rewrite Nat2Z.id, Hx. reflexivity.
  - rewrite lookup_seq_ge by lia. rewrite lookup_ge_None_2 by lia. reflexivity.
Qed.

Lemma in_window_S n k start i :
  in_window n (Z.of_nat (S k)) start i =
  in_window n (Z.of_nat k) start i || ((start + Z.of_nat k) mod n =? i).
Proof.
  unfold in_window. rewrite seqZ_S, existsb_app. cbn [existsb].
  rewrite orb_false_r. reflexivity.
Qed.

Lemma paint_length n len start low high :
  length (paint n len start low high) = Z.to_nat n.
Proof. unfold paint. rewrite length_map, length_seqZ. reflexivity. Qed.

Lemma paint_lookup n len start low high (i : nat) :
  Z.of_nat i < n ->
  paint n len start low high !! i =
    Some (if in_window n len start (Z.of_nat i) then high else low).
Proof.
  intros Hi. unfold paint. rewrite list_lookup_fmap, lookup_seqZ_lt by exact Hi.
  reflexivity.
Qed.

Lemma paint_empty n start low high :
  paint n 0 start low high = replicate (Z.to_nat n) low.
Proof.
  apply list_eq. intros i.
  destruct (decide (Z.of_nat i < n)) as [Hi|Hi].
  - rewrite paint_lookup by exact Hi. rewrite lookup_replicate_2 by lia. reflexivity.
  - rewrite !lookup_ge_None_2; [reflexivity| |].
    + rewrite length_replicate. lia.
    + rewrite paint_length. lia.
Qed.

Lemma paint_step n k start low high :
  0 < n ->
  <[Z.to_nat ((start + Z.of_nat k) mod n) := high]> (paint n (Z.of_nat k) start low high) =
  paint n (Z.of_nat (S k)) start low high.
Proof.
  intros Hn. pose proof (Z.mod_pos_bound (start + Z.of_nat k) n Hn) as Ht.
  apply list_eq. intros i.
  destruct (decide (Z.of_nat i < n)) as [Hi|Hi].
  - rewrite (paint_lookup n (Z.of_nat (S k))) by exact Hi. rewrite in_window_S.
    destruct (decide (i = Z.to_nat ((start + Z.of_nat k) mod n))) as [->|Hne].
    + rewrite list_lookup_insert_eq by (rewrite paint_length; lia).
      rewrite Z2Nat.id by lia. rewrite Z.eqb_refl, orb_true_r. reflexivity.
    + rewrite list_lookup_insert_ne by congruence.
      rewrite paint_lookup by exact Hi.
      replace ((start + Z.of_nat k) mod n =? Z.of_nat i) with false
        by (symmetry; apply Z.eqb_neq; lia).
      rewrite orb_false_r. reflexivity.
  - rewrite !lookup_ge_None_2; [reflexivity| |].
    + rewrite paint_length. lia.
    + rewrite length_insert, paint_length. lia.
Qed.

(** [for (j...) colors_[(offset + j) % max_leds_] = high;] on a ring that is
    all [low]. *)
Lemma window_loop s0 low high count :
  0 < max_leds_ s0 ->
  0 <= Scroll_offset s0 ->
  Scroll_offset s0 + Z.of_nat count <= INT_MAX ->
  colors_ s0 = replicate (Z.to_nat (max_leds_ s0)) low ->
  let s := for_loop 0 count (fun j s =>
             store (Z.rem (wrap32 (Scroll_offset s + j)) (max_leds_ s)) high s) s0 in
  ctl s = ctl s0 /\ led_strip_ s = led_strip_ s0 /\
  colors_ s = paint (max_leds_ s0) (Z.of_nat count) (Scroll_offset s0) low high.
Proof.
  intros Hn Ho Hmax Hcol0. cbv zeta.
  apply (for_loop_ind (fun k s =>
    ctl s = ctl s0 /\ led_strip_ s = led_strip_ s0 /\
    colors_ s = paint (max_leds_ s0) (Z.of_nat k) (Scroll_offset s0) low high)).
  - repeat split. rewrite Hcol0. symmetry. apply paint_empty.
  - intros k s Hk (Hctl & Hdrv & Hcol).
    assert (En : max_leds_ s = max_leds_ s0) by (unfold ctl in Hctl; congruence).
    assert (Eo : Scroll_offset s = Scroll_offset s0) by (unfold ctl in Hctl; congruence).
    rewrite En, Eo.
    rewrite wrap32_small by lia. rewrite Z.rem_mod_nonneg by lia.
    pose proof (Z.mod_pos_bound (Scroll_offset s0 + Z.of_nat k) (max_leds_ s0) Hn) as Ht.
    rewrite store_at by (rewrite Hcol, paint_length; lia).
    cbn [ctl emit set_colors max_leds_ strip_timer_ strip_callback_ default_brightness_
         low_brightness_ Blink_on Breathe_increase Breathe_color Scroll_offset colors_ led_strip_].
    repeat split; try assumption.
    rewrite Hcol. apply paint_step. exact Hn.
Qed.

Lemma ctl_fields s s' :
  ctl s' = ctl s ->
  max_leds_ s' = max_leds_ s /\ strip_timer_ s' = strip_timer_ s /\
  strip_callback_ s' = strip_callback_ s /\ Scroll_offset s' = Scroll_offset s /\
  Blink_on s' = Blink_on s /\ Breathe_increase s' = Breathe_increase s /\
  Breathe_color s' = Breathe_color s.
Proof. unfold ctl. intros H. injection H as ?. auto 10. Qed.

(** One tick of the scroll effect. *)
Lemma Scroll_tick s low high len :
  strip_shape s -> 0 < max_leds_ s <= INT_MAX ->
  strip_callback_ s = Some (ScrollStep low high len) ->
  0 <= Scroll_offset s < max_leds_ s ->
  0 <= len -> Scroll_offset s + len <= INT_MAX ->
  let s' := timer_callback s in
  colors_ s' = paint (max_leds_ s) len (Scroll_offset s) low high /\
  led_strip_ s' = Some (led_strip.mk (map to_rgb (colors_ s')) (map to_rgb (colors_ s'))) /\
  Scroll_offset s' = (Scroll_offset s + 1) mod max_leds_ s /\
  max_leds_ s' = max_leds_ s /\
  strip_callback_ s' = strip_callback_ s /\
  strip_timer_ s' = strip_timer_ s.
Proof.
  intros (Hn0 & Hlen & d & Hd & Hdlen) [Hn Hnmax] Hcb Ho Hl Hmax. cbv zeta.
  unfold timer_callback, lock_guard, seq_cmd.
  replace (strip_callback_ (emit EvLock s)) with (Some (ScrollStep low high len))
    by (symmetry; exact Hcb).
  cbn [run]. unfold Scroll_step, seq_cmd, for_leds.
  set (s0 := emit EvLock s).
  (* first loop *)
  destruct (store_loop s0 low (Z.to_nat (max_leds_ s0))) as (T1 & D1 & C1).
  { cbn. lia. }
  set (s1 := for_loop 0 (Z.to_nat (max_leds_ s0)) (fun i => store i low) s0) in *.
  rewrite drop_ge, app_nil_r in C1 by (cbn; lia).
  destruct (ctl_fields _ _ T1) as (N1 & _ & _ & O1 & _).
  (* second loop *)
  destruct (window_loop s1 low high (Z.to_nat len)) as (T2 & D2 & C2).
  { rewrite N1. exact Hn. }
  { rewrite O1. apply Ho. }
  { rewrite O1, Z2Nat.id by lia. exact Hmax. }
  { rewrite C1, N1. reflexivity. }
  set (s2 := for_loop 0 (Z.to_nat len) _ s1) in *.
  rewrite Z2Nat.id, N1, O1 in C2 by lia.
  destruct (ctl_fields _ _ T2) as (N2 & _ & _ & O2 & _).
  (* third loop *)
  destruct (set_pixel_loop (fun k => load (Z.of_nat k) s2)
              (fun i s' => led_strip_set_pixel i (red (load i s')) (green (load i s'))
                             (blue (load i s')) s')
              s2 d (Z.to_nat (max_leds_ s2))) as (T3 & C3 & D3).
  { rewrite D2, D1. exact Hd. }
  { intros k s' Hc _. unfold load. rewrite Hc. reflexivity. }
  { rewrite N2, N1. cbn. lia. }
  set (s3 := for_loop 0 (Z.to_nat (max_leds_ s2)) _ s2) in *.
  rewrite drop_ge, app_nil_r in D3 by (rewrite N2, N1; cbn; lia).
  replace (Z.to_nat (max_leds_ s2)) with (length (colors_ s2)) in D3
    by (rewrite C2, paint_length, N2, N1; reflexivity).
  rewrite map_load_all in D3.
  destruct (ctl_fields _ _ T3) as (N3 & M3 & B3 & O3 & _).
  destruct (ctl_fields _ _ T2) as (_ & M2 & B2 & _).
  destruct (ctl_fields _ _ T1) as (_ & M1 & B1 & _).
  unfold led_strip_refresh, seq_cmd, with_driver. rewrite D3. cbn.
  rewrite C3, C2, N3, N2, N1, M3, M2, M1, B3, B2, B1, O3, O2, O1. cbn.
  rewrite wrap32_small by (unfold INT_MAX in *; lia).
  rewrite Z.rem_mod_nonneg by lia.
  repeat split; reflexivity.
Qed.

Lemma Scroll_install s low high len iv :
  strip_shape s ->
  let s' := Scroll low high len iv s in
  colors_ s' = replicate (Z.to_nat (max_leds_ s)) low /\
  strip_callback_ s' = Some (ScrollStep low high len) /\
  Scroll_offset s' = Scroll_offset s /\
  max_leds_ s' = max_leds_ s /\
  led_strip_ s' = led_strip_ s /\
  strip_timer_ s' = Some (wrapu64 (wrap32 (iv * 1000))).
Proof.
  intros (Hn0 & Hlen & d & Hd & Hdlen). cbv zeta.
  unfold Scroll, seq_cmd, for_leds.
  destruct (store_loop s low (Z.to_nat (max_leds_ s))) as (T1 & D1 & C1); [lia|].
  set (s1 := for_loop 0 (Z.to_nat (max_leds_ s)) (fun i => store i low) s) in *.
  rewrite drop_ge, app_nil_r in C1 by lia.
  destruct (ctl_fields _ _ T1) as (N1 & _ & _ & O1 & _).
  destruct (StartStripTask_spec iv (ScrollStep low high len) s1 d) as (I1 & I2 & I3 & I4 & I5).
  { rewrite D1. exact Hd. }
  rewrite I1, I2, I3, I4, I5, C1, N1.
  repeat split; try reflexivity.
  - unfold StartStripTask. rewrite D1, Hd. cbn. exact O1.
  - symmetry. exact Hd.
Qed.

(** The scroll effect, tick by tick: the window start advances by one per
    tick modulo the pixel count, and each tick paints the window at the start
    it found. *)
Lemma Scroll_run s low high len iv :
  strip_shape s -> 0 < max_leds_ s <= INT_MAX ->
  0 <= Scroll_offset s < max_leds_ s ->
  0 <= len -> max_leds_ s + len <= INT_MAX ->
  forall k,
    let r := ticks k (Scroll low high len iv s) in
    strip_shape r /\
    max_leds_ r = max_leds_ s /\
    strip_callback_ r = Some (ScrollStep low high len) /\
    strip_timer_ r = Some (wrapu64 (wrap32 (iv * 1000))) /\
    Scroll_offset r = (Scroll_offset s + Z.of_nat k) mod max_leds_ s /\
    colors_ r =
      match k with
      | O => replicate (Z.to_nat (max_leds_ s)) low
      | S j => paint (max_leds_ s) len ((Scroll_offset s + Z.of_nat j) mod max_leds_ s) low high
      end /\
    ((1 <= k)%nat -> shown r = map to_rgb (colors_ r)).
Proof.
  intros Hshape Hn Ho Hl Hmax.
  destruct (Scroll_install s low high len iv Hshape) as (I1 & I2 & I3 & I4 & I5 & I6).
  pose proof Hshape as (Hn0 & Hlen & d & Hd & Hdlen).
  induction k as [|k IH]; cbv zeta.
  - change (ticks 0 (Scroll low high len iv s)) with (Scroll low high len iv s).
    repeat split; try assumption.
    + rewrite I4. exact Hn0.
    + rewrite I1, I4, length_replicate. reflexivity.
    + exists d. rewrite I5, I4. auto.
    + rewrite I3, Z.add_0_r, Z.mod_small by lia. reflexivity.
    + lia.
  - cbv zeta in IH. destruct IH as (Hsh & Hmx & Hcb & Htm & Hoff & _ & _).
    change (ticks (S k) (Scroll low high len iv s))
      with (timer_callback (ticks k (Scroll low high len iv s))).
    set (r := ticks k (Scroll low high len iv s)) in *.
    pose proof (Z.mod_pos_bound (Scroll_offset s + Z.of_nat k) (max_leds_ s) ltac:(lia)) as Hb.
    destruct (Scroll_tick r low high len Hsh) as (T1 & T2 & T3 & T4 & T5 & T6);
      try (rewrite ?Hmx, ?Hoff; first [assumption|lia]).
    rewrite Hmx, Hoff in T1, T3.
    assert (Hshape' : strip_shape (timer_callback r)).
    { repeat split.
      - rewrite T4, Hmx. exact Hn0.
      - rewrite T1, paint_length, T4, Hmx. reflexivity.
      - eexists. split; [exact T2|]. cbn [led_strip.pixel_buf].
        rewrite length_map, T1, paint_length, T4, Hmx. reflexivity. }
    repeat split; try apply Hshape'.
    + rewrite T4. exact Hmx.
    + rewrite T5. exact Hcb.
    + rewrite T6. exact Htm.
    + rewrite T3. rewrite Zplus_mod_idemp_l. f_equal. lia.
    + exact T1.
    + intros _. unfold shown. rewrite T2. reflexivity.
Qed.

Lemma in_window_6_3 offset i :
  in_window 6 3 offset i =
  (i =? offset mod 6) || (i =? (offset + 1) mod 6) || (i =? (offset + 2) mod 6).
Proof.
  unfold in_window. change (seqZ 0 3) with [0; 1; 2]. cbn [existsb].
  rewrite Z.add_0_r, orb_false_r, orb_assoc.
  rewrite !(Z.eqb_sym i). reflexivity.
Qed.

Lemma new_shape n : 0 <= n -> strip_shape (new n).
Proof.
  intros Hn. repeat split; cbn.
  - exact Hn.
  - apply length_replicate.
  - eexists. split; [reflexivity|]. cbn. rewrite !length_replicate. reflexivity.
Qed.

(** C3, as amended: on a 6-pixel strip whose scroll offset is 0 (a fresh
    engine), [Scroll(low, high, 3)] leaves every pixel [low], the first tick
    paints the window at pixels 0, 1, 2, and each tick advances the window
    start by exactly one pixel modulo 6: for every [offset] in [0, 6), after [offset + 1] ticks the
    pixels [offset], [offset + 1], [offset + 2] (mod 6) are [high] and all the
    others are [low], in the buffer and on the LEDs. *)
Theorem Scroll_window_after_ticks (s : Strip) (low high : StripColor) (interval_ms : Z) :
  strip_shape s -> max_leds_ s = 6 -> Scroll_offset s = 0 ->
  let run k := ticks k (Scroll low high 3 interval_ms s) in
  colors_ (run O) = replicate 6%nat low /\
  (forall k, Scroll_offset (run k) = Z.of_nat k mod 6) /\
  (forall k, colors_ (run (S k)) = paint 6 3 (Z.of_nat k mod 6) low high) /\
  (forall offset i, 0 <= offset < 6 -> 0 <= i < 6 ->
     let lit := (i =? offset mod 6) || (i =? (offset + 1) mod 6) || (i =? (offset + 2) mod 6) in
     colors_ (run (S (Z.to_nat offset))) !! Z.to_nat i = Some (if lit then high else low) /\
     shown (run (S (Z.to_nat offset))) !! Z.to_nat i = Some (to_rgb (if lit then high else low))).
Proof.
  intros Hshape Hn Ho run.
  assert (Hrun : forall k,
    Scroll_offset (run k) = Z.of_nat k mod 6 /\
    colors_ (run (S k)) = paint 6 3 (Z.of_nat k mod 6) low high /\
    shown (run (S k)) = map to_rgb (colors_ (run (S k)))).
  { intros k.
    destruct (Scroll_run s low high 3 interval_ms Hshape) with (k := k)
      as (_ & _ & _ & _ & Hoff & _ & _);
      try (rewrite ?Hn, ?Ho; unfold INT_MAX; lia).
    destruct (Scroll_run s low high 3 interval_ms Hshape) with (k := S k)
      as (_ & _ & _ & _ & _ & Hcol & Hsh);
      try (rewrite ?Hn, ?Ho; unfold INT_MAX; lia).
    rewrite Hn, Ho in Hoff, Hcol. cbn [Z.add] in Hoff, Hcol.
    repeat split; try assumption. apply Hsh. lia. }
  split.
  { destruct (Scroll_install s low high 3 interval_ms Hshape) as (I1 & _).
    unfold run. change (ticks 0 (Scroll low high 3 interval_ms s))
      with (Scroll low high 3 interval_ms s).
    rewrite I1, Hn. reflexivity. }
  repeat split.
  - apply Hrun.
  - apply Hrun.
  - destruct (Hrun (Z.to_nat offset)) as (_ & Hc & _). unfold run in Hc |- *.
    rewrite Z2Nat.id, (Z.mod_small offset 6) in Hc by lia.
    rewrite Hc, paint_lookup by lia.
    rewrite Z2Nat.id, in_window_6_3 by lia. reflexivity.
  - destruct (Hrun (Z.to_nat offset)) as (_ & Hc & Hs). unfold run in Hc, Hs |- *.
    rewrite Z2Nat.id, (Z.mod_small offset 6) in Hc by lia.
    rewrite Hs, Hc, list_lookup_fmap, paint_lookup by lia.
    rewrite Z2Nat.id, in_window_6_3 by lia. reflexivity.
Qed.

Lemma Scroll_window_after_ticks_witness :
  let run k := ticks k (Scroll (mkColor 0 0 0) (mkColor 4 4 32) 3 100 (new 6)) in
  colors_ (run O) = replicate 6%nat (mkColor 0 0 0) /\
  (forall k, Scroll_offset (run k) = Z.of_nat k mod 6) /\
  (forall k, colors_ (run (S k)) = paint 6 3 (Z.of_nat k mod 6) (mkColor 0 0 0) (mkColor 4 4 32)) /\
  (forall offset i, 0 <= offset < 6 -> 0 <= i < 6 ->
     let lit := (i =? offset mod 6) || (i =? (offset + 1) mod 6) || (i =? (offset + 2) mod 6) in
     colors_ (run (S (Z.to_nat offset))) !! Z.to_nat i
       = Some (if lit then mkColor 4 4 32 else mkColor 0 0 0) /\
     shown (run (S (Z.to_nat offset))) !! Z.to_nat i
       = Some (to_rgb (if lit then mkColor 4 4 32 else mkColor 0 0 0))).
Proof.
  exact (Scroll_window_after_ticks (new 6) (mkColor 0 0 0) (mkColor 4 4 32) 100
           (new_shape 6 ltac:(discriminate)) eq_refl eq_refl).
Defined.

(** C3, as stated, fails: on a fresh 6-pixel strip, after [offset] ticks the
    window is not at [offset]. After 0 ticks pixel 0 is still [low]; after one
    tick the window covers pixels 0, 1, 2, so pixel 0 is [high] where the
    claim has [low] and pixel 3 is [low] where the claim has [high]. *)
Lemma Scroll_window_at_offset_ticks_fails :
  ~ (forall (low high : StripColor) (interval_ms offset i : Z),
       0 <= offset < 6 -> 0 <= i < 6 ->
       colors_ (ticks (Z.to_nat offset) (Scroll low high 3 interval_ms (new 6))) !! Z.to_nat i =
       Some (if (i =? offset mod 6) || (i =? (offset + 1) mod 6) || (i =? (offset + 2) mod 6)
             then high else low)).
Proof.
  intros H.
  specialize (H (mkColor 0 0 0) (mkColor 1 1 1) 100 1 3 ltac:(lia) ltac:(lia)).
  vm_compute in H. discriminate H.
Qed.

(** One tick of the breathe effect. *)
Lemma Breathe_tick s low high :
  strip_callback_ s = Some (BreatheStep low high) ->
  let st := Breathe_update low high (Breathe_increase s) (default low (Breathe_color s)) in
  let s' := timer_callback s in
  Breathe_increase s' = fst st /\
  Breathe_color s' = Some (snd st) /\
  strip_callback_ s' = strip_callback_ s /\
  max_leds_ s' = max_leds_ s /\
  colors_ s' = colors_ s /\
  (strip_shape s ->
   led_strip_ s' = Some (led_strip.mk (replicate (Z.to_nat (max_leds_ s)) (to_rgb (snd st)))
                                      (replicate (Z.to_nat (max_leds_ s)) (to_rgb (snd st))))).
Proof.
  intros Hcb. cbv zeta.
  unfold timer_callback, lock_guard, seq_cmd.
  replace (strip_callback_ (emit EvLock s)) with (Some (BreatheStep low high))
    by (symmetry; exact Hcb).
  cbn [run]. unfold Breathe_step, seq_cmd, for_leds.
  change (Breathe_increase (emit EvLock s)) with (Breathe_increase s).
  change (Breathe_color (emit EvLock s)) with (Breathe_color s).
  set (st := Breathe_update low high (Breathe_increase s) (default low (Breathe_color s))).
  set (s0 := set_Breathe (fst st) (Some (snd st)) (emit EvLock s)).
  set (body := fun i : Z => led_strip_set_pixel i (red (snd st)) (green (snd st)) (blue (snd st))).
  assert (Hctl : ctl (for_loop 0 (Z.to_nat (max_leds_ s0)) body s0) = ctl s0).
  { apply for_loop_ctl. intros i s'. apply set_pixel_ctl. }
  assert (Hcol : forall count i s', colors_ (for_loop i count body s') = colors_ s').
  { induction count as [|c IH]; intros i s'; cbn [for_loop]; [reflexivity|].
    rewrite IH. apply set_pixel_colors. }
  set (s1 := for_loop 0 (Z.to_nat (max_leds_ s0)) body s0) in *.
  destruct (ctl_fields _ _ Hctl) as (N & _ & B & _ & _ & I & C).
  pose proof (refresh_ctl s1) as Hr. destruct (ctl_fields _ _ Hr) as (N' & _ & B' & _ & _ & I' & C').
  cbn [emit max_leds_ strip_callback_ Breathe_increase Breathe_color colors_].
  repeat split.
  - rewrite I', I. reflexivity.
  - rewrite C', C. reflexivity.
  - rewrite B', B. reflexivity.
  - rewrite N', N. reflexivity.
  - rewrite refresh_colors. unfold s1. rewrite Hcol. reflexivity.
  - intros (Hn0 & Hlen & d & Hd & Hdlen).
    destruct (set_pixel_loop (fun _ => snd st) body s0 d (Z.to_nat (max_leds_ s0)))
      as (_ & _ & D); [exact Hd|reflexivity|cbn; lia|].
    fold s1 in D. rewrite drop_ge, app_nil_r in D by (cbn; lia).
    unfold led_strip_refresh, seq_cmd, with_driver. rewrite D. cbn.
    assert (E : map (fun _ : nat => to_rgb (snd st)) (seq 0 (Z.to_nat (max_leds_ s)))
                = replicate (Z.to_nat (max_leds_ s)) (to_rgb (snd st))).
    { apply list_eq. intros i. rewrite list_lookup_fmap.
      destruct (decide (i < Z.to_nat (max_leds_ s))%nat) as [Hi|Hi].
      - rewrite lookup_seq_lt, lookup_replicate_2 by lia. reflexivity.
      - rewrite lookup_seq_ge, lookup_ge_None_2 by (rewrite ?length_replicate; lia).
        reflexivity. }
    rewrite E. reflexivity.
Qed.

(** The breathe effect, tick by tick: the two statics follow [Breathe_update]
    and the LEDs show the current colour. *)
Lemma Breathe_run s low high iv :
  strip_shape s ->
  forall k,
    let r := ticks k (Breathe low high iv s) in
    let st := Nat.iter k (fun st => Breathe_update low high (fst st) (snd st))
                (Breathe_increase s, default low (Breathe_color s)) in
    strip_shape r /\
    strip_callback_ r = Some (BreatheStep low high) /\
    max_leds_ r = max_leds_ s /\
    Breathe_increase r = fst st /\
    default low (Breathe_color r) = snd st /\
    ((1 <= k)%nat ->
       Breathe_color r = Some (snd st) /\
       shown r = replicate (Z.to_nat (max_leds_ s)) (to_rgb (snd st))).
Proof.
  intros Hshape. pose proof Hshape as (Hn0 & Hlen & d & Hd & Hdlen).
  destruct (StartStripTask_spec iv (BreatheStep low high) s d Hd) as (I1 & I2 & I3 & I4 & I5).
  induction k as [|k IH]; cbv zeta.
  - change (ticks 0 (Breathe low high iv s)) with (StartStripTask iv (BreatheStep low high) s).
    assert (E : Breathe_increase (StartStripTask iv (BreatheStep low high) s) = Breathe_increase s
                /\ Breathe_color (StartStripTask iv (BreatheStep low high) s) = Breathe_color s).
    { unfold StartStripTask. rewrite Hd. split; reflexivity. }
    destruct E as [E1 E2]. cbn [Nat.iter nat_rect fst snd]. rewrite E1, E2.
    split; [|repeat split; try assumption; lia].
    split; [rewrite I3; exact Hn0|].
    split; [rewrite I1, I3; exact Hlen|].
    exists d. rewrite I3. auto.
  - cbv zeta in IH. destruct IH as (Hsh & Hcb & Hmx & Hinc & Hcol & _).
    change (ticks (S k) (Breathe low high iv s))
      with (timer_callback (ticks k (Breathe low high iv s))).
    set (r := ticks k (Breathe low high iv s)) in *.
    set (upd := fun st : bool * StripColor => Breathe_update low high (fst st) (snd st)) in *.
    change (Nat.iter (S k) upd (Breathe_increase s, default low (Breathe_color s)))
      with (upd (Nat.iter k upd (Breathe_increase s, default low (Breathe_color s)))).
    set (st := Nat.iter k upd (Breathe_increase s, default low (Breathe_color s))) in *.
    destruct (Breathe_tick r low high Hcb) as (T1 & T2 & T3 & T4 & T5 & T6).
    specialize (T6 Hsh). rewrite Hinc, Hcol in T1, T2, T6. rewrite Hmx in T6.
    fold (upd st) in T1, T2, T6.
    repeat split.
    + rewrite T4. apply Hsh.
    + rewrite T5, T4. apply Hsh.
    + eexists. split; [exact T6|]. cbn [led_strip.pixel_buf].
      rewrite length_replicate, T4, Hmx. reflexivity.
    + rewrite T3. exact Hcb.
    + rewrite T4. exact Hmx.
    + exact T1.
    + rewrite T2. reflexivity.
    + exact T2.
    + unfold shown. rewrite T6. reflexivity.
Qed.

(** C4: on a fresh engine, [Breathe(low = {0,0,0}, high = {10,10,10})] makes
    the current colour exactly [high] after 10 ticks and exactly [low] after
    10 more, on the LEDs too; and for any bounds, a tick changes the
    direction flag only if it leaves all three channels equal to the bound of
    the direction it ran in. *)
Theorem Breathe_symmetry (s : Strip) (interval_ms : Z) :
  strip_shape s -> Breathe_color s = None -> Breathe_increase s = true ->
  let low := mkColor 0 0 0 in
  let high := mkColor 10 10 10 in
  let run k := ticks k (Breathe low high interval_ms s) in
  (Breathe_color (run 10%nat) = Some high /\
   shown (run 10%nat) = replicate (Z.to_nat (max_leds_ s)) (to_rgb high)) /\
  (Breathe_color (run 20%nat) = Some low /\
   shown (run 20%nat) = replicate (Z.to_nat (max_leds_ s)) (to_rgb low)) /\
  (forall k, Breathe_increase (run (S k)) <> Breathe_increase (run k) ->
     Breathe_color (run (S k)) = Some (if Breathe_increase (run k) then high else low)) /\
  (forall (s' : Strip) (lo hi : StripColor),
     strip_callback_ s' = Some (BreatheStep lo hi) ->
     Breathe_increase (timer_callback s') <> Breathe_increase s' ->
     Breathe_color (timer_callback s') = Some (if Breathe_increase s' then hi else lo)).
Proof.
  intros Hshape Hc Hi low high run.
  assert (Hflip : forall (s' : Strip) (lo hi : StripColor),
     strip_callback_ s' = Some (BreatheStep lo hi) ->
     Breathe_increase (timer_callback s') <> Breathe_increase s' ->
     Breathe_color (timer_callback s') = Some (if Breathe_increase s' then hi else lo)).
  { intros s' lo hi Hcb Hne.
    destruct (Breathe_tick s' lo hi Hcb) as (T1 & T2 & _).
    rewrite T2. rewrite T1 in Hne. f_equal.
    unfold Breathe_update in *.
    destruct (Breathe_increase s'); cbn [fst snd] in *;
      match goal with
      | H : context [if ?b then _ else _] |- _ => destruct b eqn:E; [|congruence]
      end;
      apply andb_prop in E as [E E3]; apply andb_prop in E as [E1 E2];
      apply Z.eqb_eq in E1, E2, E3;
      match goal with
      | |- ?c = ?bound =>
          destruct c as [r g b] eqn:Ec; destruct bound;
          cbn [red green blue] in E1, E2, E3; congruence
      end. }
  pose proof (Breathe_run s low high interval_ms Hshape) as Hrun. cbv zeta in Hrun.
  rewrite Hc, Hi in Hrun. cbn [default] in Hrun.
  repeat split.
  - destruct (Hrun 10%nat) as (_ & _ & _ & _ & _ & H); destruct H as [H1 _]; [lia|].
    unfold run. rewrite H1. reflexivity.
  - destruct (Hrun 10%nat) as (_ & _ & _ & _ & _ & H); destruct H as [_ H2]; [lia|].
    unfold run. rewrite H2. reflexivity.
  - destruct (Hrun 20%nat) as (_ & _ & _ & _ & _ & H); destruct H as [H1 _]; [lia|].
    unfold run. rewrite H1. reflexivity.
  - destruct (Hrun 20%nat) as (_ & _ & _ & _ & _ & H); destruct H as [_ H2]; [lia|].
    unfold run. rewrite H2. reflexivity.
  - intros k. change (run (S k)) with (timer_callback (run k)).
    apply Hflip. apply (Hrun k).
  - exact Hflip.
Qed.

Lemma Breathe_symmetry_witness :
  let low := mkColor 0 0 0 in
  let high := mkColor 10 10 10 in
  let run k := ticks k (Breathe low high 20 (new 6)) in
  (Breathe_color (run 10%nat) = Some high /\
   shown (run 10%nat) = replicate 6%nat (to_rgb high)) /\
  (Breathe_color (run 20%nat) = Some low /\
   shown (run 20%nat) = replicate 6%nat (to_rgb low)) /\
  (forall k, Breathe_increase (run (S k)) <> Breathe_increase (run k) ->
     Breathe_color (run (S k)) = Some (if Breathe_increase (run k) then high else low)) /\
  (forall (s' : Strip) (lo hi : StripColor),
     strip_callback_ s' = Some (BreatheStep lo hi) ->
     Breathe_increase (timer_callback s') <> Breathe_increase s' ->
     Breathe_color (timer_callback s') = Some (if Breathe_increase s' then hi else lo)).
Proof.
  exact (Breathe_symmetry (new 6) 20 (new_shape 6 ltac:(discriminate)) eq_refl eq_refl).
Defined.

(** *** Re-installing an effect *)

Lemma StartStripTask_statics iv cb s :
  Blink_on (StartStripTask iv cb s) = Blink_on s /\
  Scroll_offset (StartStripTask iv cb s) = Scroll_offset s /\
  Breathe_increase (StartStripTask iv cb s) = Breathe_increase s /\
  Breathe_color (StartStripTask iv cb s) = Breathe_color s.
Proof. unfold StartStripTask. destruct (led_strip_ s); repeat split; reflexivity. Qed.

Lemma store_loop_ctl c count i s : ctl (for_loop i count (fun i => store i c) s) = ctl s.
Proof. apply for_loop_ctl. intros j s'. apply modify_ctl. Qed.

(** C2 fails on the code. Installing an effect leaves the statics of its
    lambda as the last run left them: [Blink] does not reset [on], [Scroll]
    does not reset [offset], [Breathe] resets neither [increase] nor [color].
    On a fresh 1-pixel strip, [Blink], one tick (the "on" phase), then [Blink]
    again with other parameters: the next tick is the "off" phase, where a
    fresh [Blink] shows the colour. On a fresh 6-pixel strip in state
    starting, [OnStateChanged], one tick, [OnStateChanged] again: the next
    tick paints the window at pixel 1, not at pixel 0. After a [Breathe]
    between 0 and 10 has reached 10, a [Breathe] between 20 and 30 starts at
    10 going down and stays at 10. *)
Theorem reinstall_keeps_static_state :
  (forall s color iv, Blink_on (Blink color iv s) = Blink_on s) /\
  (forall s low high len iv, Scroll_offset (Scroll low high len iv s) = Scroll_offset s) /\
  (forall s low high iv,
     Breathe_increase (Breathe low high iv s) = Breathe_increase s /\
     Breathe_color (Breathe low high iv s) = Breathe_color s) /\
  (let c1 := mkColor 4 4 32 in
   let c2 := mkColor 4 32 4 in
   let s1 := timer_callback (Blink c1 500 (new 1)) in
   shown s1 = [to_rgb c1] /\
   Blink_on (Blink c2 100 s1) = false /\
   shown (timer_callback (Blink c2 100 s1)) = [led_strip.dark] /\
   shown (timer_callback (Blink c2 100 (new 1))) = [to_rgb c2]) /\
  (let app := {| GetDeviceState := kDeviceStateStarting; IsVoiceDetected := false |} in
   let s1 := timer_callback (OnStateChanged app (new 6)) in
   let s2 := timer_callback (OnStateChanged app s1) in
   colors_ s1 = paint 6 3 0 (mkColor 0 0 0) (mkColor 4 4 32) /\
   Scroll_offset (OnStateChanged app s1) = 1 /\
   colors_ s2 = paint 6 3 1 (mkColor 0 0 0) (mkColor 4 4 32)) /\
  (let s1 := ticks 10 (Breathe (mkColor 0 0 0) (mkColor 10 10 10) 20 (new 1)) in
   let s2 := Breathe (mkColor 20 20 20) (mkColor 30 30 30) 20 s1 in
   Breathe_color s2 = Some (mkColor 10 10 10) /\
   Breathe_increase s2 = false /\
   Breathe_color (ticks 25 s2) = Some (mkColor 10 10 10)).
Proof.
  split; [|split; [|split; [|split; [|split]]]].
  - intros s color iv. unfold Blink, seq_cmd, for_leds.
    destruct (StartStripTask_statics iv BlinkStep
                (for_loop 0 (Z.to_nat (max_leds_ s)) (fun i => store i color) s)) as (H & _).
    rewrite H. apply (ctl_fields _ _ (store_loop_ctl color _ 0 s)).
  - intros s low high len iv. unfold Scroll, seq_cmd, for_leds.
    destruct (StartStripTask_statics iv (ScrollStep low high len)
                (for_loop 0 (Z.to_nat (max_leds_ s)) (fun i => store i low) s)) as (_ & H & _).
    rewrite H. apply (ctl_fields _ _ (store_loop_ctl low _ 0 s)).
  - intros s low high iv. unfold Breathe.
    destruct (StartStripTask_statics iv (BreatheStep low high) s) as (_ & _ & H1 & H2).
    split; assumption.
  - vm_compute. repeat split.
  - vm_compute. repeat split.
  - vm_compute. repeat split.
Qed.

(** *** Bounds and locking *)

Lemma store_trace i c s : trace_ (store i c s) = trace_ s ++ [EvStore i].
Proof. unfold store, modify. destruct (in_bounds i s); reflexivity. Qed.

Lemma store_loop_trace c count s0 :
  trace_ (for_loop 0 count (fun i => store i c) s0) =
  trace_ s0 ++ map EvStore (seqZ 0 (Z.of_nat count)).
Proof.
  apply (for_loop_ind (fun k s => trace_ s = trace_ s0 ++ map EvStore (seqZ 0 (Z.of_nat k)))).
  - cbn. rewrite app_nil_r. reflexivity.
  - intros k s _ H. rewrite store_trace, H, seqZ_S, map_app, <- app_assoc. reflexivity.
Qed.

(** C5 fails on the code. [SetSingleColor] has no range check and logs
    nothing: whatever the index, it stops the timer, stores into
    [colors_[index]], calls [led_strip_set_pixel] and refreshes the strip. With
    [index] outside the vector the store is out of bounds. On a fresh 6-pixel
    strip, [SetSingleColor(6, color)] does just that. *)
Theorem SetSingleColor_unchecked :
  (forall s index color,
     trace_ (SetSingleColor index color s) =
       trace_ s ++ [EvLock; EvTimerStop; EvStore index; EvSetPixel index; EvRefresh; EvUnlock] /\
     oob_ (SetSingleColor index color s) = oob_ s || negb (in_bounds index s) /\
     strip_timer_ (SetSingleColor index color s) = None) /\
  (let s := SetSingleColor 6 (mkColor 1 2 3) (new 6) in
   oob_ s = true /\
   trace_ s = [EvLock; EvTimerStop; EvStore 6; EvSetPixel 6; EvRefresh; EvUnlock] /\
   colors_ s = colors_ (new 6)).
Proof.
  split.
  - intros s index color.
    unfold SetSingleColor, lock_guard, seq_cmd, led_strip_refresh, led_strip_set_pixel, seq_cmd.
    unfold store, modify, esp_timer_stop, seq_cmd.
    change (in_bounds index (emit EvTimerStop (set_strip_timer None (emit EvLock s))))
      with (in_bounds index s).
    destruct (in_bounds index s);
      destruct s as [[d|] n cs t cb db lb on inc col off oob tr]; cbn;
      rewrite <- ?app_assoc, ?orb_false_r, ?orb_true_r; auto.
  - vm_compute. repeat split.
Qed.

(** C6 fails on the code. [Blink] and [Scroll] write every entry of
    [colors_] before [StartStripTask] takes the lock; [SetAllColor] and the
    timer callback write under the lock. On a 6-pixel strip the trace of
    [Blink] and of [Scroll] has its stores outside the locked region. *)
Theorem Blink_Scroll_store_unlocked :
  (forall s color iv,
     exists rest,
       trace_ (Blink color iv s) =
         trace_ s ++ map EvStore (seqZ 0 (Z.of_nat (Z.to_nat (max_leds_ s)))) ++ rest /\
       (rest = [] \/
        rest = [EvLock; EvTimerStop; EvTimerStart (wrapu64 (wrap32 (iv * 1000))); EvUnlock])) /\
  (forall s low high len iv,
     exists rest,
       trace_ (Scroll low high len iv s) =
         trace_ s ++ map EvStore (seqZ 0 (Z.of_nat (Z.to_nat (max_leds_ s)))) ++ rest /\
       (rest = [] \/
        rest = [EvLock; EvTimerStop; EvTimerStart (wrapu64 (wrap32 (iv * 1000))); EvUnlock])) /\
  (let c := mkColor 4 4 32 in
   trace_ (Blink c 500 (new 6)) =
     [EvStore 0; EvStore 1; EvStore 2; EvStore 3; EvStore 4; EvStore 5;
      EvLock; EvTimerStop; EvTimerStart 500000; EvUnlock] /\
   stores_locked false (trace_ (Blink c 500 (new 6))) = false /\
   stores_locked false (trace_ (Scroll (mkColor 0 0 0) c 3 100 (new 6))) = false /\
   stores_locked false (trace_ (SetAllColor c (new 6))) = true /\
   stores_locked false (trace_ (SetSingleColor 2 c (new 6))) = true /\
   stores_locked false (trace_ (ticks 3 (FadeOut 50 (SetAllColor c (new 6))))) = true).
Proof.
  assert (Hstart : forall iv cb s,
    exists rest, trace_ (StartStripTask iv cb s) = trace_ s ++ rest /\
      (rest = [] \/
       rest = [EvLock; EvTimerStop; EvTimerStart (wrapu64 (wrap32 (iv * 1000))); EvUnlock])).
  { intros iv cb s. unfold StartStripTask. destruct (led_strip_ s).
    - eexists. split; [|right; reflexivity]. cbn. rewrite <- !app_assoc. reflexivity.
    - exists []. split; [rewrite app_nil_r; reflexivity|left; reflexivity]. }
  split; [|split].
  - intros s color iv. unfold Blink, seq_cmd, for_leds.
    destruct (Hstart iv BlinkStep
                (for_loop 0 (Z.to_nat (max_leds_ s)) (fun i => store i color) s))
      as (rest & Ht & Hr).
    exists rest. split; [|exact Hr]. rewrite Ht, store_loop_trace, <- app_assoc. reflexivity.
  - intros s low high len iv. unfold Scroll, seq_cmd, for_leds.
    destruct (Hstart iv (ScrollStep low high len)
                (for_loop 0 (Z.to_nat (max_leds_ s)) (fun i => store i low) s))
      as (rest & Ht & Hr).
    exists rest. split; [|exact Hr]. rewrite Ht, store_loop_trace, <- app_assoc. reflexivity.
  - vm_compute. repeat split.
Qed.

(** [SetAllColor]: the timer is stopped, every entry of the buffer and every
    LED has the colour. *)
Lemma SetAllColor_spec s color :
  strip_shape s ->
  let s' := SetAllColor color s in
  colors_ s' = replicate (Z.to_nat (max_leds_ s)) color /\
  shown s' = replicate (Z.to_nat (max_leds_ s)) (to_rgb color) /\
  strip_timer_ s' = None /\
  strip_callback_ s' = strip_callback_ s /\
  max_leds_ s' = max_leds_ s.
Proof.
  intros (Hn0 & Hlen & d & Hd & Hdlen). cbv zeta.
  unfold SetAllColor, lock_guard, seq_cmd, for_leds.
  set (s0 := esp_timer_stop (emit EvLock s)).
  set (body := fun i : Z => fun s1 : Strip =>
         led_strip_set_pixel i (red color) (green color) (blue color) (store i color s1)).
  assert (Hloop : forall count, (count <= Z.to_nat (max_leds_ s))%nat ->
    let r := for_loop 0 count body s0 in
    ctl r = ctl s0 /\
    colors_ r = replicate count color ++ drop count (colors_ s) /\
    led_strip_ r = Some (led_strip.mk (replicate count (to_rgb color)
                                         ++ drop count (led_strip.pixel_buf d))
                                      (led_strip.leds d))).
  { intros count Hcount. cbv zeta.
    apply (for_loop_ind (fun k r =>
      ctl r = ctl s0 /\
      colors_ r = replicate k color ++ drop k (colors_ s) /\
      led_strip_ r = Some (led_strip.mk (replicate k (to_rgb color)
                                           ++ drop k (led_strip.pixel_buf d))
                                        (led_strip.leds d)))).
    - repeat split. cbn. rewrite Hd. destruct d; reflexivity.
    - intros k r Hk (Hctl & Hcol & Hdrv).
      destruct (split_at (colors_ s) k) as (x & Hx & Hdrop & Htake); [lia|].
      destruct (split_at (led_strip.pixel_buf d) k) as (p & Hp & Hpdrop & Hptake); [lia|].
      rewrite Hdrop in Hcol. rewrite Hpdrop in Hdrv.
      destruct (modify_spec r _ _ _ (Z.of_nat k) (fun _ => color) Hcol) as (C & T & D).
      { rewrite length_replicate. reflexivity. }
      fold (store (Z.of_nat k) color r) in C, T, D.
      edestruct (set_pixel_spec (store (Z.of_nat k) color r)) as (P1 & P2 & P3);
        [rewrite D; exact Hdrv|cbn; reflexivity|rewrite length_replicate; reflexivity|].
      unfold body. rewrite P1, P2, P3, C, T.
      repeat split; try assumption;
        rewrite replicate_S_end, <- app_assoc; reflexivity. }
  destruct (Hloop (Z.to_nat (max_leds_ s))) as (T & C & D); [lia|].
  change (max_leds_ s0) with (max_leds_ s).
  set (r := for_loop 0 (Z.to_nat (max_leds_ s)) body s0) in *.
  rewrite drop_ge, app_nil_r in C by lia.
  rewrite drop_ge, app_nil_r in D by lia.
  destruct (ctl_fields _ _ T) as (N & M & B & _).
  unfold shown, led_strip_refresh, seq_cmd, with_driver. rewrite D. cbn.
  rewrite C, M, B, N. repeat split.
Qed.

End CircularStripProps.

(** ** The single addressable LED *)

Module SingleLedProps.
Import SingleLed.

(** One expiry of the blink timer. *)
Lemma OnBlinkTimer_spec s :
  single_wf s ->
  let s' := OnBlinkTimer s in
  let c := wrap32 (blink_counter_ s - 1) in
  blink_counter_ s' = c /\
  single_shown s' = (if Z.odd c then [(r_ s, g_ s, b_ s)] else [led_strip.dark]) /\
  blink_timer_ s' = (if negb (Z.odd c) && (c =? 0) then None else blink_timer_ s) /\
  (r_ s', g_ s', b_ s') = (r_ s, g_ s, b_ s) /\
  single_wf s'.
Proof.
  intros (d & Hd & Hlen). cbv zeta.
  destruct d as [buf shown]. cbn in Hlen.
  destruct buf as [|p [|q buf]]; try discriminate Hlen.
  unfold OnBlinkTimer, seq_cmd.
  set (c := wrap32 (blink_counter_ s - 1)).
  change (blink_counter_ (set_blink_counter c s)) with c.
  rewrite land_1_odd.
  destruct s as [ls r g b cnt ivl tm w]. cbn in Hd. subst ls.
  destruct (Z.odd c) eqn:Hodd; cbn.
  - repeat split. eexists. split; reflexivity.
  - destruct (c =? 0) eqn:Hz; cbn; repeat split; eexists; split; reflexivity.
Qed.

Lemma StartBlinkTask_spec s times iv :
  single_wf s ->
  let s' := StartBlinkTask times iv s in
  blink_counter_ s' = wrap32 (times * 2) /\
  blink_interval_ms_ s' = iv /\
  blink_timer_ s' = Some (wrapu64 (wrap32 (iv * 1000))) /\
  (r_ s', g_ s', b_ s') = (r_ s, g_ s, b_ s) /\
  led_strip_ s' = led_strip_ s.
Proof.
  intros (d & Hd & Hlen). cbv zeta. unfold StartBlinkTask. rewrite Hd.
  cbn. repeat split. exact Hd.
Qed.

Lemma Blink_run s times iv :
  single_wf s -> 0 < times <= INT_MAX ->
  forall k,
    let r := ticks k (Blink times iv s) in
    single_wf r /\
    (r_ r, g_ r, b_ r) = (r_ s, g_ s, b_ s) /\
    blink_counter_ r = wrap32 (2 * times - Z.of_nat k) /\
    (Z.of_nat k < 2 * times -> blink_timer_ r = Some (wrapu64 (wrap32 (iv * 1000)))).
Proof.
  intros Hwf Ht.
  destruct (StartBlinkTask_spec s times iv Hwf) as (I1 & I2 & I3 & I4 & I5).
  induction k as [|k IH]; cbv zeta.
  - change (ticks 0 (Blink times iv s)) with (StartBlinkTask times iv s).
    split; [|split; [|split]].
    + destruct Hwf as (d & Hd & Hlen). exists d. rewrite I5. auto.
    + exact I4.
    + rewrite I1. f_equal. lia.
    + intros _. exact I3.
  - cbv zeta in IH. destruct IH as (Hwfk & Hrgb & Hc & Htm).
    change (ticks (S k) (Blink times iv s)) with (OnBlinkTimer (ticks k (Blink times iv s))).
    set (r := ticks k (Blink times iv s)) in *.
    destruct (OnBlinkTimer_spec r Hwfk) as (T1 & T2 & T3 & T4 & T5).
    assert (Hc' : blink_counter_ (OnBlinkTimer r) = wrap32 (2 * times - Z.of_nat (S k))).
    { rewrite T1, Hc, wrap32_pred. f_equal. lia. }
    split; [exact T5|]. split; [congruence|]. split; [exact Hc'|].
    intros Hk. rewrite T3, <- T1, Hc'.
    replace (wrap32 (2 * times - Z.of_nat (S k)) =? 0) with false.
    + rewrite andb_false_r. apply Htm. lia.
    + symmetry. apply Z.eqb_neq. apply wrap32_nonzero. unfold INT_MAX in Ht. lia.
Qed.

Lemma new_single_wf : single_wf new.
Proof. eexists. split; reflexivity. Defined.

Lemma SetColor_wf s r g b : single_wf s -> single_wf (SetColor r g b s).
Proof. intros (d & Hd & Hlen). exists d. split; assumption. Defined.

(** C10: for every [times > 0] of type [int] and every interval,
    [Blink(times, interval)] sets the blink counter to [times * 2] (as an
    [int]; that is [2 * times] when it fits); each tick decrements the counter
    and lights the LED when the new count is odd and clears it when it is
    even; the timer runs for the first [2 * times - 1] ticks; after exactly
    [2 * times] ticks the counter is zero, the LED is cleared and the timer
    has stopped itself. *)
Theorem SingleLed_Blink_terminates (s : Led) (times interval_ms : Z) :
  single_wf s -> 0 < times <= INT_MAX ->
  let run k := ticks k (Blink times interval_ms s) in
  blink_counter_ (run O) = wrap32 (times * 2) /\
  (times * 2 <= INT_MAX -> blink_counter_ (run O) = 2 * times) /\
  (forall k,
     blink_counter_ (run (S k)) = wrap32 (blink_counter_ (run k) - 1) /\
     single_shown (run (S k)) =
       (if Z.odd (blink_counter_ (run (S k)))
        then [(r_ s, g_ s, b_ s)] else [led_strip.dark])) /\
  (forall k, Z.of_nat k < 2 * times ->
     blink_timer_ (run k) = Some (wrapu64 (wrap32 (interval_ms * 1000))) /\
     blink_counter_ (run k) <> 0) /\
  (let r := run (Z.to_nat (2 * times)) in
   blink_counter_ r = 0 /\
   single_shown r = [led_strip.dark] /\
   blink_timer_ r = None).
Proof.
  intros Hwf Ht run.
  pose proof (Blink_run s times interval_ms Hwf Ht) as Hrun. cbv zeta in Hrun.
  assert (Hstep : forall k,
     blink_counter_ (run (S k)) = wrap32 (blink_counter_ (run k) - 1) /\
     single_shown (run (S k)) =
       (if Z.odd (blink_counter_ (run (S k)))
        then [(r_ s, g_ s, b_ s)] else [led_strip.dark]) /\
     blink_timer_ (run (S k)) =
       (if negb (Z.odd (blink_counter_ (run (S k)))) && (blink_counter_ (run (S k)) =? 0)
        then None else blink_timer_ (run k))).
  { intros k. destruct (Hrun k) as (Hwfk & Hrgb & _).
    change (run (S k)) with (OnBlinkTimer (run k)).
    destruct (OnBlinkTimer_spec (run k) Hwfk) as (T1 & T2 & T3 & _).
    rewrite T1, T2, T3. unfold run. rewrite Hrgb. auto. }
  split; [|split; [|split; [|split]]].
  - destruct (Hrun O) as (_ & _ & Hc & _). unfold run. rewrite Hc. f_equal. cbn. lia.
  - intros Hfit. destruct (Hrun O) as (_ & _ & Hc & _). unfold run. rewrite Hc.
    rewrite wrap32_id by (cbn; unfold INT_MAX in *; lia). cbn. lia.
  - intros k. destruct (Hstep k) as (H1 & H2 & _). split; assumption.
  - intros k Hk. destruct (Hrun k) as (_ & _ & Hc & Htm). split; [apply Htm; exact Hk|].
    unfold run. rewrite Hc. apply wrap32_nonzero. unfold INT_MAX in Ht. lia.
  - cbv zeta.
    assert (Hn : Z.to_nat (2 * times) = S (Z.to_nat (2 * times - 1))) by lia.
    destruct (Hrun (Z.to_nat (2 * times))) as (_ & _ & Hc & _).
    rewrite Z2Nat.id, Z.sub_diag in Hc by lia. change (wrap32 0) with 0 in Hc.
    fold (run (Z.to_nat (2 * times))) in Hc.
    split; [exact Hc|].
    rewrite Hn in Hc |- *.
    destruct (Hstep (Z.to_nat (2 * times - 1))) as (_ & H2 & H3).
    rewrite Hc in H2, H3. split; [exact H2|exact H3].
Qed.

Lemma SingleLed_Blink_terminates_witness :
  let s := SetColor 0 4 0 new in
  let run k := ticks k (Blink 3 100 s) in
  blink_counter_ (run O) = 6 /\
  (3 * 2 <= INT_MAX -> blink_counter_ (run O) = 2 * 3) /\
  (forall k,
     blink_counter_ (run (S k)) = wrap32 (blink_counter_ (run k) - 1) /\
     single_shown (run (S k)) =
       (if Z.odd (blink_counter_ (run (S k))) then [(0, 4, 0)] else [led_strip.dark])) /\
  (forall k, Z.of_nat k < 2 * 3 ->
     blink_timer_ (run k) = Some 100000 /\ blink_counter_ (run k) <> 0) /\
  (let r := run 6%nat in
   blink_counter_ r = 0 /\ single_shown r = [led_strip.dark] /\ blink_timer_ r = None).
Proof.
  exact (SingleLed_Blink_terminates (SetColor 0 4 0 new) 3 100
           (SetColor_wf new 0 4 0 new_single_wf) ltac:(unfold INT_MAX; lia)).
Defined.

End SingleLedProps.

(** ** The PWM LED *)

Module GpioLedProps.
Import GpioLed.

Lemma percent_duty b :
  0 <= b <= 255 ->
  (if b =? 100 then LEDC_DUTY else wrapu32 (Z.quot (wrap32 (b * LEDC_DUTY)) 100))
  = b * 8191 / 100.
Proof.
  intros Hb. unfold LEDC_DUTY.
  destruct (Z.eqb_spec b 100) as [->|Hne]; [reflexivity|].
  unfold wrap32, wrapu32.
  replace ((b * 8191 + 2147483648) mod 4294967296 - 2147483648) with (b * 8191)
    by (rewrite Z.mod_small by lia; lia).
  rewrite Z.quot_div_nonneg by lia.
  apply Z.mod_small. split; [apply Z.div_pos; lia|].
  apply Z.div_lt_upper_bound; lia.
Qed.

(** An operation other than [TurnOn] and the blink tick never reads [duty_]. *)
Lemma gpio_exec_duty op d s :
  op <> OpTurnOn -> op <> OpBlinkTimer ->
  gpio_exec op (set_duty_ d s) = set_duty_ d (gpio_exec op s).
Proof.
  intros H1 H2. destruct s as [ch init du cnt ivl tm up er].
  destruct op; try congruence; cbn;
    unfold TurnOff, Blink, StartContinuousBlink, StartBlinkTask, StartFadeTask, OnFadeEnd;
    cbn; destruct init; reflexivity.
Qed.

Lemma gpio_run_duty ops d s :
  ~ In OpTurnOn ops -> ~ In OpBlinkTimer ops ->
  gpio_run ops (set_duty_ d s) = set_duty_ d (gpio_run ops s).
Proof.
  revert s. induction ops as [|op ops IH]; intros s H1 H2; [reflexivity|].
  cbn [gpio_run fold_left]. fold (gpio_run ops).
  rewrite gpio_exec_duty; [apply IH|..]; cbn in H1, H2; tauto.
Qed.

(** C9, as amended: [SetBrightness(percent)] writes the stored duty [duty_]
    (to [percent * 8191 / 100]) and nothing else: the LEDC channel, with the
    duty on the pin, the timer, the blink counter and the fade flag are as
    before, and stay independent of the call through any later operations
    other than [TurnOn] and a blink-timer tick; a [TurnOn] that follows puts
    the stored duty on the pin, and so does the first tick of a blink that
    follows. *)
Theorem SetBrightness_deferred (s : Led) (brightness : Z) :
  0 <= brightness <= 255 ->
  let s' := SetBrightness brightness s in
  s' = set_duty_ (brightness * 8191 / 100) s /\
  duty_ s' = brightness * 8191 / 100 /\
  ledc_channel_ s' = ledc_channel_ s /\
  ledc.duty_out (ledc_channel_ s') = ledc.duty_out (ledc_channel_ s) /\
  (blink_timer_ s', blink_counter_ s', blink_interval_ms_ s', fade_up_ s',
   ledc_initialized_ s', errors_ s')
  = (blink_timer_ s, blink_counter_ s, blink_interval_ms_ s, fade_up_ s,
     ledc_initialized_ s, errors_ s) /\
  (forall ops, ~ In OpTurnOn ops -> ~ In OpBlinkTimer ops ->
     ledc_channel_ (gpio_run ops s') = ledc_channel_ (gpio_run ops s)) /\
  (ledc_initialized_ s = true ->
   ledc.duty_out (ledc_channel_ (TurnOn s')) = brightness * 8191 / 100 /\
   ledc.fading (ledc_channel_ (TurnOn s')) = false /\
   blink_timer_ (TurnOn s') = None) /\
  (ledc_initialized_ s = true ->
   forall times interval_ms,
     ledc.duty_out (ledc_channel_ (OnBlinkTimer (StartBlinkTask times interval_ms s')))
     = brightness * 8191 / 100).
Proof.
  intros Hb. cbv zeta.
  assert (E : SetBrightness brightness s = set_duty_ (brightness * 8191 / 100) s).
  { unfold SetBrightness. rewrite <- (percent_duty brightness Hb).
    destruct (brightness =? 100); reflexivity. }
  rewrite E. do 5 (split; [reflexivity|]).
  split; [|split].
  - intros ops H1 H2. rewrite gpio_run_duty by assumption. reflexivity.
  - intros Hinit. unfold TurnOn. cbn [set_duty_ ledc_initialized_]. rewrite Hinit.
    cbn. repeat split.
  - intros Hinit times interval_ms. unfold StartBlinkTask.
    cbn [set_duty_ ledc_initialized_]. rewrite Hinit. cbn [negb].
    unfold OnBlinkTimer, seq_cmd. cbn.
    pose proof (first_tick_odd times) as Hodd.
    rewrite <- land_1_odd in Hodd. rewrite Hodd. reflexivity.
Qed.

Lemma SetBrightness_deferred_witness :
  let s' := SetBrightness 50 new in
  s' = set_duty_ 4095 new /\
  duty_ s' = 4095 /\
  ledc_channel_ s' = ledc_channel_ new /\
  ledc.duty_out (ledc_channel_ s') = 0 /\
  (blink_timer_ s', blink_counter_ s', blink_interval_ms_ s', fade_up_ s',
   ledc_initialized_ s', errors_ s')
  = (blink_timer_ new, blink_counter_ new, blink_interval_ms_ new, fade_up_ new,
     ledc_initialized_ new, errors_ new) /\
  (forall ops, ~ In OpTurnOn ops -> ~ In OpBlinkTimer ops ->
     ledc_channel_ (gpio_run ops s') = ledc_channel_ (gpio_run ops new)) /\
  (ledc_initialized_ new = true ->
   ledc.duty_out (ledc_channel_ (TurnOn s')) = 4095 /\
   ledc.fading (ledc_channel_ (TurnOn s')) = false /\
   blink_timer_ (TurnOn s') = None) /\
  (ledc_initialized_ new = true ->
   forall times interval_ms,
     ledc.duty_out (ledc_channel_ (OnBlinkTimer (StartBlinkTask times interval_ms s')))
     = 4095).
Proof.
  exact (SetBrightness_deferred new 50 ltac:(lia)).
Defined.

(** C9, as stated, fails: the stored duty reaches the pin without any
    [TurnOn]. After [SetBrightness(50)] on a constructed LED, [Blink(1, 100)]
    and one timer tick drive the pin at duty 4095; without the
    [SetBrightness] the same two steps leave it at 0. *)
Lemma SetBrightness_only_TurnOn_fails :
  ~ (forall (s : Led) (brightness : Z) (ops : list GpioOp),
       0 <= brightness <= 255 -> ~ In OpTurnOn ops ->
       ledc.duty_out (ledc_channel_ (gpio_run ops (SetBrightness brightness s))) =
       ledc.duty_out (ledc_channel_ (gpio_run ops s))).
Proof.
  intros H.
  specialize (H new 50 [OpBlink 1 100; OpBlinkTimer] ltac:(lia)).
  assert (Hno : ~ In OpTurnOn [OpBlink 1 100; OpBlinkTimer]).
  { cbn. intros [E|[E|[]]]; discriminate E. }
  specialize (H Hno). vm_compute in H. discriminate H.
Qed.

End GpioLedProps.

(** ** The state bindings of the three variants *)

Module StateBindingProps.

Lemma single_TurnOff_spec s :
  single_wf s ->
  single_shown (SingleLed.TurnOff s) = [led_strip.dark] /\
  SingleLed.blink_timer_ (SingleLed.TurnOff s) = None.
Proof.
  intros (d & Hd & Hlen). destruct d as [buf leds]. cbn in Hlen.
  destruct buf as [|p [|q buf]]; try discriminate Hlen.
  destruct s as [ls r g b cnt ivl tm w]. cbn in Hd. subst ls.
  split; reflexivity.
Qed.

Lemma single_TurnOn_spec s :
  single_wf s ->
  single_shown (SingleLed.TurnOn s) = [(SingleLed.r_ s, SingleLed.g_ s, SingleLed.b_ s)] /\
  SingleLed.blink_timer_ (SingleLed.TurnOn s) = None.
Proof.
  intros (d & Hd & Hlen). destruct d as [buf leds]. cbn in Hlen.
  destruct buf as [|p [|q buf]]; try discriminate Hlen.
  destruct s as [ls r g b cnt ivl tm w]. cbn in Hd. subst ls.
  split; reflexivity.
Qed.

(** C7, as amended: in state idle the strip applies [FadeOut(50)] and the
    single pixel applies [TurnOff] (LED dark, timer stopped); the PWM LED
    applies neither: it sets the brightness to 5% and calls [TurnOn], which
    leaves the pin at duty 409 of 8191 with no blink timer and no fade. *)
Theorem idle_binding (app : Application) :
  GetDeviceState app = kDeviceStateIdle ->
  (forall s, CircularStrip.OnStateChanged app s = CircularStrip.FadeOut 50 s) /\
  (forall s, SingleLed.OnStateChanged app s = SingleLed.TurnOff s) /\
  (forall s, single_wf s ->
     single_shown (SingleLed.OnStateChanged app s) = [led_strip.dark] /\
     SingleLed.blink_timer_ (SingleLed.OnStateChanged app s) = None) /\
  (forall s, GpioLed.OnStateChanged app s =
             GpioLed.TurnOn (GpioLed.SetBrightness GpioLed.IDLE_BRIGHTNESS s)) /\
  (forall s, GpioLed.ledc_initialized_ s = true ->
     let s' := GpioLed.OnStateChanged app s in
     ledc.duty_out (GpioLed.ledc_channel_ s') = 409 /\
     ledc.fading (GpioLed.ledc_channel_ s') = false /\
     GpioLed.blink_timer_ s' = None).
Proof.
  intros Hidle.
  assert (E1 : forall s, SingleLed.OnStateChanged app s = SingleLed.TurnOff s).
  { intros s. unfold SingleLed.OnStateChanged. rewrite Hidle. reflexivity. }
  assert (E2 : forall s, GpioLed.OnStateChanged app s =
                         GpioLed.TurnOn (GpioLed.SetBrightness GpioLed.IDLE_BRIGHTNESS s)).
  { intros s. unfold GpioLed.OnStateChanged. rewrite Hidle. reflexivity. }
  split; [|split; [|split; [|split]]].
  - intros s. unfold CircularStrip.OnStateChanged. rewrite Hidle. reflexivity.
  - exact E1.
  - intros s Hwf. rewrite E1. apply single_TurnOff_spec. exact Hwf.
  - exact E2.
  - intros s Hinit. cbv zeta. rewrite E2. unfold GpioLed.TurnOn.
    change (GpioLed.ledc_initialized_ (GpioLed.SetBrightness GpioLed.IDLE_BRIGHTNESS s))
      with (GpioLed.ledc_initialized_ s).
    rewrite Hinit. cbn. repeat split.
Qed.

Lemma idle_binding_witness :
  let app := app_in kDeviceStateIdle false in
  (forall s, CircularStrip.OnStateChanged app s = CircularStrip.FadeOut 50 s) /\
  (forall s, SingleLed.OnStateChanged app s = SingleLed.TurnOff s) /\
  (forall s, single_wf s ->
     single_shown (SingleLed.OnStateChanged app s) = [led_strip.dark] /\
     SingleLed.blink_timer_ (SingleLed.OnStateChanged app s) = None) /\
  (forall s, GpioLed.OnStateChanged app s =
             GpioLed.TurnOn (GpioLed.SetBrightness GpioLed.IDLE_BRIGHTNESS s)) /\
  (forall s, GpioLed.ledc_initialized_ s = true ->
     let s' := GpioLed.OnStateChanged app s in
     ledc.duty_out (GpioLed.ledc_channel_ s') = 409 /\
     ledc.fading (GpioLed.ledc_channel_ s') = false /\
     GpioLed.blink_timer_ s' = None).
Proof.
  exact (idle_binding (app_in kDeviceStateIdle false) eq_refl).
Defined.

(** C7, as stated, fails for the PWM LED: in state idle a constructed
    [GpioLed] ends neither as [TurnOff] leaves it nor as its fade effect
    leaves it; the pin is driven at duty 409, not 0. *)
Lemma idle_FadeOut_or_TurnOff_fails :
  ~ (forall (app : Application) (s : GpioLed.Led),
       GetDeviceState app = kDeviceStateIdle ->
       GpioLed.OnStateChanged app s = GpioLed.TurnOff s \/
       GpioLed.OnStateChanged app s = GpioLed.StartFadeTask s).
Proof.
  intros H.
  destruct (H (app_in kDeviceStateIdle false) GpioLed.new eq_refl) as [E|E];
    apply (f_equal (fun s => ledc.duty_out (GpioLed.ledc_channel_ s))) in E;
    vm_compute in E; discriminate E.
Qed.

(** C8, as amended: in state listening or audio-testing, the single pixel
    shows solid red at brightness 16 when voice is detected and 2 otherwise;
    the strip shows the solid colour {default, low, low} whatever the
    voice-detection flag; the PWM LED stores duty 8191 when voice is detected
    and 819 otherwise, leaves the pin's duty as it was and starts a hardware
    fade to full duty instead of a solid level. *)
Theorem listening_binding (app : Application) :
  GetDeviceState app = kDeviceStateListening \/
  GetDeviceState app = kDeviceStateAudioTesting ->
  (forall s, SingleLed.OnStateChanged app s =
             SingleLed.TurnOn
               (SingleLed.SetColor (if IsVoiceDetected app
                                    then SingleLed.HIGH_BRIGHTNESS
                                    else SingleLed.LOW_BRIGHTNESS) 0 0 s)) /\
  (forall s, single_wf s ->
     single_shown (SingleLed.OnStateChanged app s) =
       [(if IsVoiceDetected app then 16 else 2, 0, 0)] /\
     SingleLed.blink_timer_ (SingleLed.OnStateChanged app s) = None) /\
  (forall s, CircularStrip.OnStateChanged app s =
             CircularStrip.SetAllColor
               (mkColor (CircularStrip.default_brightness_ s)
                        (CircularStrip.low_brightness_ s)
                        (CircularStrip.low_brightness_ s)) s) /\
  (forall s, strip_shape s ->
     shown (CircularStrip.OnStateChanged app s) =
       replicate (Z.to_nat (CircularStrip.max_leds_ s))
         (CircularStrip.default_brightness_ s, CircularStrip.low_brightness_ s,
          CircularStrip.low_brightness_ s) /\
     CircularStrip.strip_timer_ (CircularStrip.OnStateChanged app s) = None) /\
  (forall s, GpioLed.OnStateChanged app s =
             GpioLed.StartFadeTask
               (GpioLed.SetBrightness (if IsVoiceDetected app
                                       then GpioLed.HIGH_BRIGHTNESS
                                       else GpioLed.LOW_BRIGHTNESS) s)) /\
  (forall s, GpioLed.ledc_initialized_ s = true ->
     let s' := GpioLed.OnStateChanged app s in
     GpioLed.duty_ s' = (if IsVoiceDetected app then 8191 else 819) /\
     ledc.duty_out (GpioLed.ledc_channel_ s') = ledc.duty_out (GpioLed.ledc_channel_ s) /\
     ledc.fading (GpioLed.ledc_channel_ s') = true /\
     ledc.fade_target (GpioLed.ledc_channel_ s') = Some (8191, 1000) /\
     GpioLed.blink_timer_ s' = None).
Proof.
  intros Hst.
  assert (E1 : forall s, SingleLed.OnStateChanged app s =
             SingleLed.TurnOn
               (SingleLed.SetColor (if IsVoiceDetected app
                                    then SingleLed.HIGH_BRIGHTNESS
                                    else SingleLed.LOW_BRIGHTNESS) 0 0 s)).
  { intros s. unfold SingleLed.OnStateChanged.
    destruct Hst as [-> | ->]; destruct (IsVoiceDetected app); reflexivity. }
  assert (E2 : forall s, CircularStrip.OnStateChanged app s =
             CircularStrip.SetAllColor
               (mkColor (CircularStrip.default_brightness_ s)
                        (CircularStrip.low_brightness_ s)
                        (CircularStrip.low_brightness_ s)) s).
  { intros s. unfold CircularStrip.OnStateChanged. destruct Hst as [-> | ->]; reflexivity. }
  assert (E3 : forall s, GpioLed.OnStateChanged app s =
             GpioLed.StartFadeTask
               (GpioLed.SetBrightness (if IsVoiceDetected app
                                       then GpioLed.HIGH_BRIGHTNESS
                                       else GpioLed.LOW_BRIGHTNESS) s)).
  { intros s. unfold GpioLed.OnStateChanged.
    destruct Hst as [-> | ->]; destruct (IsVoiceDetected app); reflexivity. }
  split; [exact E1|]. split; [|split; [exact E2|split; [|split; [exact E3|]]]].
  - intros s Hwf. rewrite E1.
    destruct (single_TurnOn_spec
                (SingleLed.SetColor (if IsVoiceDetected app
                                     then SingleLed.HIGH_BRIGHTNESS
                                     else SingleLed.LOW_BRIGHTNESS) 0 0 s)) as [H1 H2].
    { destruct Hwf as (d & Hd & Hlen). exists d. split; assumption. }
    rewrite H1, H2. cbn. destruct (IsVoiceDetected app); split; reflexivity.
  - intros s Hshape. rewrite E2.
    destruct (CircularStripProps.SetAllColor_spec s
                (mkColor (CircularStrip.default_brightness_ s)
                         (CircularStrip.low_brightness_ s)
                         (CircularStrip.low_brightness_ s)) Hshape) as (_ & H2 & H3 & _).
    split; [exact H2|exact H3].
  - intros s Hinit. cbv zeta. rewrite E3. unfold GpioLed.StartFadeTask.
    destruct (IsVoiceDetected app);
      cbn [GpioLed.SetBrightness]; cbn; rewrite Hinit; cbn; repeat split.
Qed.

Lemma listening_binding_witness :
  let app := app_in kDeviceStateListening true in
  (forall s, SingleLed.OnStateChanged app s =
             SingleLed.TurnOn (SingleLed.SetColor SingleLed.HIGH_BRIGHTNESS 0 0 s)) /\
  (forall s, single_wf s ->
     single_shown (SingleLed.OnStateChanged app s) = [(16, 0, 0)] /\
     SingleLed.blink_timer_ (SingleLed.OnStateChanged app s) = None) /\
  (forall s, CircularStrip.OnStateChanged app s =
             CircularStrip.SetAllColor
               (mkColor (CircularStrip.default_brightness_ s)
                        (CircularStrip.low_brightness_ s)
                        (CircularStrip.low_brightness_ s)) s) /\
  (forall s, strip_shape s ->
     shown (CircularStrip.OnStateChanged app s) =
       replicate (Z.to_nat (CircularStrip.max_leds_ s))
         (CircularStrip.default_brightness_ s, CircularStrip.low_brightness_ s,
          CircularStrip.low_brightness_ s) /\
     CircularStrip.strip_timer_ (CircularStrip.OnStateChanged app s) = None) /\
  (forall s, GpioLed.OnStateChanged app s =
             GpioLed.StartFadeTask (GpioLed.SetBrightness GpioLed.HIGH_BRIGHTNESS s)) /\
  (forall s, GpioLed.ledc_initialized_ s = true ->
     let s' := GpioLed.OnStateChanged app s in
     GpioLed.duty_ s' = 8191 /\
     ledc.duty_out (GpioLed.ledc_channel_ s') = ledc.duty_out (GpioLed.ledc_channel_ s) /\
     ledc.fading (GpioLed.ledc_channel_ s') = true /\
     ledc.fade_target (GpioLed.ledc_channel_ s') = Some (8191, 1000) /\
     GpioLed.blink_timer_ s' = None).
Proof.
  exact (listening_binding (app_in kDeviceStateListening true) (or_introl eq_refl)).
Defined.

(** C8, as stated, fails for the strip: in state listening a fresh 6-pixel
    strip shows the same colour with and without voice detected. *)
Lemma listening_voice_branch_fails :
  ~ (forall s : CircularStrip.Strip,
       strip_shape s ->
       shown (CircularStrip.OnStateChanged (app_in kDeviceStateListening true) s) <>
       shown (CircularStrip.OnStateChanged (app_in kDeviceStateListening false) s)).
Proof.
  intros H.
  apply (H (CircularStrip.new 6) (CircularStripProps.new_shape 6 ltac:(discriminate))).
  reflexivity.
Qed.

End StateBindingProps.

(** * Further properties of the three variants *)

(** ** The multi-pixel strip: the remaining operations *)

Module CircularStripMore.
Import CircularStrip CircularStripProps.


(** [SetAllColor] in full: the state of the driver and the out-of-bounds
    flag as well. *)
Lemma SetAllColor_state s color :
  strip_shape s ->
  let s' := SetAllColor color s in
  colors_ s' = replicate (Z.to_nat (max_leds_ s)) color /\
  led_strip_ s' =
    Some (led_strip.mk (replicate (Z.to_nat (max_leds_ s)) (to_rgb color))
                       (replicate (Z.to_nat (max_leds_ s)) (to_rgb color))) /\
  ctl s' = ctl (esp_timer_stop s) /\
  oob_ s' = oob_ s.
Proof.
  intros (Hn0 & Hlen & d & Hd & Hdlen). cbv zeta.
  unfold SetAllColor, lock_guard, seq_cmd, for_leds.
  set (s0 := esp_timer_stop (emit EvLock s)).
  set (body := fun i : Z => fun s1 : Strip =>
         led_strip_set_pixel i (red color) (green color) (blue color) (store i color s1)).
  assert (Hloop : forall count, (count <= Z.to_nat (max_leds_ s))%nat ->
    let r := for_loop 0 count body s0 in
    ctl r = ctl s0 /\ oob_ r = oob_ s0 /\
    colors_ r = replicate count color ++ drop count (colors_ s) /\
    led_strip_ r = Some (led_strip.mk (replicate count (to_rgb color)
                                         ++ drop count (led_strip.pixel_buf d))
                                      (led_strip.leds d))).
  { intros count Hcount. cbv zeta.
    apply (for_loop_ind (fun k r =>
      ctl r = ctl s0 /\ oob_ r = oob_ s0 /\
      colors_ r = replicate k color ++ drop k (colors_ s) /\
      led_strip_ r = Some (led_strip.mk (replicate k (to_rgb color)
                                           ++ drop k (led_strip.pixel_buf d))
                                        (led_strip.leds d)))).
    - repeat split. cbn. rewrite Hd. destruct d; reflexivity.
    - intros k r Hk (Hctl & Hoob & Hcol & Hdrv).
      destruct (split_at (colors_ s) k) as (x & Hx & Hdrop & Htake); [lia|].
      destruct (split_at (led_strip.pixel_buf d) k) as (p & Hp & Hpdrop & Hptake); [lia|].
      rewrite Hdrop in Hcol. rewrite Hpdrop in Hdrv.
      assert (Hpre : Z.of_nat k = Z.of_nat (length (replicate k color)))
        by (rewrite length_replicate; reflexivity).
      pose proof (modify_at r _ _ _ (Z.of_nat k) (fun _ => color) Hcol Hpre) as Hst.
      fold (store (Z.of_nat k) color r) in Hst.
      unfold body. rewrite Hst.
      edestruct (set_pixel_spec
                   (emit (EvStore (Z.of_nat k))
                      (set_colors (replicate k color ++ color :: drop (S k) (colors_ s)) r)))
        as (P1 & P2 & P3);
        [cbn; exact Hdrv|cbn; reflexivity|rewrite length_replicate; reflexivity|].
      rewrite P1, P2, P3.
      assert (Hoob' : oob_ (led_strip_set_pixel (Z.of_nat k) (red color) (green color) (blue color)
                (emit (EvStore (Z.of_nat k))
                   (set_colors (replicate k color ++ color :: drop (S k) (colors_ s)) r)))
              = oob_ r).
      { unfold led_strip_set_pixel, seq_cmd, with_driver. cbn. rewrite Hdrv. reflexivity. }
      rewrite Hoob'. cbn [colors_ emit set_colors].
      split; [exact Hctl|]. split; [exact Hoob|].
      split; rewrite replicate_S_end, <- app_assoc; reflexivity. }
  destruct (Hloop (Z.to_nat (max_leds_ s))) as (T & O & C & D); [lia|].
  change (max_leds_ s0) with (max_leds_ s).
  set (r := for_loop 0 (Z.to_nat (max_leds_ s)) body s0) in *.
  rewrite drop_ge, app_nil_r in C by lia.
  rewrite drop_ge, app_nil_r in D by lia.
  unfold led_strip_refresh, seq_cmd, with_driver. rewrite D. cbn.
  rewrite C, O. repeat split. exact T.
Qed.


(** X1: [SetAllColor] on a constructed strip stops the timer and fills the
    buffer and every LED with the colour, writing nothing out of bounds; the
    installed step and the statics of the effects stay as they are, the strip
    stays well formed, and of two calls in a row the second decides. *)
Theorem SetAllColor_solid (s : Strip) (color other : StripColor) :
  strip_shape s ->
  let s' := SetAllColor color s in
  colors_ s' = replicate (Z.to_nat (max_leds_ s)) color /\
  shown s' = replicate (Z.to_nat (max_leds_ s)) (to_rgb color) /\
  strip_timer_ s' = None /\
  oob_ s' = oob_ s /\
  (strip_callback_ s', Blink_on s', Scroll_offset s', Breathe_increase s', Breathe_color s')
  = (strip_callback_ s, Blink_on s, Scroll_offset s, Breathe_increase s, Breathe_color s) /\
  strip_shape s' /\
  colors_ (SetAllColor color (SetAllColor other s)) = colors_ s' /\
  shown (SetAllColor color (SetAllColor other s)) = shown s'.
Proof.
  intros Hshape. cbv zeta.
  assert (Hgen : forall c s0, strip_shape s0 ->
    colors_ (SetAllColor c s0) = replicate (Z.to_nat (max_leds_ s0)) c /\
    shown (SetAllColor c s0) = replicate (Z.to_nat (max_leds_ s0)) (to_rgb c) /\
    max_leds_ (SetAllColor c s0) = max_leds_ s0 /\
    strip_shape (SetAllColor c s0)).
  { intros c s0 Hs0. pose proof Hs0 as (Hn0 & _).
    destruct (SetAllColor_state s0 c Hs0) as (C & D & T & _).
    destruct (ctl_fields _ _ T) as (N & _).
    change (max_leds_ (esp_timer_stop s0)) with (max_leds_ s0) in N.
    split; [exact C|]. split; [unfold shown; rewrite D; reflexivity|].
    split; [exact N|]. split; [rewrite N; exact Hn0|].
    split; [rewrite C, N, length_replicate; reflexivity|].
    eexists. split; [exact D|]. cbn [led_strip.pixel_buf].
    rewrite N, length_replicate. reflexivity. }
  destruct (SetAllColor_state s color Hshape) as (C & D & T & O).
  destruct (ctl_fields _ _ T) as (N & M & B & F1 & F2 & F3 & F4).
  destruct (Hgen color s Hshape) as (_ & Hsh & _ & Hwf).
  destruct (Hgen other s Hshape) as (_ & _ & N2 & Hwf2).
  destruct (Hgen color _ Hwf2) as (C3 & S3 & _).
  rewrite C3, S3, N2, C, Hsh.
  change (strip_timer_ (esp_timer_stop s)) with (@None Z) in M.
  change (strip_callback_ (esp_timer_stop s)) with (strip_callback_ s) in B.
  change (Scroll_offset (esp_timer_stop s)) with (Scroll_offset s) in F1.
  change (Blink_on (esp_timer_stop s)) with (Blink_on s) in F2.
  change (Breathe_increase (esp_timer_stop s)) with (Breathe_increase s) in F3.
  change (Breathe_color (esp_timer_stop s)) with (Breathe_color s) in F4.
  split; [reflexivity|]. split; [reflexivity|]. split; [exact M|]. split; [exact O|].
  split; [congruence|]. split; [exact Hwf|]. split; reflexivity.
Qed.

Lemma SetAllColor_solid_witness :
  let s := Blink (mkColor 4 4 32) 500 (new 6) in
  let color := mkColor 32 4 4 in
  let other := mkColor 1 2 3 in
  let s' := SetAllColor color s in
  colors_ s' = replicate (Z.to_nat (max_leds_ s)) color /\
  shown s' = replicate (Z.to_nat (max_leds_ s)) (to_rgb color) /\
  strip_timer_ s' = None /\
  oob_ s' = oob_ s /\
  (strip_callback_ s', Blink_on s', Scroll_offset s', Breathe_increase s', Breathe_color s')
  = (strip_callback_ s, Blink_on s, Scroll_offset s, Breathe_increase s, Breathe_color s) /\
  strip_shape s' /\
  colors_ (SetAllColor color (SetAllColor other s)) = colors_ s' /\
  shown (SetAllColor color (SetAllColor other s)) = shown s'.
Proof.
  apply (SetAllColor_solid (Blink (mkColor 4 4 32) 500 (new 6))
           (mkColor 32 4 4) (mkColor 1 2 3)).
  split; [vm_compute; discriminate|]. split; [reflexivity|].
  eexists. split; reflexivity.
Defined.

(** X2: [SetSingleColor] with an index inside the strip stops the timer and
    writes that one entry of the buffer, leaving the others and the length as
    they were and writing nothing out of bounds; the LEDs then show the
    driver's frame with that one pixel replaced. *)
Theorem SetSingleColor_in_range (s : Strip) (d : led_strip.t) (index : Z) (color : StripColor) :
  strip_shape s -> led_strip_ s = Some d ->
  0 <= index < max_leds_ s ->
  let s' := SetSingleColor index color s in
  colors_ s' = <[Z.to_nat index := color]> (colors_ s) /\
  colors_ s' !! Z.to_nat index = Some color /\
  (forall j, j <> Z.to_nat index -> colors_ s' !! j = colors_ s !! j) /\
  length (colors_ s') = length (colors_ s) /\
  shown s' = <[Z.to_nat index := to_rgb color]> (led_strip.pixel_buf d) /\
  strip_timer_ s' = None /\
  oob_ s' = oob_ s.
Proof.
  intros (Hn0 & Hlen & d' & Hd' & Hdlen) Hd Hi. cbv zeta.
  rewrite Hd in Hd'. injection Hd' as <-.
  unfold SetSingleColor, lock_guard, seq_cmd.
  rewrite store_at by (cbn; lia).
  unfold shown, led_strip_refresh, led_strip_set_pixel, seq_cmd, with_driver. cbn.
  rewrite Hd. cbn. unfold led_strip.set_pixel.
  replace ((0 <=? index) && (index <? Z.of_nat (length (led_strip.pixel_buf d)))) with true
    by (symmetry; apply andb_true_intro; split; [apply Z.leb_le|apply Z.ltb_lt]; lia).
  cbn. repeat split.
  - apply list_lookup_insert_eq. lia.
  - intros j Hj. apply list_lookup_insert_ne. congruence.
  - apply length_insert.
Qed.

Lemma SetSingleColor_in_range_witness :
  let s := SetAllColor (mkColor 4 4 32) (new 3) in
  let s' := SetSingleColor 1 (mkColor 9 9 9) s in
  colors_ s' = [mkColor 4 4 32; mkColor 9 9 9; mkColor 4 4 32] /\
  colors_ s' !! 1%nat = Some (mkColor 9 9 9) /\
  (forall j, j <> 1%nat -> colors_ s' !! j = colors_ s !! j) /\
  length (colors_ s') = 3%nat /\
  shown s' = [(4, 4, 32); (9, 9, 9); (4, 4, 32)] /\
  strip_timer_ s' = None /\
  oob_ s' = false.
Proof.
  refine (SetSingleColor_in_range (SetAllColor (mkColor 4 4 32) (new 3)) _ 1 (mkColor 9 9 9)
            _ eq_refl _).
  - split; [vm_compute; discriminate|]. split; [reflexivity|].
    eexists. split; reflexivity.
  - vm_compute. split; [discriminate|reflexivity].
Defined.


(** One tick of the blink effect. *)
Lemma Blink_tick s :
  strip_shape s -> strip_callback_ s = Some BlinkStep ->
  let s' := timer_callback s in
  colors_ s' = colors_ s /\
  led_strip_ s' =
    Some (if Blink_on s
          then led_strip.mk (map to_rgb (colors_ s)) (map to_rgb (colors_ s))
          else led_strip.mk (replicate (Z.to_nat (max_leds_ s)) led_strip.dark)
                            (replicate (Z.to_nat (max_leds_ s)) led_strip.dark)) /\
  Blink_on s' = negb (Blink_on s) /\
  max_leds_ s' = max_leds_ s /\
  strip_callback_ s' = strip_callback_ s /\
  strip_timer_ s' = strip_timer_ s.
Proof.
  intros (Hn0 & Hlen & d & Hd & Hdlen) Hcb. cbv zeta.
  unfold timer_callback, lock_guard, seq_cmd.
  replace (strip_callback_ (emit EvLock s)) with (Some BlinkStep) by (symmetry; exact Hcb).
  cbn [run]. unfold Blink_step.
  change (Blink_on (emit EvLock s)) with (Blink_on s).
  set (s0 := emit EvLock s).
  destruct (Blink_on s) eqn:Hon.
  - unfold seq_cmd, for_leds.
    destruct (set_pixel_loop (fun k => load (Z.of_nat k) s0)
                (fun i s' => led_strip_set_pixel i (red (load i s')) (green (load i s'))
                               (blue (load i s')) s')
                s0 d (Z.to_nat (max_leds_ s0))) as (T & C & D).
    { exact Hd. }
    { intros k s' Hc _. unfold load. rewrite Hc. reflexivity. }
    { cbn. lia. }
    set (s1 := for_loop 0 (Z.to_nat (max_leds_ s0)) _ s0) in *.
    rewrite drop_ge, app_nil_r in D by (cbn; lia).
    replace (Z.to_nat (max_leds_ s0)) with (length (colors_ s0)) in D by (cbn; lia).
    rewrite map_load_all in D.
    destruct (ctl_fields _ _ T) as (N & M & B & _).
    unfold led_strip_refresh, seq_cmd, with_driver. rewrite D. cbn.
    rewrite C, N, M, B. repeat split.
  - unfold led_strip_clear, seq_cmd, with_driver.
    change (led_strip_ s0) with (led_strip_ s). rewrite Hd. cbn.
    unfold led_strip.clear. cbn. rewrite Hdlen. repeat split.
Qed.

Lemma Blink_install s color iv :
  strip_shape s ->
  let s' := Blink color iv s in
  colors_ s' = replicate (Z.to_nat (max_leds_ s)) color /\
  strip_callback_ s' = Some BlinkStep /\
  Blink_on s' = Blink_on s /\
  max_leds_ s' = max_leds_ s /\
  led_strip_ s' = led_strip_ s /\
  strip_timer_ s' = Some (wrapu64 (wrap32 (iv * 1000))).
Proof.
  intros (Hn0 & Hlen & d & Hd & Hdlen). cbv zeta.
  unfold Blink, seq_cmd, for_leds.
  destruct (store_loop s color (Z.to_nat (max_leds_ s))) as (T1 & D1 & C1); [lia|].
  set (s1 := for_loop 0 (Z.to_nat (max_leds_ s)) (fun i => store i color) s) in *.
  rewrite drop_ge, app_nil_r in C1 by lia.
  destruct (ctl_fields _ _ T1) as (N1 & _ & _ & _ & On1 & _).
  destruct (StartStripTask_spec iv BlinkStep s1 d) as (I1 & I2 & I3 & I4 & I5).
  { rewrite D1. exact Hd. }
  destruct (StartStripTask_statics iv BlinkStep s1) as (S1 & _).
  rewrite I1, I2, I3, I4, I5, C1, N1, S1, On1, Hd. repeat split.
Qed.

(** X3: [Blink] on a constructed strip fills the buffer with the colour and
    starts the timer; from then on the timer never stops by itself, the buffer
    keeps the colour, and successive ticks alternate between showing the
    colour on every LED and showing nothing, starting with the phase the
    static [on] was left in ([true] on a fresh strip: the colour first). *)
Theorem Blink_alternates (s : Strip) (color : StripColor) (interval_ms : Z) :
  strip_shape s ->
  let run k := ticks k (Blink color interval_ms s) in
  let n := Z.to_nat (max_leds_ s) in
  forall k,
    colors_ (run k) = replicate n color /\
    strip_timer_ (run k) = Some (wrapu64 (wrap32 (interval_ms * 1000))) /\
    Blink_on (run k) = (if Nat.even k then Blink_on s else negb (Blink_on s)) /\
    shown (run (S k)) =
      (if Blink_on (run k) then replicate n (to_rgb color) else replicate n led_strip.dark).
Proof.
  intros Hshape run n.
  destruct (Blink_install s color interval_ms Hshape) as (I1 & I2 & I3 & I4 & I5 & I6).
  pose proof Hshape as (Hn0 & Hlen & d & Hd & Hdlen).
  assert (Hinv : forall k,
    strip_shape (run k) /\ strip_callback_ (run k) = Some BlinkStep /\
    max_leds_ (run k) = max_leds_ s /\
    colors_ (run k) = replicate n color /\
    strip_timer_ (run k) = Some (wrapu64 (wrap32 (interval_ms * 1000))) /\
    Blink_on (run k) = (if Nat.even k then Blink_on s else negb (Blink_on s))).
  { induction k as [|k IH].
    - unfold run. change (ticks 0 (Blink color interval_ms s)) with (Blink color interval_ms s).
      split; [|repeat split; assumption].
      split; [rewrite I4; exact Hn0|].
      split; [rewrite I1, I4, length_replicate; reflexivity|].
      exists d. rewrite I5, I4. auto.
    - destruct IH as (Hsh & Hcb & Hmx & Hc & Ht & Hon).
      change (run (S k)) with (timer_callback (run k)).
      destruct (Blink_tick (run k) Hsh Hcb) as (T1 & T2 & T3 & T4 & T5 & T6).
      split; [|split; [congruence|split; [congruence|split; [congruence|split; [congruence|]]]]].
      + split; [rewrite T4; apply Hsh|].
        split; [rewrite T1, T4; apply Hsh|].
        eexists. split; [exact T2|].
        destruct (Blink_on (run k)); cbn [led_strip.pixel_buf];
          rewrite ?length_map, ?length_replicate, T4; [apply Hsh|reflexivity].
      + rewrite T3, Hon, Nat.even_succ, <- Nat.negb_even.
        destruct (Nat.even k); cbn; [reflexivity|apply negb_involutive]. }
  intros k. destruct (Hinv k) as (Hsh & Hcb & Hmx & Hc & Ht & Hon).
  split; [exact Hc|]. split; [exact Ht|]. split; [exact Hon|].
  change (run (S k)) with (timer_callback (run k)).
  destruct (Blink_tick (run k) Hsh Hcb) as (_ & T2 & _).
  unfold shown. rewrite T2, Hc, Hmx. fold n.
  destruct (Blink_on (run k)); cbn [led_strip.leds]; [|reflexivity].
  apply list_eq. intros i. rewrite list_lookup_fmap.
  destruct (decide (i < n)%nat).
  - rewrite !lookup_replicate_2 by lia. reflexivity.
  - rewrite !lookup_ge_None_2 by (rewrite length_replicate; lia). reflexivity.
Qed.

Lemma Blink_alternates_witness :
  let run k := ticks k (Blink (mkColor 4 32 4) 100 (new 6)) in
  forall k,
    colors_ (run k) = replicate 6%nat (mkColor 4 32 4) /\
    strip_timer_ (run k) = Some 100000 /\
    Blink_on (run k) = (if Nat.even k then true else false) /\
    shown (run (S k)) =
      (if Blink_on (run k) then replicate 6%nat (4, 32, 4) else replicate 6%nat led_strip.dark).
Proof.
  exact (Blink_alternates (new 6) (mkColor 4 32 4) 100 (new_shape 6 ltac:(discriminate))).
Defined.


Lemma in_window_spec n len start i :
  in_window n len start i = true <-> exists j, 0 <= j < len /\ (start + j) mod n = i.
Proof.
  unfold in_window. rewrite existsb_exists. split.
  - intros (j & Hin & Hj). exists j. apply list_elem_of_In, elem_of_seqZ in Hin.
    apply Z.eqb_eq in Hj. split; [lia|exact Hj].
  - intros (j & Hj & E). exists j. split.
    + apply list_elem_of_In, elem_of_seqZ. lia.
    + apply Z.eqb_eq. exact E.
Qed.

(** X4: [Scroll] on a ring of any size. With the static offset inside the
    ring when the effect is installed, the timer never stops by itself, the
    window start advances by one pixel per tick modulo the pixel count, and
    tick [k + 1] paints exactly the pixels [(offset + k + j) mod n],
    [0 <= j < length], with [high] and the others with [low], in the buffer
    and on the LEDs; the picture repeats every [n] ticks, and a window at
    least as long as the ring lights every pixel. *)
Theorem Scroll_ring (s : Strip) (low high : StripColor) (len interval_ms : Z) :
  strip_shape s -> 0 < max_leds_ s <= 255 ->
  0 <= Scroll_offset s < max_leds_ s ->
  0 <= len <= INT_MAX - 255 ->
  let n := max_leds_ s in
  let run k := ticks k (Scroll low high len interval_ms s) in
  (forall k,
     Scroll_offset (run k) = (Scroll_offset s + Z.of_nat k) mod n /\
     strip_timer_ (run k) = Some (wrapu64 (wrap32 (interval_ms * 1000))) /\
     shown (run (S k)) = map to_rgb (colors_ (run (S k)))) /\
  (forall k i, 0 <= i < n ->
     ((exists j, 0 <= j < len /\ (Scroll_offset s + Z.of_nat k + j) mod n = i) ->
      colors_ (run (S k)) !! Z.to_nat i = Some high) /\
     ((forall j, 0 <= j < len -> (Scroll_offset s + Z.of_nat k + j) mod n <> i) ->
      colors_ (run (S k)) !! Z.to_nat i = Some low)) /\
  (forall k, colors_ (run (S (k + Z.to_nat n))) = colors_ (run (S k))) /\
  (n <= len -> forall k, colors_ (run (S k)) = replicate (Z.to_nat n) high).
Proof.
  intros Hshape Hn Ho Hlen n run.
  assert (Hrun : forall k,
    Scroll_offset (run k) = (Scroll_offset s + Z.of_nat k) mod n /\
    strip_timer_ (run k) = Some (wrapu64 (wrap32 (interval_ms * 1000))) /\
    colors_ (run (S k)) = paint n len ((Scroll_offset s + Z.of_nat k) mod n) low high /\
    shown (run (S k)) = map to_rgb (colors_ (run (S k)))).
  { intros k.
    destruct (Scroll_run s low high len interval_ms Hshape) with (k := k)
      as (_ & _ & _ & Ht & Hoff & _ & _); try (unfold INT_MAX in *; lia).
    destruct (Scroll_run s low high len interval_ms Hshape) with (k := S k)
      as (_ & _ & _ & _ & _ & Hcol & Hsh); try (unfold INT_MAX in *; lia).
    repeat split; try assumption. apply Hsh. lia. }
  assert (Hpix : forall k i, 0 <= i < n ->
    colors_ (run (S k)) !! Z.to_nat i =
      Some (if in_window n len ((Scroll_offset s + Z.of_nat k) mod n) i then high else low)).
  { intros k i Hi. destruct (Hrun k) as (_ & _ & Hc & _).
    rewrite Hc, paint_lookup by lia. rewrite Z2Nat.id by lia. reflexivity. }
  assert (Hmod : forall k j,
    ((Scroll_offset s + Z.of_nat k) mod n + j) mod n = (Scroll_offset s + Z.of_nat k + j) mod n).
  { intros k j. apply Zplus_mod_idemp_l. }
  split; [|split; [|split]].
  - intros k. destruct (Hrun k) as (H1 & H2 & _ & H4). auto.
  - intros k i Hi. rewrite (Hpix k i Hi). split.
    + intros (j & Hj & E).
      replace (in_window n len ((Scroll_offset s + Z.of_nat k) mod n) i) with true;
        [reflexivity|].
      symmetry. apply in_window_spec. exists j. split; [exact Hj|]. rewrite Hmod. exact E.
    + intros Hnone.
      destruct (in_window n len ((Scroll_offset s + Z.of_nat k) mod n) i) eqn:E; [|reflexivity].
      apply in_window_spec in E as (j & Hj & E). rewrite Hmod in E.
      exfalso. exact (Hnone j Hj E).
  - intros k. destruct (Hrun k) as (_ & _ & Hc & _).
    destruct (Hrun (k + Z.to_nat n)%nat) as (_ & _ & Hc' & _).
    rewrite Hc, Hc'. f_equal.
    replace (Scroll_offset s + Z.of_nat (k + Z.to_nat n))
      with (Scroll_offset s + Z.of_nat k + 1 * n) by lia.
    apply Z.mod_add. lia.
  - intros Hfull k. apply list_eq. intros i.
    destruct (decide (Z.of_nat i < n)) as [Hi|Hi].
    + pose proof (Hpix k (Z.of_nat i) ltac:(lia)) as Hp. rewrite Nat2Z.id in Hp.
      rewrite Hp, lookup_replicate_2 by lia.
      replace (in_window n len ((Scroll_offset s + Z.of_nat k) mod n) (Z.of_nat i)) with true;
        [reflexivity|].
      symmetry. apply in_window_spec.
      exists ((Z.of_nat i - (Scroll_offset s + Z.of_nat k)) mod n).
      pose proof (Z.mod_pos_bound (Z.of_nat i - (Scroll_offset s + Z.of_nat k)) n ltac:(lia)).
      split; [lia|].
      rewrite Zplus_mod_idemp_l, Zplus_mod_idemp_r.
      replace (Scroll_offset s + Z.of_nat k + (Z.of_nat i - (Scroll_offset s + Z.of_nat k)))
        with (Z.of_nat i) by lia.
      apply Z.mod_small. lia.
    + destruct (Hrun k) as (_ & _ & Hc & _).
      rewrite !lookup_ge_None_2; [reflexivity| |].
      * rewrite length_replicate. lia.
      * rewrite Hc, paint_length. lia.
Qed.

Lemma Scroll_ring_witness :
  let s := new 8 in
  let low := mkColor 0 0 0 in
  let high := mkColor 4 4 32 in
  let run k := ticks k (Scroll low high 3 100 s) in
  (forall k,
     Scroll_offset (run k) = (0 + Z.of_nat k) mod 8 /\
     strip_timer_ (run k) = Some 100000 /\
     shown (run (S k)) = map to_rgb (colors_ (run (S k)))) /\
  (forall k i, 0 <= i < 8 ->
     ((exists j, 0 <= j < 3 /\ (0 + Z.of_nat k + j) mod 8 = i) ->
      colors_ (run (S k)) !! Z.to_nat i = Some high) /\
     ((forall j, 0 <= j < 3 -> (0 + Z.of_nat k + j) mod 8 <> i) ->
      colors_ (run (S k)) !! Z.to_nat i = Some low)) /\
  (forall k, colors_ (run (S (k + 8))) = colors_ (run (S k))) /\
  (8 <= 3 -> forall k, colors_ (run (S k)) = replicate 8%nat high).
Proof.
  exact (Scroll_ring (new 8) (mkColor 0 0 0) (mkColor 4 4 32) 3 100
           (new_shape 8 ltac:(discriminate)) ltac:(cbn; lia) ltac:(cbn; lia)
           ltac:(unfold INT_MAX; lia)).
Defined.



Lemma Breathe_update_up low high r g b :
  Breathe_update low high true (mkColor r g b) =
  (let c := mkColor (if r <? red high then wrap8 (r + 1) else r)
                    (if g <? green high then wrap8 (g + 1) else g)
                    (if b <? blue high then wrap8 (b + 1) else b) in
   (negb ((red c =? red high) && (green c =? green high) && (blue c =? blue high)), c)).
Proof.
  unfold Breathe_update. cbn [red green blue].
  destruct (r <? red high); cbn [red green blue];
    destruct (g <? green high); cbn [red green blue];
    destruct (b <? blue high); cbn [red green blue];
    match goal with |- context [if ?x then false else true] => destruct x end; reflexivity.
Qed.

Lemma Breathe_update_down low high r g b :
  Breathe_update low high false (mkColor r g b) =
  (let c := mkColor (if red low <? r then wrap8 (r - 1) else r)
                    (if green low <? g then wrap8 (g - 1) else g)
                    (if blue low <? b then wrap8 (b - 1) else b) in
   ((red c =? red low) && (green c =? green low) && (blue c =? blue low), c)).
Proof.
  unfold Breathe_update. cbn [red green blue].
  destruct (red low <? r); cbn [red green blue];
    destruct (green low <? g); cbn [red green blue];
    destruct (blue low <? b); cbn [red green blue];
    match goal with |- context [if ?x then true else false] => destruct x end; reflexivity.
Qed.

Lemma step_up_min lo hi k :
  0 <= lo <= hi -> hi < 256 -> 0 <= k ->
  (if Z.min (lo + k) hi <? hi then wrap8 (Z.min (lo + k) hi + 1) else Z.min (lo + k) hi)
  = Z.min (lo + (k + 1)) hi.
Proof.
  intros H1 H2 H3. unfold wrap8.
  destruct (Z.ltb_spec (Z.min (lo + k) hi) hi); [rewrite Z.mod_small by lia|]; lia.
Qed.

Lemma step_down_max lo hi j :
  0 <= lo <= hi -> hi < 256 -> 0 <= j ->
  (if lo <? Z.max (hi - j) lo then wrap8 (Z.max (hi - j) lo - 1) else Z.max (hi - j) lo)
  = Z.max (hi - (j + 1)) lo.
Proof.
  intros H1 H2 H3. unfold wrap8.
  destruct (Z.ltb_spec lo (Z.max (hi - j) lo)); [rewrite Z.mod_small by lia|]; lia.
Qed.

Lemma ramp_up_top low high : color_le low high -> ramp_up low high (span low high) = high.
Proof.
  intros (E1 & E2 & E3). unfold ramp_up, span.
  destruct high as [r g b]. cbn in *. f_equal; lia.
Qed.

Lemma ramp_down_bottom low high : color_le low high -> ramp_down low high (span low high) = low.
Proof.
  intros (E1 & E2 & E3). unfold ramp_down, span.
  destruct low as [r g b]. cbn in *. f_equal; lia.
Qed.

Section Wave.
Variables low high : StripColor.
Hypothesis Hlow : color_ok low.
Hypothesis Hhigh : color_ok high.
Hypothesis Hle : color_le low high.
Hypothesis Hspan : 1 <= span low high.

Let upd (st : bool * StripColor) := Breathe_update low high (fst st) (snd st).

Lemma wave_up k :
  Z.of_nat k <= span low high ->
  Nat.iter k upd (true, low) = (Z.of_nat k <? span low high, ramp_up low high (Z.of_nat k)).
Proof.
  destruct Hlow as (L1 & L2 & L3), Hhigh as (H1 & H2 & H3), Hle as (E1 & E2 & E3).
  unfold channel_ok in *.
  induction k as [|k IH]; intros Hk.
  - cbn [Nat.iter nat_rect]. f_equal.
    + symmetry. apply Z.ltb_lt. lia.
    + unfold ramp_up. destruct low as [r g b]. cbn in *. f_equal; lia.
  - change (Nat.iter (S k) upd (true, low)) with (upd (Nat.iter k upd (true, low))).
    rewrite IH by lia.
    replace (Z.of_nat k <? span low high) with true by (symmetry; apply Z.ltb_lt; lia).
    unfold upd, ramp_up. cbn [fst snd]. rewrite Breathe_update_up. cbv zeta.
    rewrite !step_up_min by lia. cbn [red green blue].
    replace (Z.of_nat k + 1) with (Z.of_nat (S k)) by lia.
    f_equal. unfold span in *.
    destruct (Z.eqb_spec (Z.min (red low + Z.of_nat (S k)) (red high)) (red high)),
      (Z.eqb_spec (Z.min (green low + Z.of_nat (S k)) (green high)) (green high)),
      (Z.eqb_spec (Z.min (blue low + Z.of_nat (S k)) (blue high)) (blue high)),
      (Z.ltb_spec (Z.of_nat (S k))
         (Z.max (red high - red low) (Z.max (green high - green low) (blue high - blue low))));
      cbn; try reflexivity; lia.
Qed.

Lemma wave_down j :
  Z.of_nat j <= span low high ->
  Nat.iter j upd (false, high) =
    (if (j =? 0)%nat then false else Z.of_nat j =? span low high,
     ramp_down low high (Z.of_nat j)).
Proof.
  destruct Hlow as (L1 & L2 & L3), Hhigh as (H1 & H2 & H3), Hle as (E1 & E2 & E3).
  unfold channel_ok in *.
  induction j as [|j IH]; intros Hj.
  - cbn [Nat.iter nat_rect Nat.eqb]. f_equal.
    unfold ramp_down. destruct high as [r g b]. cbn in *. f_equal; lia.
  - change (Nat.iter (S j) upd (false, high)) with (upd (Nat.iter j upd (false, high))).
    rewrite IH by lia.
    replace (if (j =? 0)%nat then false else Z.of_nat j =? span low high) with false.
    2:{ destruct (j =? 0)%nat; [reflexivity|]. symmetry. apply Z.eqb_neq. lia. }
    unfold upd, ramp_down. cbn [fst snd]. rewrite Breathe_update_down. cbv zeta.
    rewrite !step_down_max by lia. cbn [red green blue Nat.eqb].
    replace (Z.of_nat j + 1) with (Z.of_nat (S j)) by lia.
    f_equal. unfold span in *.
    destruct (Z.eqb_spec (Z.max (red high - Z.of_nat (S j)) (red low)) (red low)),
      (Z.eqb_spec (Z.max (green high - Z.of_nat (S j)) (green low)) (green low)),
      (Z.eqb_spec (Z.max (blue high - Z.of_nat (S j)) (blue low)) (blue low)),
      (Z.eqb_spec (Z.of_nat (S j))
         (Z.max (red high - red low) (Z.max (green high - green low) (blue high - blue low))));
      cbn; try reflexivity; lia.
Qed.

Lemma iter_add {A} (f : A -> A) a b x : Nat.iter (a + b) f x = Nat.iter a f (Nat.iter b f x).
Proof. induction a as [|a IH]; [reflexivity|]. cbn. f_equal. exact IH. Qed.

(** The two statics after a whole period are back where they started. *)
Lemma wave_period :
  Nat.iter (2 * Z.to_nat (span low high)) upd (true, low) = (true, low).
Proof.
  replace (2 * Z.to_nat (span low high))%nat
    with (Z.to_nat (span low high) + Z.to_nat (span low high))%nat by lia.
  rewrite iter_add, wave_up by lia.
  rewrite Z2Nat.id, Z.ltb_irrefl, (ramp_up_top low high Hle) by lia.
  rewrite wave_down by lia.
  rewrite Z2Nat.id, Z.eqb_refl, (ramp_down_bottom low high Hle) by lia.
  replace (Z.to_nat (span low high) =? 0)%nat with false; [reflexivity|].
  symmetry. apply Nat.eqb_neq. lia.
Qed.

End Wave.


Lemma Breathe_update_bounds low high inc c :
  color_ok low -> color_ok high -> color_le low high ->
  color_le low c -> color_le c high ->
  color_le low (snd (Breathe_update low high inc c)) /\
  color_le (snd (Breathe_update low high inc c)) high.
Proof.
  intros (L1 & L2 & L3) (H1 & H2 & H3) (E1 & E2 & E3) (A1 & A2 & A3) (B1 & B2 & B3).
  unfold channel_ok, color_le in *. destruct c as [r g b]. cbn [red green blue] in *.
  destruct inc; [rewrite Breathe_update_up|rewrite Breathe_update_down];
    cbv zeta; cbn [snd red green blue]; unfold wrap8;
    repeat match goal with
           | |- context [if ?x <? ?y then _ else _] => destruct (Z.ltb_spec x y)
           end;
    rewrite ?Z.mod_small by lia; lia.
Qed.

(** X5: [Breathe] between bounds [low <= high] on a fresh engine is a
    triangular wave. With [D] the largest channel distance between the bounds
    ([D >= 1]): after [k <= D] ticks every channel is [min (low + k) high] and
    the direction turns down exactly at tick [D], where the colour is [high];
    after [j <= D] more ticks every channel is [max (high - j) low] and the
    direction turns up exactly at tick [2 D], where the colour is [low]; the
    LEDs show the current colour on every pixel; the sequence repeats every
    [2 D] ticks and the colour never leaves the bounds. *)
Theorem Breathe_wave (s : Strip) (low high : StripColor) (interval_ms : Z) :
  strip_shape s -> Breathe_color s = None -> Breathe_increase s = true ->
  color_ok low -> color_ok high -> color_le low high -> 1 <= span low high ->
  let D := Z.to_nat (span low high) in
  let n := Z.to_nat (max_leds_ s) in
  let run k := ticks k (Breathe low high interval_ms s) in
  (forall k, (1 <= k <= D)%nat ->
     Breathe_color (run k) = Some (ramp_up low high (Z.of_nat k)) /\
     Breathe_increase (run k) = (k <? D)%nat /\
     shown (run k) = replicate n (to_rgb (ramp_up low high (Z.of_nat k)))) /\
  (forall j, (1 <= j <= D)%nat ->
     Breathe_color (run (D + j)%nat) = Some (ramp_down low high (Z.of_nat j)) /\
     Breathe_increase (run (D + j)%nat) = (j =? D)%nat /\
     shown (run (D + j)%nat) = replicate n (to_rgb (ramp_down low high (Z.of_nat j)))) /\
  Breathe_color (run D) = Some high /\
  Breathe_color (run (2 * D)%nat) = Some low /\
  (forall k, (1 <= k)%nat ->
     Breathe_color (run (k + 2 * D)%nat) = Breathe_color (run k) /\
     Breathe_increase (run (k + 2 * D)%nat) = Breathe_increase (run k) /\
     shown (run (k + 2 * D)%nat) = shown (run k)) /\
  (forall k c, Breathe_color (run k) = Some c -> color_le low c /\ color_le c high).
Proof.
  intros Hshape Hc Hi Hlow Hhigh Hle Hspan D n run.
  pose proof (Breathe_run s low high interval_ms Hshape) as Hrun. cbv zeta in Hrun.
  rewrite Hc, Hi in Hrun. cbn [default] in Hrun.
  set (upd := fun st : bool * StripColor => Breathe_update low high (fst st) (snd st)) in *.
  assert (Hst : forall k, (1 <= k)%nat ->
    Breathe_color (run k) = Some (snd (Nat.iter k upd (true, low))) /\
    Breathe_increase (run k) = fst (Nat.iter k upd (true, low)) /\
    shown (run k) = replicate n (to_rgb (snd (Nat.iter k upd (true, low))))).
  { intros k Hk. destruct (Hrun k) as (_ & _ & _ & H1 & _ & H2).
    destruct (H2 Hk) as [H3 H4]. auto. }
  assert (HD : Z.of_nat D = span low high) by (unfold D; lia).
  assert (Hup : forall k, (k <= D)%nat ->
    Nat.iter k upd (true, low) = ((k <? D)%nat, ramp_up low high (Z.of_nat k))).
  { intros k Hk. unfold upd. rewrite (wave_up low high Hlow Hhigh Hle Hspan) by lia.
    f_equal. destruct (Nat.ltb_spec k D), (Z.ltb_spec (Z.of_nat k) (span low high));
      try reflexivity; lia. }
  assert (Hdown : forall j, (1 <= j <= D)%nat ->
    Nat.iter (D + j) upd (true, low) = ((j =? D)%nat, ramp_down low high (Z.of_nat j))).
  { intros j Hj. rewrite Nat.add_comm, iter_add, (Hup D) by lia.
    rewrite Nat.ltb_irrefl, HD, (ramp_up_top low high Hle).
    unfold upd. rewrite (wave_down low high Hlow Hhigh Hle Hspan) by lia.
    f_equal. destruct (Nat.eqb_spec j 0); [lia|].
    destruct (Nat.eqb_spec j D), (Z.eqb_spec (Z.of_nat j) (span low high));
      try reflexivity; lia. }
  assert (Hper : Nat.iter (2 * D) upd (true, low) = (true, low))
    by exact (wave_period low high Hlow Hhigh Hle Hspan).
  split; [|split; [|split; [|split; [|split]]]].
  - intros k Hk. destruct (Hst k) as (H1 & H2 & H3); [lia|].
    rewrite H1, H2, H3, Hup by lia. repeat split.
  - intros j Hj. destruct (Hst (D + j)%nat) as (H1 & H2 & H3); [lia|].
    rewrite H1, H2, H3, Hdown by lia. repeat split.
  - destruct (Hst D) as (H1 & _); [lia|]. rewrite H1, Hup by lia. cbn [snd].
    rewrite HD, (ramp_up_top low high Hle). reflexivity.
  - destruct (Hst (2 * D)%nat) as (H1 & _); [lia|]. rewrite H1, Hper. reflexivity.
  - intros k Hk. destruct (Hst k Hk) as (H1 & H2 & H3).
    destruct (Hst (k + 2 * D)%nat) as (G1 & G2 & G3); [lia|].
    rewrite iter_add, Hper in G1, G2, G3.
    rewrite H1, H2, H3, G1, G2, G3. repeat split.
  - assert (Hinv : forall k, color_le low (snd (Nat.iter k upd (true, low))) /\
                             color_le (snd (Nat.iter k upd (true, low))) high).
    { induction k as [|k [IH1 IH2]].
      - cbn. split; [|exact Hle]. unfold color_le. lia.
      - change (Nat.iter (S k) upd (true, low)) with (upd (Nat.iter k upd (true, low))).
        unfold upd at 1 3. apply Breathe_update_bounds; assumption. }
    intros k c Hk. destruct k as [|k].
    + unfold run in Hk.
      change (ticks 0 (Breathe low high interval_ms s))
        with (StartStripTask interval_ms (BreatheStep low high) s) in Hk.
      destruct (StartStripTask_statics interval_ms (BreatheStep low high) s) as (_ & _ & _ & E).
      rewrite E, Hc in Hk. discriminate Hk.
    + destruct (Hst (S k)) as (H1 & _); [lia|]. rewrite H1 in Hk. injection Hk as <-.
      exact (Hinv (S k)).
Qed.

Lemma Breathe_wave_witness :
  let s := new 6 in
  let low := mkColor 0 2 4 in
  let high := mkColor 3 10 4 in
  let run k := ticks k (Breathe low high 20 s) in
  (forall k, (1 <= k <= 8)%nat ->
     Breathe_color (run k) = Some (ramp_up low high (Z.of_nat k)) /\
     Breathe_increase (run k) = (k <? 8)%nat /\
     shown (run k) = replicate 6%nat (to_rgb (ramp_up low high (Z.of_nat k)))) /\
  (forall j, (1 <= j <= 8)%nat ->
     Breathe_color (run (8 + j)%nat) = Some (ramp_down low high (Z.of_nat j)) /\
     Breathe_increase (run (8 + j)%nat) = (j =? 8)%nat /\
     shown (run (8 + j)%nat) = replicate 6%nat (to_rgb (ramp_down low high (Z.of_nat j)))) /\
  Breathe_color (run 8%nat) = Some high /\
  Breathe_color (run 16%nat) = Some low /\
  (forall k, (1 <= k)%nat ->
     Breathe_color (run (k + 16)%nat) = Breathe_color (run k) /\
     Breathe_increase (run (k + 16)%nat) = Breathe_increase (run k) /\
     shown (run (k + 16)%nat) = shown (run k)) /\
  (forall k c, Breathe_color (run k) = Some c -> color_le low c /\ color_le c high).
Proof.
  apply (Breathe_wave (new 6) (mkColor 0 2 4) (mkColor 3 10 4) 20
           (new_shape 6 ltac:(discriminate)) eq_refl eq_refl).
  - unfold color_ok, channel_ok. cbn. lia.
  - unfold color_ok, channel_ok. cbn. lia.
  - unfold color_le. cbn. lia.
  - unfold span. cbn [red green blue]. lia.
Defined.

(** *** Locking *)

Lemma plain_seq {St} (tr_of : St -> list Event) (c1 c2 : St -> St) :
  plain_cmd tr_of c1 -> plain_cmd tr_of c2 -> plain_cmd tr_of (fun s => c2 (c1 s)).
Proof.
  intros H1 H2 s. destruct (H1 s) as (t1 & E1 & P1). destruct (H2 (c1 s)) as (t2 & E2 & P2).
  exists (t1 ++ t2). split.
  - rewrite E2, E1, <- app_assoc. reflexivity.
  - rewrite forallb_app, P1, P2. reflexivity.
Qed.

Lemma plain_seq_cmd (c1 c2 : Cmd) :
  plain_cmd trace_ c1 -> plain_cmd trace_ c2 -> plain_cmd trace_ (seq_cmd c1 c2).
Proof. exact (plain_seq trace_ c1 c2). Qed.

Lemma plain_same {St} (tr_of : St -> list Event) (c : St -> St) :
  (forall s, tr_of (c s) = tr_of s) -> plain_cmd tr_of c.
Proof. intros H s. exists []. rewrite H, app_nil_r. auto. Qed.

Lemma plain_emit e : plain_event e = true -> plain_cmd trace_ (emit e).
Proof. intros H s. exists [e]. cbn. rewrite H. auto. Qed.

Lemma plain_for_loop {St} (tr_of : St -> list Event) (body : Z -> St -> St) :
  (forall i, plain_cmd tr_of (body i)) ->
  forall count i, plain_cmd tr_of (for_loop i count body).
Proof.
  intros Hb. induction count as [|count IH]; intros i.
  - apply plain_same. reflexivity.
  - cbn [for_loop]. apply (plain_seq tr_of (body i) (for_loop (i + 1) count body));
      [apply Hb|apply IH].
Qed.

Lemma plain_dep {St} (tr_of : St -> list Event) (c : St -> St -> St) :
  (forall s0, plain_cmd tr_of (c s0)) -> plain_cmd tr_of (fun s => c s s).
Proof. intros H s. apply (H s s). Qed.

Lemma plain_for_leds (body : Z -> Cmd) :
  (forall i, plain_cmd trace_ (body i)) -> plain_cmd trace_ (for_leds body).
Proof.
  intros Hb. unfold for_leds.
  apply (plain_dep trace_ (fun s0 => for_loop 0 (Z.to_nat (max_leds_ s0)) body)).
  intros s0. apply plain_for_loop. exact Hb.
Qed.

Lemma plain_modify i f : plain_cmd trace_ (modify i f).
Proof.
  intros s. exists [EvStore i]. unfold modify. destruct (in_bounds i s); auto.
Qed.

Lemma plain_with_driver f : plain_cmd trace_ (with_driver f).
Proof. apply plain_same. intros s. unfold with_driver. destruct (led_strip_ s); reflexivity. Qed.

Lemma plain_set_pixel i r g b : plain_cmd trace_ (led_strip_set_pixel i r g b).
Proof.
  unfold led_strip_set_pixel.
  apply plain_seq_cmd; [apply plain_with_driver|apply plain_emit; reflexivity].
Qed.

Lemma plain_refresh : plain_cmd trace_ led_strip_refresh.
Proof.
  unfold led_strip_refresh.
  apply plain_seq_cmd; [apply plain_with_driver|apply plain_emit; reflexivity].
Qed.

Lemma plain_clear : plain_cmd trace_ led_strip_clear.
Proof.
  unfold led_strip_clear.
  apply plain_seq_cmd; [apply plain_with_driver|apply plain_emit; reflexivity].
Qed.

Lemma plain_timer_stop : plain_cmd trace_ esp_timer_stop.
Proof.
  unfold esp_timer_stop.
  apply plain_seq_cmd; [apply plain_same; reflexivity|apply plain_emit; reflexivity].
Qed.

Lemma plain_if (b : Strip -> bool) (c1 c2 : Cmd) :
  plain_cmd trace_ c1 -> plain_cmd trace_ c2 ->
  plain_cmd trace_ (fun s => if b s then c1 s else c2 s).
Proof. intros H1 H2 s. destruct (b s); [apply H1|apply H2]. Qed.

Lemma plain_show_buffer :
  plain_cmd trace_ (for_leds (fun i s' =>
    led_strip_set_pixel i (red (load i s')) (green (load i s')) (blue (load i s')) s')).
Proof.
  apply plain_for_leds. intros i.
  apply (plain_dep trace_ (fun s0 =>
    led_strip_set_pixel i (red (load i s0)) (green (load i s0)) (blue (load i s0)))).
  intros s0. apply plain_set_pixel.
Qed.

Lemma plain_Blink_step : plain_cmd trace_ Blink_step.
Proof.
  intros s. unfold Blink_step.
  change (trace_ (set_Blink_on (negb (Blink_on s)) ?x)) with (trace_ x).
  destruct (Blink_on s).
  - apply (plain_seq_cmd _ _ plain_show_buffer plain_refresh).
  - apply plain_clear.
Qed.

Lemma plain_FadeOut_body i : plain_cmd (fun st => trace_ (snd st)) (FadeOut_body i).
Proof.
  intros [b s]. unfold FadeOut_body. cbn [snd fst].
  set (m1 := modify i _ s). set (m2 := modify i _ m1). set (m3 := modify i _ m2).
  destruct (plain_modify i (fun c => mkColor (wrap8 (Z.quot (red c) 2)) (green c) (blue c)) s)
    as (t1 & E1 & P1). fold m1 in E1.
  destruct (plain_modify i (fun c => mkColor (red c) (wrap8 (Z.quot (green c) 2)) (blue c)) m1)
    as (t2 & E2 & P2). fold m2 in E2.
  destruct (plain_modify i (fun c => mkColor (red c) (green c) (wrap8 (Z.quot (blue c) 2))) m2)
    as (t3 & E3 & P3). fold m3 in E3.
  destruct (plain_set_pixel i (red (load i m3)) (green (load i m3)) (blue (load i m3)) m3)
    as (t4 & E4 & P4).
  exists (t1 ++ t2 ++ t3 ++ t4). split.
  - rewrite E4, E3, E2, E1, <- !app_assoc. reflexivity.
  - rewrite !forallb_app, P1, P2, P3, P4. reflexivity.
Qed.

Lemma plain_FadeOut_step : plain_cmd trace_ FadeOut_step.
Proof.
  intros s. unfold FadeOut_step.
  destruct (plain_for_loop (fun st => trace_ (snd st)) FadeOut_body plain_FadeOut_body
              (Z.to_nat (max_leds_ s)) 0 (true, s)) as (t1 & E1 & P1).
  cbn [snd] in E1.
  set (st := for_loop 0 (Z.to_nat (max_leds_ s)) FadeOut_body (true, s)) in *.
  destruct (fst st).
  - destruct (plain_seq_cmd _ _ plain_clear plain_timer_stop (snd st)) as (t2 & E2 & P2).
    exists (t1 ++ t2). rewrite E2, E1, <- app_assoc, forallb_app, P1, P2. auto.
  - destruct (plain_refresh (snd st)) as (t2 & E2 & P2).
    exists (t1 ++ t2). rewrite E2, E1, <- app_assoc, forallb_app, P1, P2. auto.
Qed.

Lemma plain_Breathe_step low high : plain_cmd trace_ (Breathe_step low high).
Proof.
  intros s. unfold Breathe_step. cbv zeta.
  set (st := Breathe_update low high (Breathe_increase s) (default low (Breathe_color s))).
  destruct (plain_seq_cmd _ _
              (plain_for_leds _ (fun i => plain_set_pixel i (red (snd st)) (green (snd st))
                                                           (blue (snd st))))
              plain_refresh (set_Breathe (fst st) (Some (snd st)) s)) as (t & E & P).
  exists t. split; [exact E|exact P].
Qed.

Lemma plain_Scroll_step low high len : plain_cmd trace_ (Scroll_step low high len).
Proof.
  unfold Scroll_step.
  apply plain_seq_cmd; [|apply plain_seq_cmd; [|apply plain_seq_cmd; [|apply plain_seq_cmd]]].
  - apply plain_for_leds. intros i. apply plain_modify.
  - apply plain_for_loop. intros j.
    apply (plain_dep trace_ (fun s0 =>
      store (Z.rem (wrap32 (Scroll_offset s0 + j)) (max_leds_ s0)) high)).
    intros s0. apply plain_modify.
  - apply plain_show_buffer.
  - apply plain_refresh.
  - apply plain_same. reflexivity.
Qed.

Lemma plain_run cb : plain_cmd trace_ (run cb).
Proof.
  destruct cb; cbn [run];
    [apply plain_Blink_step|apply plain_FadeOut_step|apply plain_Breathe_step
    |apply plain_Scroll_step].
Qed.

Lemma plain_locked body : forallb plain_event body = true ->
  forall rest, stores_locked true (body ++ rest) = stores_locked true rest.
Proof.
  induction body as [|e body IH]; intros H rest; [reflexivity|].
  cbn in H. apply andb_true_iff in H as [He Hb].
  destruct e; try discriminate He; cbn; rewrite ?IH by exact Hb; reflexivity.
Qed.

Lemma lock_guard_section (body : Cmd) :
  plain_cmd trace_ body -> forall s, critical_section s (lock_guard body s).
Proof.
  intros Hb s. unfold lock_guard, seq_cmd.
  destruct (Hb (emit EvLock s)) as (tr & E & P).
  exists tr. split; [|split; [exact P|]].
  - cbn [emit trace_] in *. rewrite E, <- !app_assoc. reflexivity.
  - cbn [stores_locked]. rewrite plain_locked by exact P. reflexivity.
Qed.

(** X6: a timer tick, whatever step is installed, [SetAllColor] and
    [SetSingleColor], whatever the index, each run as one critical section:
    the lock is taken first and released last, so the timer call, every write
    to the buffer and every call of the driver they make happens with the
    lock held. *)
Theorem writes_under_lock (s : Strip) :
  critical_section s (timer_callback s) /\
  (forall color, critical_section s (SetAllColor color s)) /\
  (forall index color, critical_section s (SetSingleColor index color s)).
Proof.
  split; [|split].
  - unfold timer_callback. apply lock_guard_section.
    intros s0. destruct (strip_callback_ s0) as [cb|].
    + apply plain_run.
    + exists []. rewrite app_nil_r. auto.
  - intros color. unfold SetAllColor. apply lock_guard_section.
    apply plain_seq_cmd; [|apply plain_seq_cmd].
    + apply plain_timer_stop.
    + apply plain_for_leds. intros i.
      apply plain_seq_cmd; [apply plain_modify|apply plain_set_pixel].
    + apply plain_refresh.
  - intros index color. unfold SetSingleColor. apply lock_guard_section.
    apply plain_seq_cmd; [|apply plain_seq_cmd; [|apply plain_seq_cmd]].
    + apply plain_timer_stop.
    + apply plain_modify.
    + apply plain_set_pixel.
    + apply plain_refresh.
Qed.

End CircularStripMore.
